(** * NexiTrade backend: risk, paper broker, persistence, strategy, rebalancer

    A shallow embedding of the decision logic of
      - risk/circuit_breakers.py   (CircuitBreakerManager)
      - risk/limits.py             (RiskLimits)
      - risk/stop_rules.py         (StopLossManager)
      - paper/broker_paper.py      (PaperBroker, with execution/fees.py and
                                    execution/slippage.py)
      - db/crud.py                 (update_order_status)
      - strategies/trend_atr.py    (TrendATRStrategy)
      - portfolio/rebalancer.py    (Rebalancer)

    Conventions of the embedding.

    Numbers.  Python [float] (and the [int]s the tests pass where a float is
    expected) are idealised as exact rationals [Q]: rounding, infinities and
    signed zeros are outside the model.  Equality of computed amounts is
    therefore [Qeq] ([==]).  Python raises [ZeroDivisionError] on [x / 0];
    that is kept: [pydiv] returns [None] and the callers raise.  A pandas
    cell that holds NaN is modelled as [None] (see [TrendATR]).

    Two decisions compare a computed quotient with a configured threshold,
    and there the last binary place decides: the drawdown test of
    [check_drawdown] and the exposure caps of [can_place_order].  For these
    the two methods are embedded a second time as the code computes them, on
    IEEE 754 binary64 numbers (Rocq's primitive [float]), in
    [CircuitBreaker64] and [Limits64].

    Time.  A [datetime] is the number of microseconds since the epoch, a
    [timedelta] a number of microseconds.  Every reading of [now_utc()] is an
    explicit argument, in the order in which the code reads the clock.

    Dictionaries are stdpp [gmap]s keyed by [string].  Where the code
    iterates over a dict and the order shows in the result, the iteration
    order is an explicit argument.

    Third-party code.  The columns pandas and pandas_ta compute
    ([rolling(w).mean()], [ta.atr]) are parameters of [generate_signals];
    [rolling_mean] is the rolling mean in exact arithmetic.

    Logging calls are dropped: they do not influence any returned value or
    any field. *)

From Stdlib Require Import Floats.
From Stdlib Require Import ZArith QArith Qabs Lia Lqa List Ascii.
From stdpp Require Import gmap strings list.

(** Decimal literals of type [float] denote the nearest binary64 number. *)
Set Warnings "-inexact-float".

Local Open Scope Q_scope.

(** ** Python numbers and exceptions *)

Inductive exn := ZeroDivisionError | IndexError | TypeError.

(** The outcome of a method call on an object of type [S]: the value it
    returns, or the exception it raises, together with the object as the call
    left it. *)
Inductive outcome (A S : Type) :=
| Return (a : A) (s : S)
| Raise (e : exn) (s : S).
Arguments Return {A S} a s.
Arguments Raise {A S} e s.

Definition Qltb (x y : Q) : bool := negb (Qle_bool y x).

(** [x / y] on Python floats. *)
Definition pydiv (x y : Q) : option Q :=
  if Qeq_bool y 0 then None else Some (x / y).

(** [max(a, b)]: Python returns the first argument unless the second is
    strictly greater. *)
Definition pymax (a b : Q) : Q := if Qltb a b then b else a.

(** [bool(x)] for [x : Optional[float]]: [None] and zero are falsy. *)
Definition truthy (o : option Q) : bool :=
  match o with
  | Some x => negb (Qeq_bool x 0)
  | None => false
  end.

(** [sum(d.values())]: the values are added to 0 from left to right. *)
Definition sum_values (d : gmap string Q) : Q :=
  foldl Qplus 0 (snd <$> map_to_list d).

(** ** Python floats as binary64 *)

Module Float64.

(** [x / y]: [ZeroDivisionError] on a zero divisor of either sign, the IEEE
    quotient otherwise. *)
Definition pydiv (x y : float) : option float :=
  if (y =? 0)%float then None else Some (x / y)%float.

(** [max(a, b)]: the first argument unless the second is strictly
    greater. *)
Definition pymax (a b : float) : float :=
  if (a <? b)%float then b else a.

(** [sum(d.values())] by plain additions from 0 in the order given. *)
Definition sum_left (xs : list float) : float :=
  foldl PrimFloat.add 0%float xs.

(** The rational number a finite float stands for. *)
Definition value (x : float) : option Q :=
  match Prim2SF x with
  | S754_zero _ => Some 0
  | S754_finite s m e =>
      Some (inject_Z (if s then Z.neg m else Z.pos m) * Qpower 2 e)
  | _ => None
  end.

End Float64.

(** ** Time *)

Definition datetime := Z.
Bind Scope Z_scope with datetime.

Definition microseconds_per_minute : Z := 60000000.
Definition microseconds_per_hour : Z := 3600000000.
Definition microseconds_per_day : Z := 86400000000.

(** [dt.date()], as a day number. *)
Definition date (t : datetime) : Z := (t / microseconds_per_day)%Z.

(** ** risk/circuit_breakers.py *)

Module CircuitBreaker.

(** The text of [trigger_reason]; the numbers the f-strings interpolate are
    kept as data. *)
Inductive reason :=
| NoReason
| MaxDailyDrawdownExceeded (drawdown threshold : Q)
| TooManyFailedOrders (n : nat)
| Manual (text : string).

Record CircuitBreakerState := {
  triggered : bool;
  trigger_time : option datetime;
  trigger_reason : reason;
  can_resume_at : option datetime;
}.

Record CircuitBreakerManager := {
  max_daily_drawdown : Q;
  max_failed_orders_per_hour : Z;
  cooldown_minutes : Z;
  state : CircuitBreakerState;
  failed_orders_history : list datetime;
  daily_high_equity : option Q;
  last_reset_date : option datetime;
}.

Definition untriggered : CircuitBreakerState :=
  {| triggered := false; trigger_time := None;
     trigger_reason := NoReason; can_resume_at := None |}.

(** [__init__], defaults 0.04, 10, 60. *)
Definition init (dd : Q) (max_failed cooldown : Z) : CircuitBreakerManager :=
  {| max_daily_drawdown := dd;
     max_failed_orders_per_hour := max_failed;
     cooldown_minutes := cooldown;
     state := untriggered;
     failed_orders_history := [];
     daily_high_equity := None;
     last_reset_date := None |}.

Definition with_defaults : CircuitBreakerManager := init (4 # 100) 10 60.

Definition set_state (st : CircuitBreakerState) (m : CircuitBreakerManager)
  : CircuitBreakerManager :=
  {| max_daily_drawdown := max_daily_drawdown m;
     max_failed_orders_per_hour := max_failed_orders_per_hour m;
     cooldown_minutes := cooldown_minutes m;
     state := st;
     failed_orders_history := failed_orders_history m;
     daily_high_equity := daily_high_equity m;
     last_reset_date := last_reset_date m |}.

Definition set_history (h : list datetime) (m : CircuitBreakerManager)
  : CircuitBreakerManager :=
  {| max_daily_drawdown := max_daily_drawdown m;
     max_failed_orders_per_hour := max_failed_orders_per_hour m;
     cooldown_minutes := cooldown_minutes m;
     state := state m;
     failed_orders_history := h;
     daily_high_equity := daily_high_equity m;
     last_reset_date := last_reset_date m |}.

Definition set_daily (high : option Q) (reset_date : option datetime)
    (m : CircuitBreakerManager) : CircuitBreakerManager :=
  {| max_daily_drawdown := max_daily_drawdown m;
     max_failed_orders_per_hour := max_failed_orders_per_hour m;
     cooldown_minutes := cooldown_minutes m;
     state := state m;
     failed_orders_history := failed_orders_history m;
     daily_high_equity := high;
     last_reset_date := reset_date |}.

(** [_trigger(reason)]; [now] is the clock reading inside it. *)
Definition _trigger (now : datetime) (r : reason) (m : CircuitBreakerManager)
  : CircuitBreakerManager :=
  if triggered (state m) then m
  else set_state
         {| triggered := true;
            trigger_time := Some now;
            trigger_reason := r;
            can_resume_at :=
              Some (now + cooldown_minutes m * microseconds_per_minute)%Z |}
         m.

(** The first half of [check_drawdown]: the day roll-over and the running
    maximum (lines 71-79). *)
Definition update_daily_high (now : datetime) (current_equity starting_equity : Q)
    (m : CircuitBreakerManager) : CircuitBreakerManager :=
  let m1 :=
    match last_reset_date m with
    | None => set_daily (Some starting_equity) (Some now) m
    | Some d =>
        if (date d <? date now)%Z
        then set_daily (Some starting_equity) (Some now) m
        else m
    end in
  match daily_high_equity m1 with
  | None => set_daily (Some (pymax starting_equity current_equity))
                      (last_reset_date m1) m1
  | Some h => set_daily (Some (pymax h current_equity)) (last_reset_date m1) m1
  end.

(** [self.daily_high_equity] once updated; the update always stores a
    number. *)
Definition daily_high (m : CircuitBreakerManager) : Q :=
  match daily_high_equity m with Some h => h | None => 0 end.

(** [check_drawdown(current_equity, starting_equity)]; [now] is the clock
    reading of the method, [trig_now] the one taken by [_trigger]. *)
Definition check_drawdown (now trig_now : datetime)
    (current_equity starting_equity : Q) (m : CircuitBreakerManager)
  : outcome bool CircuitBreakerManager :=
  if triggered (state m) then Return true m
  else
    let m1 := update_daily_high now current_equity starting_equity m in
    match pydiv (daily_high m1 - current_equity) (daily_high m1) with
    | None => Raise ZeroDivisionError m1
    | Some drawdown =>
        if Qle_bool (max_daily_drawdown m1) drawdown
        then Return true
               (_trigger trig_now
                  (MaxDailyDrawdownExceeded drawdown (max_daily_drawdown m1)) m1)
        else Return false m1
    end.

(** [record_failed_order()]. *)
Definition record_failed_order (now trig_now : datetime)
    (m : CircuitBreakerManager) : bool * CircuitBreakerManager :=
  if triggered (state m) then (true, m)
  else
    let cutoff := (now - microseconds_per_hour)%Z in
    let history :=
      filter (fun t => (cutoff < t)%Z) (failed_orders_history m ++ [now]) in
    let m1 := set_history history m in
    if (max_failed_orders_per_hour m1 <=? Z.of_nat (length history))%Z
    then (true, _trigger trig_now (TooManyFailedOrders (length history)) m1)
    else (false, m1).

(** [manual_kill_switch(reason)]. *)
Definition manual_kill_switch (now : datetime) (text : string)
    (m : CircuitBreakerManager) : CircuitBreakerManager :=
  _trigger now (Manual text) m.

(** [can_trade()].  The clock is read only to decide whether to log the
    "cooldown passed" warning. *)
Definition cooldown_passed (now : datetime) (m : CircuitBreakerManager) : bool :=
  match can_resume_at (state m) with
  | Some r => (r <=? now)%Z
  | None => false
  end.

Definition can_trade (now : datetime) (m : CircuitBreakerManager) : bool :=
  if negb (triggered (state m)) then true
  else let _warn := cooldown_passed now m in false.

(** [reset(force)]. *)
Definition in_cooldown (now : datetime) (m : CircuitBreakerManager) : bool :=
  match can_resume_at (state m) with
  | Some r => (now <? r)%Z
  | None => false
  end.

Definition reset (force : bool) (now : datetime) (m : CircuitBreakerManager)
  : CircuitBreakerManager :=
  if negb (triggered (state m)) then m
  else if negb force && in_cooldown now m then m
  else set_history [] (set_state untriggered m).

End CircuitBreaker.

(** *** The drawdown check on binary64 numbers

    The part of [CircuitBreakerManager] that [check_drawdown] and
    [can_trade] read or write, with the equities, the high-water mark and
    the threshold as [float]s and every operation the one Python
    performs. *)

Module CircuitBreaker64.

Inductive reason :=
| NoReason
| MaxDailyDrawdownExceeded (drawdown threshold : float)
| TooManyFailedOrders (n : nat)
| Manual (text : string).

Record CircuitBreakerState := {
  triggered : bool;
  trigger_time : option datetime;
  trigger_reason : reason;
  can_resume_at : option datetime;
}.

Record CircuitBreakerManager := {
  max_daily_drawdown : float;
  max_failed_orders_per_hour : Z;
  cooldown_minutes : Z;
  state : CircuitBreakerState;
  failed_orders_history : list datetime;
  daily_high_equity : option float;
  last_reset_date : option datetime;
}.

Definition untriggered : CircuitBreakerState :=
  {| triggered := false; trigger_time := None;
     trigger_reason := NoReason; can_resume_at := None |}.

(** [__init__], defaults 0.04, 10, 60. *)
Definition init (dd : float) (max_failed cooldown : Z) : CircuitBreakerManager :=
  {| max_daily_drawdown := dd;
     max_failed_orders_per_hour := max_failed;
     cooldown_minutes := cooldown;
     state := untriggered;
     failed_orders_history := [];
     daily_high_equity := None;
     last_reset_date := None |}.

Definition with_defaults : CircuitBreakerManager := init 0.04 10 60.

Definition set_state (st : CircuitBreakerState) (m : CircuitBreakerManager)
  : CircuitBreakerManager :=
  {| max_daily_drawdown := max_daily_drawdown m;
     max_failed_orders_per_hour := max_failed_orders_per_hour m;
     cooldown_minutes := cooldown_minutes m;
     state := st;
     failed_orders_history := failed_orders_history m;
     daily_high_equity := daily_high_equity m;
     last_reset_date := last_reset_date m |}.

Definition set_daily (high : option float) (reset_date : option datetime)
    (m : CircuitBreakerManager) : CircuitBreakerManager :=
  {| max_daily_drawdown := max_daily_drawdown m;
     max_failed_orders_per_hour := max_failed_orders_per_hour m;
     cooldown_minutes := cooldown_minutes m;
     state := state m;
     failed_orders_history := failed_orders_history m;
     daily_high_equity := high;
     last_reset_date := reset_date |}.

(** [_trigger(reason)]; [now] is the clock reading inside it. *)
Definition _trigger (now : datetime) (r : reason) (m : CircuitBreakerManager)
  : CircuitBreakerManager :=
  if triggered (state m) then m
  else set_state
         {| triggered := true;
            trigger_time := Some now;
            trigger_reason := r;
            can_resume_at :=
              Some (now + cooldown_minutes m * microseconds_per_minute)%Z |}
         m.

(** The first half of [check_drawdown]: the day roll-over and the running
    maximum (lines 71-79). *)
Definition update_daily_high (now : datetime)
    (current_equity starting_equity : float)
    (m : CircuitBreakerManager) : CircuitBreakerManager :=
  let m1 :=
    match last_reset_date m with
    | None => set_daily (Some starting_equity) (Some now) m
    | Some d =>
        if (date d <? date now)%Z
        then set_daily (Some starting_equity) (Some now) m
        else m
    end in
  match daily_high_equity m1 with
  | None => set_daily (Some (Float64.pymax starting_equity current_equity))
                      (last_reset_date m1) m1
  | Some h => set_daily (Some (Float64.pymax h current_equity))
                        (last_reset_date m1) m1
  end.

(** [self.daily_high_equity] once updated; the update always stores a
    number. *)
Definition daily_high (m : CircuitBreakerManager) : float :=
  match daily_high_equity m with Some h => h | None => 0%float end.

(** [check_drawdown(current_equity, starting_equity)]; [now] is the clock
    reading of the method, [trig_now] the one taken by [_trigger]. *)
Definition check_drawdown (now trig_now : datetime)
    (current_equity starting_equity : float) (m : CircuitBreakerManager)
  : outcome bool CircuitBreakerManager :=
  if triggered (state m) then Return true m
  else
    let m1 := update_daily_high now current_equity starting_equity m in
    match Float64.pydiv (daily_high m1 - current_equity)%float (daily_high m1) with
    | None => Raise ZeroDivisionError m1
    | Some drawdown =>
        if (max_daily_drawdown m1 <=? drawdown)%float
        then Return true
               (_trigger trig_now
                  (MaxDailyDrawdownExceeded drawdown (max_daily_drawdown m1)) m1)
        else Return false m1
    end.

(** [can_trade()].  The clock is read only to decide whether to log the
    "cooldown passed" warning. *)
Definition cooldown_passed (now : datetime) (m : CircuitBreakerManager) : bool :=
  match can_resume_at (state m) with
  | Some r => (r <=? now)%Z
  | None => false
  end.

Definition can_trade (now : datetime) (m : CircuitBreakerManager) : bool :=
  if negb (triggered (state m)) then true
  else let _warn := cooldown_passed now m in false.

End CircuitBreaker64.

(** ** risk/limits.py *)

Module Limits.

Record TradeRecord := {
  timestamp : datetime;
  symbol : string;
  side : string;
}.

Record RiskLimits := {
  max_trades_per_minute : Z;
  max_trades_per_day : Z;
  max_position_exposure_pct : Q;
  max_total_exposure_pct : Q;
  trade_history : list TradeRecord;
  position_exposures : gmap string Q;
}.

(** The reason strings; [NoReason] is the empty string returned on
    acceptance, the others keep the interpolated numbers as data. *)
Inductive reason :=
| NoReason
| TradeRateLimitExceeded (trades_last_minute : nat)
| DailyTradeLimitExceeded (trades_today : nat)
| PositionExposureLimitExceeded (sym : string) (exposure_pct cap : Q)
| TotalExposureLimitExceeded (total_exposure_pct cap : Q).

(** [__init__], defaults 6, 1200, 0.25, 0.80. *)
Definition init (per_minute per_day : Z) (position_pct total_pct : Q) : RiskLimits :=
  {| max_trades_per_minute := per_minute;
     max_trades_per_day := per_day;
     max_position_exposure_pct := position_pct;
     max_total_exposure_pct := total_pct;
     trade_history := [];
     position_exposures := ∅ |}.

Definition with_defaults : RiskLimits := init 6 1200 (25 # 100) (80 # 100).

Definition set_trade_history (h : list TradeRecord) (rl : RiskLimits) : RiskLimits :=
  {| max_trades_per_minute := max_trades_per_minute rl;
     max_trades_per_day := max_trades_per_day rl;
     max_position_exposure_pct := max_position_exposure_pct rl;
     max_total_exposure_pct := max_total_exposure_pct rl;
     trade_history := h;
     position_exposures := position_exposures rl |}.

Definition set_position_exposures (e : gmap string Q) (rl : RiskLimits) : RiskLimits :=
  {| max_trades_per_minute := max_trades_per_minute rl;
     max_trades_per_day := max_trades_per_day rl;
     max_position_exposure_pct := max_position_exposure_pct rl;
     max_total_exposure_pct := max_total_exposure_pct rl;
     trade_history := trade_history rl;
     position_exposures := e |}.

(** [[t for t in history if t.timestamp > cutoff]]. *)
Definition newer_than (cutoff : datetime) (h : list TradeRecord) : list TradeRecord :=
  filter (fun t => (cutoff < timestamp t)%Z) h.

(** [_check_rate_limits(now)]. *)
Definition _check_rate_limits (now : datetime) (rl : RiskLimits)
  : (bool * reason) * RiskLimits :=
  let one_minute_ago := (now - microseconds_per_minute)%Z in
  let one_day_ago := (now - microseconds_per_day)%Z in
  let rl1 := set_trade_history (newer_than one_day_ago (trade_history rl)) rl in
  let trades_last_minute := newer_than one_minute_ago (trade_history rl1) in
  if (max_trades_per_minute rl1 <=? Z.of_nat (length trades_last_minute))%Z
  then ((false, TradeRateLimitExceeded (length trades_last_minute)), rl1)
  else if (max_trades_per_day rl1 <=? Z.of_nat (length (trade_history rl1)))%Z
  then ((false, DailyTradeLimitExceeded (length (trade_history rl1))), rl1)
  else ((true, NoReason), rl1).

(** [can_place_order(symbol, side, position_value, equity)]. *)
Definition can_place_order (now : datetime) (sym sd : string)
    (position_value equity : Q) (rl : RiskLimits)
  : outcome (bool * reason) RiskLimits :=
  let '((can_trade, why), rl1) := _check_rate_limits now rl in
  if negb can_trade then Return (false, why) rl1
  else
    let current_exposure := default 0 (position_exposures rl1 !! sym) in
    let new_exposure := current_exposure + position_value in
    match pydiv new_exposure equity with
    | None => Raise ZeroDivisionError rl1
    | Some exposure_pct =>
        if Qltb (max_position_exposure_pct rl1) exposure_pct
        then Return (false, PositionExposureLimitExceeded sym exposure_pct
                              (max_position_exposure_pct rl1)) rl1
        else
          let total_exposure := sum_values (position_exposures rl1) + position_value in
          match pydiv total_exposure equity with
          | None => Raise ZeroDivisionError rl1
          | Some total_exposure_pct =>
              if Qltb (max_total_exposure_pct rl1) total_exposure_pct
              then Return (false, TotalExposureLimitExceeded total_exposure_pct
                                    (max_total_exposure_pct rl1)) rl1
              else Return (true, NoReason) rl1
          end
    end.

(** [record_trade(symbol, side)]. *)
Definition record_trade (now : datetime) (sym sd : string) (rl : RiskLimits)
  : RiskLimits :=
  set_trade_history
    (trade_history rl ++ [{| timestamp := now; symbol := sym; side := sd |}]) rl.

(** [update_position_exposure(symbol, exposure)]. *)
Definition update_position_exposure (sym : string) (exposure : Q) (rl : RiskLimits)
  : RiskLimits :=
  if Qle_bool exposure 0
  then set_position_exposures (delete sym (position_exposures rl)) rl
  else set_position_exposures (<[sym := exposure]> (position_exposures rl)) rl.

End Limits.

(** *** The exposure caps on binary64 numbers

    [RiskLimits] with the exposures, the proposal, the equity and the caps
    as [float]s.  The rate limits count trades and are as in [Limits]. *)

Module Limits64.

Record RiskLimits := {
  max_trades_per_minute : Z;
  max_trades_per_day : Z;
  max_position_exposure_pct : float;
  max_total_exposure_pct : float;
  trade_history : list Limits.TradeRecord;
  position_exposures : gmap string float;
}.

Inductive reason :=
| NoReason
| TradeRateLimitExceeded (trades_last_minute : nat)
| DailyTradeLimitExceeded (trades_today : nat)
| PositionExposureLimitExceeded (sym : string) (exposure_pct cap : float)
| TotalExposureLimitExceeded (total_exposure_pct cap : float).

(** [__init__], defaults 6, 1200, 0.25, 0.80. *)
Definition init (per_minute per_day : Z) (position_pct total_pct : float)
  : RiskLimits :=
  {| max_trades_per_minute := per_minute;
     max_trades_per_day := per_day;
     max_position_exposure_pct := position_pct;
     max_total_exposure_pct := total_pct;
     trade_history := [];
     position_exposures := ∅ |}.

Definition with_defaults : RiskLimits := init 6 1200 0.25 0.8.

Definition set_trade_history (h : list Limits.TradeRecord) (rl : RiskLimits)
  : RiskLimits :=
  {| max_trades_per_minute := max_trades_per_minute rl;
     max_trades_per_day := max_trades_per_day rl;
     max_position_exposure_pct := max_position_exposure_pct rl;
     max_total_exposure_pct := max_total_exposure_pct rl;
     trade_history := h;
     position_exposures := position_exposures rl |}.

Definition set_position_exposures (e : gmap string float) (rl : RiskLimits)
  : RiskLimits :=
  {| max_trades_per_minute := max_trades_per_minute rl;
     max_trades_per_day := max_trades_per_day rl;
     max_position_exposure_pct := max_position_exposure_pct rl;
     max_total_exposure_pct := max_total_exposure_pct rl;
     trade_history := trade_history rl;
     position_exposures := e |}.

(** [_check_rate_limits(now)]. *)
Definition _check_rate_limits (now : datetime) (rl : RiskLimits)
  : (bool * reason) * RiskLimits :=
  let one_minute_ago := (now - microseconds_per_minute)%Z in
  let one_day_ago := (now - microseconds_per_day)%Z in
  let rl1 :=
    set_trade_history (Limits.newer_than one_day_ago (trade_history rl)) rl in
  let trades_last_minute := Limits.newer_than one_minute_ago (trade_history rl1) in
  if (max_trades_per_minute rl1 <=? Z.of_nat (length trades_last_minute))%Z
  then ((false, TradeRateLimitExceeded (length trades_last_minute)), rl1)
  else if (max_trades_per_day rl1 <=? Z.of_nat (length (trade_history rl1)))%Z
  then ((false, DailyTradeLimitExceeded (length (trade_history rl1))), rl1)
  else ((true, NoReason), rl1).

(** [sum(d.values())] when the dict is iterated in key order and the
    values are added one by one from 0.  On a dict with at most one entry
    every iteration order and every way of accumulating give the same
    number. *)
Definition sum_values (d : gmap string float) : float :=
  Float64.sum_left (snd <$> map_to_list d).

Section Sum.

(** [sum(self.position_exposures.values())].  The order in which the
    values are added is the dict's insertion order and the accumulation is
    the interpreter's; a finite map records neither, so the sum is a
    parameter. *)
Variable pysum : gmap string float -> float.

(** [can_place_order(symbol, side, position_value, equity)]. *)
Definition can_place_order (now : datetime) (sym sd : string)
    (position_value equity : float) (rl : RiskLimits)
  : outcome (bool * reason) RiskLimits :=
  let '((can_trade, why), rl1) := _check_rate_limits now rl in
  if negb can_trade then Return (false, why) rl1
  else
    let current_exposure := default 0%float (position_exposures rl1 !! sym) in
    let new_exposure := (current_exposure + position_value)%float in
    match Float64.pydiv new_exposure equity with
    | None => Raise ZeroDivisionError rl1
    | Some exposure_pct =>
        if (max_position_exposure_pct rl1 <? exposure_pct)%float
        then Return (false, PositionExposureLimitExceeded sym exposure_pct
                              (max_position_exposure_pct rl1)) rl1
        else
          let total_exposure :=
            (pysum (position_exposures rl1) + position_value)%float in
          match Float64.pydiv total_exposure equity with
          | None => Raise ZeroDivisionError rl1
          | Some total_exposure_pct =>
              if (max_total_exposure_pct rl1 <? total_exposure_pct)%float
              then Return (false, TotalExposureLimitExceeded total_exposure_pct
                                    (max_total_exposure_pct rl1)) rl1
              else Return (true, NoReason) rl1
          end
    end.

End Sum.

(** [record_trade(symbol, side)]. *)
Definition record_trade (now : datetime) (sym sd : string) (rl : RiskLimits)
  : RiskLimits :=
  set_trade_history
    (trade_history rl
     ++ [{| Limits.timestamp := now; Limits.symbol := sym; Limits.side := sd |}])
    rl.

(** [update_position_exposure(symbol, exposure)]. *)
Definition update_position_exposure (sym : string) (exposure : float)
    (rl : RiskLimits) : RiskLimits :=
  if (exposure <=? 0)%float
  then set_position_exposures (delete sym (position_exposures rl)) rl
  else set_position_exposures (<[sym := exposure]> (position_exposures rl)) rl.

End Limits64.

(** ** risk/stop_rules.py *)

Module StopRules.

Record StopLevels := {
  stop_loss : option Q;
  take_profit : option Q;
  trailing_stop_distance : option Q;
  highest_price : option Q;
  lowest_price : option Q;
}.

(** [self.stops]: position_id -> stops. *)
Abbreviation StopLossManager := (gmap string StopLevels).

Inductive comparison := LE | GE.

(** "Stop loss hit: {price} <= {level}" and its three siblings. *)
Inductive close_reason :=
| StopLossHit (current_price : Q) (c : comparison) (level : Q)
| TakeProfitHit (current_price : Q) (c : comparison) (level : Q).

(** [set_stops(position_id, entry_price, side, stop_loss, take_profit,
    trailing_stop_distance)]. *)
Definition set_stops (position_id : string) (entry_price : Q) (side : string)
    (sl tp trailing : option Q) (stops : StopLossManager) : StopLossManager :=
  <[position_id :=
      {| stop_loss := sl;
         take_profit := tp;
         trailing_stop_distance := trailing;
         highest_price := if String.eqb side "buy" then Some entry_price else None;
         lowest_price := if String.eqb side "sell" then Some entry_price else None |}]>
    stops.

(** The level to put in the message: only read when the level is truthy. *)
Definition level (o : option Q) : Q := default 0 o.

(** [check_stops(position_id, current_price, side)]. *)
Definition check_stops (position_id : string) (current_price : Q) (side : string)
    (stops : StopLossManager) : bool * option close_reason :=
  match stops !! position_id with
  | None => (false, None)
  | Some s =>
      if String.eqb side "buy" then
        if truthy (stop_loss s) && Qle_bool current_price (level (stop_loss s))
        then (true, Some (StopLossHit current_price LE (level (stop_loss s))))
        else if truthy (take_profit s)
                && Qle_bool (level (take_profit s)) current_price
        then (true, Some (TakeProfitHit current_price GE (level (take_profit s))))
        else (false, None)
      else
        if truthy (stop_loss s) && Qle_bool (level (stop_loss s)) current_price
        then (true, Some (StopLossHit current_price GE (level (stop_loss s))))
        else if truthy (take_profit s)
                && Qle_bool current_price (level (take_profit s))
        then (true, Some (TakeProfitHit current_price LE (level (take_profit s))))
        else (false, None)
  end.

(** The record with a level blanked out, for comparison. *)
Definition without_stop_loss (s : StopLevels) : StopLevels :=
  {| stop_loss := None;
     take_profit := take_profit s;
     trailing_stop_distance := trailing_stop_distance s;
     highest_price := highest_price s;
     lowest_price := lowest_price s |}.

Definition without_take_profit (s : StopLevels) : StopLevels :=
  {| stop_loss := stop_loss s;
     take_profit := None;
     trailing_stop_distance := trailing_stop_distance s;
     highest_price := highest_price s;
     lowest_price := lowest_price s |}.

Definition set_stop_loss (v : option Q) (s : StopLevels) : StopLevels :=
  {| stop_loss := v;
     take_profit := take_profit s;
     trailing_stop_distance := trailing_stop_distance s;
     highest_price := highest_price s;
     lowest_price := lowest_price s |}.

Definition set_highest_price (v : option Q) (s : StopLevels) : StopLevels :=
  {| stop_loss := stop_loss s;
     take_profit := take_profit s;
     trailing_stop_distance := trailing_stop_distance s;
     highest_price := v;
     lowest_price := lowest_price s |}.

Definition set_lowest_price (v : option Q) (s : StopLevels) : StopLevels :=
  {| stop_loss := stop_loss s;
     take_profit := take_profit s;
     trailing_stop_distance := trailing_stop_distance s;
     highest_price := highest_price s;
     lowest_price := v |}.

(** [o is None or x > o]. *)
Definition none_or_below (o : option Q) (x : Q) : bool :=
  match o with None => true | Some y => Qltb y x end.

(** [o is None or x < o]. *)
Definition none_or_above (o : option Q) (x : Q) : bool :=
  match o with None => true | Some y => Qltb x y end.

(** [update_trailing_stop(position_id, current_price, side)]: the value
    returned and the registry after the in-place updates of the record. *)
Definition update_trailing_stop (position_id : string) (current_price : Q)
    (side : string) (stops : StopLossManager)
  : option Q * StopLossManager :=
  match stops !! position_id with
  | None => (None, stops)
  | Some s =>
      match trailing_stop_distance s with
      | None => (None, stops)
      | Some distance =>
          if String.eqb side "buy" then
            if none_or_below (highest_price s) current_price then
              let s1 := set_highest_price (Some current_price) s in
              let new_stop := current_price - distance in
              if none_or_below (stop_loss s1) new_stop
              then (Some new_stop,
                    <[position_id := set_stop_loss (Some new_stop) s1]> stops)
              else (None, <[position_id := s1]> stops)
            else (None, stops)
          else
            if none_or_above (lowest_price s) current_price then
              let s1 := set_lowest_price (Some current_price) s in
              let new_stop := current_price + distance in
              if none_or_above (stop_loss s1) new_stop
              then (Some new_stop,
                    <[position_id := set_stop_loss (Some new_stop) s1]> stops)
              else (None, <[position_id := s1]> stops)
            else (None, stops)
      end
  end.

(** [remove_stops(position_id)]. *)
Definition remove_stops (position_id : string) (stops : StopLossManager)
  : StopLossManager :=
  match stops !! position_id with
  | Some _ => delete position_id stops
  | None => stops
  end.

(** [get_stops(position_id)]. *)
Definition get_stops (position_id : string) (stops : StopLossManager)
  : option StopLevels :=
  stops !! position_id.

End StopRules.

(** ** exchanges/base.py *)

Module Exchanges.

(** Values stored in [OrderResult.metadata]. *)
Inductive meta_value :=
| MStr (s : string)
| MNum (x : Q).

Record OrderResult := {
  order_id : string;
  client_order_id : option string;
  symbol : string;
  side : string;
  order_type : string;
  status : string;
  quantity : Q;
  filled_quantity : Q;
  price : option Q;
  average_fill_price : option Q;
  timestamp : datetime;
  metadata : gmap string meta_value;
}.

Record Balance := {
  currency : string;
  free : Q;
  used : Q;
  total : Q;
}.

End Exchanges.

(** ** execution/fees.py and execution/slippage.py *)

Module Execution.

Record FeesCalculator := {
  maker_fee_bps : Q;
  taker_fee_bps : Q;
}.

(** [calculate_fee(notional, is_maker)]. *)
Definition calculate_fee (fc : FeesCalculator) (notional : Q) (is_maker : bool) : Q :=
  let fee_bps := if is_maker then maker_fee_bps fc else taker_fee_bps fc in
  notional * (fee_bps / 10000).

Record SlippageSimulator := {
  slippage_bps : Q;
  variance_bps : Q;
}.

(** [apply_slippage(price, side)]; [gauss] is the value drawn by
    [random.gauss(slippage_bps, variance_bps)]. *)
Definition apply_slippage (gauss : Q) (price : Q) (side : string) : Q :=
  let slippage := gauss / 10000 in
  if String.eqb side "buy"
  then price * (1 + Qabs slippage)
  else price * (1 - Qabs slippage).

End Execution.

(** ** paper/broker_paper.py *)

Module Paper.
Import Exchanges Execution.

(** A ledger entry, the dict [{'quantity': .., 'avg_price': ..}]. *)
Record Position := {
  quantity : Q;
  avg_price : Q;
}.

Record PaperBroker := {
  cash : Q;
  initial_cash : Q;
  positions : gmap string Position;
  orders : gmap string OrderResult;
  slippage_sim : SlippageSimulator;
  fees_calc : FeesCalculator;
}.

(** [__init__], defaults 10000.0, 2.0, 10.0; the simulator's variance and
    the maker fee take their own defaults 1.0 and 10.0. *)
Definition init (initial slip_bps fee_bps : Q) : PaperBroker :=
  {| cash := initial;
     initial_cash := initial;
     positions := ∅;
     orders := ∅;
     slippage_sim := {| slippage_bps := slip_bps; variance_bps := 1 |};
     fees_calc := {| maker_fee_bps := 10; taker_fee_bps := fee_bps |} |}.

Definition set_cash (c : Q) (b : PaperBroker) : PaperBroker :=
  {| cash := c;
     initial_cash := initial_cash b;
     positions := positions b;
     orders := orders b;
     slippage_sim := slippage_sim b;
     fees_calc := fees_calc b |}.

Definition set_positions (p : gmap string Position) (b : PaperBroker) : PaperBroker :=
  {| cash := cash b;
     initial_cash := initial_cash b;
     positions := p;
     orders := orders b;
     slippage_sim := slippage_sim b;
     fees_calc := fees_calc b |}.

Definition set_orders (o : gmap string OrderResult) (b : PaperBroker) : PaperBroker :=
  {| cash := cash b;
     initial_cash := initial_cash b;
     positions := positions b;
     orders := o;
     slippage_sim := slippage_sim b;
     fees_calc := fees_calc b |}.

(** [_update_position(symbol, quantity, price, side)] on the ledger. *)
Definition _update_position (sym : string) (qty prc : Q) (sd : string)
    (ledger : gmap string Position) : gmap string Position :=
  let ledger1 :=
    match ledger !! sym with
    | None => <[sym := {| quantity := 0; avg_price := 0 |}]> ledger
    | Some _ => ledger
    end in
  let pos := default {| quantity := 0; avg_price := 0 |} (ledger1 !! sym) in
  if String.eqb sd "buy" then
    let total_cost := quantity pos * avg_price pos + qty * prc in
    let new_quantity := quantity pos + qty in
    <[sym := {| quantity := new_quantity;
                avg_price := if Qltb 0 new_quantity
                             then total_cost / new_quantity else 0 |}]> ledger1
  else
    let new_quantity := quantity pos - qty in
    if Qle_bool new_quantity 0
    then delete sym ledger1
    else <[sym := {| quantity := new_quantity; avg_price := avg_price pos |}]> ledger1.

Definition rejected (oid : string) (coid : option string) (sym sd : string)
    (qty : Q) (now : datetime) (why : string) : OrderResult :=
  {| order_id := oid;
     client_order_id := coid;
     symbol := sym;
     side := sd;
     order_type := "market";
     status := "rejected";
     Exchanges.quantity := qty;
     filled_quantity := 0;
     price := None;
     average_fill_price := None;
     timestamp := now;
     metadata := {[ "reject_reason" := MStr why ]} |}.

Definition filled (oid : string) (coid : option string) (sym sd : string)
    (qty exec_price fee : Q) (now : datetime) : OrderResult :=
  {| order_id := oid;
     client_order_id := coid;
     symbol := sym;
     side := sd;
     order_type := "market";
     status := "filled";
     Exchanges.quantity := qty;
     filled_quantity := qty;
     price := None;
     average_fill_price := Some exec_price;
     timestamp := now;
     metadata := <["fee" := MNum fee]> {[ "slippage_price" := MNum exec_price ]} |}.

(** The execution price, notional and fee computed at the top of
    [create_market_order]. *)
Definition exec_price_of (gauss current_price : Q) (sd : string) : Q :=
  apply_slippage gauss current_price sd.

Definition notional_of (gauss current_price qty : Q) (sd : string) : Q :=
  exec_price_of gauss current_price sd * qty.

Definition fee_of (b : PaperBroker) (gauss current_price qty : Q) (sd : string) : Q :=
  calculate_fee (fees_calc b) (notional_of gauss current_price qty sd) false.

(** [create_market_order(symbol, side, quantity, current_price,
    client_order_id)].  [oid] is the fresh [uuid4], [gauss] the slippage
    draw, [now] the clock reading of the returned record.  No statement of
    the method can raise on rationals: the only divisions are by the
    literal 10000 and, in [_update_position], by a quantity tested
    positive.  The sell branch is kept as written: it hands [-quantity] to
    [_update_position], whose own sell branch subtracts its argument. *)
Definition create_market_order (oid : string) (gauss : Q) (now : datetime)
    (sym sd : string) (qty current_price : Q) (coid : option string)
    (b : PaperBroker) : OrderResult * PaperBroker :=
  let exec_price := exec_price_of gauss current_price sd in
  let notional := exec_price * qty in
  let fee := calculate_fee (fees_calc b) notional false in
  let accept (b1 : PaperBroker) :=
    let result := filled oid coid sym sd qty exec_price fee now in
    (result, set_orders (<[oid := result]> (orders b1)) b1) in
  if String.eqb sd "buy" then
    let required_cash := notional + fee in
    if Qltb (cash b) required_cash
    then (rejected oid coid sym sd qty now "insufficient_cash", b)
    else
      let b1 := set_cash (cash b - required_cash) b in
      accept (set_positions (_update_position sym qty exec_price sd (positions b1)) b1)
  else
    match positions b !! sym with
    | None => (rejected oid coid sym sd qty now "insufficient_position", b)
    | Some pos =>
        if Qltb (quantity pos) qty
        then (rejected oid coid sym sd qty now "insufficient_position", b)
        else
          let b1 := set_cash (cash b + (notional - fee)) b in
          accept (set_positions
                    (_update_position sym (- qty) exec_price sd (positions b1)) b1)
    end.

(** Quantity and average cost held in [sym]; an absent entry holds
    nothing. *)
Definition held_quantity (b : PaperBroker) (sym : string) : Q :=
  match positions b !! sym with Some p => quantity p | None => 0 end.

Definition held_avg_price (b : PaperBroker) (sym : string) : Q :=
  match positions b !! sym with Some p => avg_price p | None => 0 end.

(** [symbol.split("/")[0]]: the characters before the first slash, the
    whole string when there is none. *)
Fixpoint base_currency (s : string) : string :=
  match s with
  | EmptyString => EmptyString
  | String c rest =>
      if Ascii.eqb c "/"%char then EmptyString else String c (base_currency rest)
  end.

(** [get_balance()].  The loop runs over [self.positions.items()] in the
    dict's insertion order, which a finite map does not record: [keys] is
    that order, an enumeration of the ledger's symbols. *)
Definition get_balance (keys : list string) (b : PaperBroker) : list Balance :=
  {| currency := "USD"; free := cash b; used := 0; total := cash b |}
  :: omap (fun sym =>
             (fun pos : Position =>
                {| currency := base_currency sym;
                   free := quantity pos;
                   used := 0;
                   total := quantity pos |})
             <$> positions b !! sym) keys.

(** The price [get_equity] values a position at:
    [current_prices.get(symbol, pos['avg_price'])]. *)
Definition mark (current_prices : gmap string Q) (sp : string * Position) : Q :=
  default (avg_price (snd sp)) (current_prices !! fst sp).

(** [get_equity(current_prices)]: cash, then each position added in turn. *)
Definition get_equity (current_prices : gmap string Q) (b : PaperBroker) : Q :=
  foldl (fun equity sp => equity + quantity (snd sp) * mark current_prices sp)
        (cash b) (map_to_list (positions b)).

(** A market order as a value, and the broker after a list of them. *)
Record order_request := {
  req_id : string;
  req_gauss : Q;
  req_now : datetime;
  req_symbol : string;
  req_side : string;
  req_quantity : Q;
  req_price : Q;
}.

Definition submit (b : PaperBroker) (o : order_request) : PaperBroker :=
  snd (create_market_order (req_id o) (req_gauss o) (req_now o) (req_symbol o)
         (req_side o) (req_quantity o) (req_price o) None b).

Definition submit_all (os : list order_request) (b : PaperBroker) : PaperBroker :=
  foldl submit b os.

End Paper.

(** ** db/models.py and db/crud.py *)

Module Crud.

Inductive OrderStatus :=
| PENDING | OPEN | FILLED | PARTIALLY_FILLED | CANCELLED | REJECTED | EXPIRED.

(** The columns of [Order] that [update_order_status] reads or writes,
    together with the key. *)
Record Order := {
  order_id : string;
  status : OrderStatus;
  filled_quantity : option Q;
  average_fill_price : option Q;
  updated_at : datetime;
  filled_at : option datetime;
  cancelled_at : option datetime;
}.

(** The orders table seen through the session; [order_id] is a unique
    column. *)
Abbreviation session := (gmap string Order).

(** [get_order(db, order_id)]. *)
Definition get_order (db : session) (oid : string) : option Order := db !! oid.

Definition OrderStatus_eqb (a b : OrderStatus) : bool :=
  match a, b with
  | PENDING, PENDING | OPEN, OPEN | FILLED, FILLED
  | PARTIALLY_FILLED, PARTIALLY_FILLED | CANCELLED, CANCELLED
  | REJECTED, REJECTED | EXPIRED, EXPIRED => true
  | _, _ => false
  end.

(** [update_order_status(db, order_id, status, filled_quantity,
    average_fill_price)]; [now1] and [now2] are the two readings of
    [datetime.utcnow()]. *)
Definition update_order_status (now1 now2 : datetime) (db : session)
    (oid : string) (st : OrderStatus) (fq ap : option Q)
  : option Order * session :=
  match get_order db oid with
  | None => (None, db)
  | Some order =>
      let order' :=
        {| order_id := order_id order;
           status := st;
           filled_quantity :=
             match fq with Some q => Some q | None => filled_quantity order end;
           average_fill_price :=
             match ap with Some p => Some p | None => average_fill_price order end;
           updated_at := now1;
           filled_at :=
             if OrderStatus_eqb st FILLED then Some now2 else filled_at order;
           cancelled_at :=
             if OrderStatus_eqb st FILLED then cancelled_at order
             else if OrderStatus_eqb st CANCELLED then Some now2
             else cancelled_at order |} in
      (Some order', <[oid := order']> db)
  end.

(** The state machine of the specification (section 4.7), as a relation;
    it is what the code is compared with. *)
Definition spec_transition (a b : OrderStatus) : bool :=
  match a, b with
  | PENDING, (OPEN | REJECTED) => true
  | OPEN, (FILLED | PARTIALLY_FILLED | CANCELLED | EXPIRED) => true
  | PARTIALLY_FILLED, (FILLED | CANCELLED | EXPIRED) => true
  | _, _ => false
  end.

Definition terminal (a : OrderStatus) : bool :=
  match a with
  | FILLED | CANCELLED | REJECTED | EXPIRED => true
  | _ => false
  end.

End Crud.

(** ** strategies/base.py and strategies/trend_atr.py *)

Module TrendATR.

(** A float cell of a pandas frame: [None] is NaN.  Arithmetic propagates
    NaN and every comparison with NaN is false. *)
Abbreviation cell := (option Q).

Definition cell_le (a b : cell) : bool :=
  match a, b with Some x, Some y => Qle_bool x y | _, _ => false end.

Definition cell_lt (a b : cell) : bool :=
  match a, b with Some x, Some y => Qltb x y | _, _ => false end.

(** One row of the OHLCV frame. *)
Record OHLCV := {
  open : Q;
  high : Q;
  low : Q;
  close : Q;
  volume : Q;
}.

Inductive signal_reason :=
| SMACrossoverBullish (fast slow : nat)
| SMACrossoverBearish (fast slow : nat).

Record Signal := {
  symbol : string;
  side : string;
  entry_price : Q;
  stop_loss : cell;
  take_profit : cell;
  confidence : Q;
  reason : signal_reason;
}.

Record TrendATRStrategy := {
  sma_fast : nat;
  sma_slow : nat;
  atr_period : nat;
  atr_mult_sl : Q;
  atr_mult_tp : Q;
}.

(** [__init__] with an empty config: 50, 200, 14, 2.0, 2.0. *)
Definition with_defaults : TrendATRStrategy :=
  {| sma_fast := 50; sma_slow := 200; atr_period := 14;
     atr_mult_sl := 2; atr_mult_tp := 2 |}.

Definition sum_list (xs : list Q) : Q := foldr Qplus 0 xs.

(** [series.rolling(w).mean()] at row [i] in exact arithmetic: the mean of
    the [w] values ending at row [i], NaN while fewer than [w] rows are
    available.  pandas computes the mean in floating point, so its column
    can differ from this one in the last place; [generate_signals] below
    therefore takes the column as a parameter, and this definition is one
    instance of it. *)
Definition rolling_mean (w : nat) (xs : list Q) (i : nat) : cell :=
  if (w =? 0)%nat || (i + 1 <? w)%nat || (length xs <=? i)%nat then None
  else Some (sum_list (take w (drop (i + 1 - w) xs)) / inject_Z (Z.of_nat w)).

Inductive result (A : Type) :=
| Ok (a : A)
| Err (e : exn).
Arguments Ok {A} a.
Arguments Err {A} e.

Section Strategy.

(** [series.rolling(w).mean()] is pandas code: [rolling w xs i] is the cell
    of row [i] of the column it returns for the series [xs]. *)
Variable rolling : nat -> list Q -> nat -> cell.

(** [pandas_ta.atr(high, low, close, length)] is a third-party indicator.
    It returns [None] when it has too few rows for its window, and a series
    otherwise: [atr data length = Some col] gives the cell [col i] of each
    row [i].  Assigning [None] to [df['atr']] fills the column with [None]
    and raises nothing. *)
Variable atr : list OHLCV -> nat -> option (nat -> cell).

Definition sma_fast_at (s : TrendATRStrategy) (data : list OHLCV) (i : nat) : cell :=
  rolling (sma_fast s) (close <$> data) i.

Definition sma_slow_at (s : TrendATRStrategy) (data : list OHLCV) (i : nat) : cell :=
  rolling (sma_slow s) (close <$> data) i.

(** The two crossover tests of lines 37 and 51, on the last two rows. *)
Definition bullish (s : TrendATRStrategy) (data : list OHLCV) : bool :=
  cell_le (sma_fast_at s data (length data - 2))
          (sma_slow_at s data (length data - 2))
  && cell_lt (sma_slow_at s data (length data - 1))
             (sma_fast_at s data (length data - 1)).

Definition bearish (s : TrendATRStrategy) (data : list OHLCV) : bool :=
  cell_le (sma_slow_at s data (length data - 2))
          (sma_fast_at s data (length data - 2))
  && cell_lt (sma_fast_at s data (length data - 1))
             (sma_slow_at s data (length data - 1)).

(** [generate_signals(symbol, data)].  [last['atr']] is read only inside
    the two crossover branches; when the column holds [None] the product
    [self.atr_mult_sl * last['atr']] raises [TypeError]. *)
Definition generate_signals (s : TrendATRStrategy) (sym : string)
    (data : list OHLCV) : result (list Signal) :=
  let n := length data in
  if (n <? Nat.max (sma_slow s) (atr_period s))%nat then Ok []
  else if (n <? 2)%nat then Err IndexError   (* df.iloc[-1], df.iloc[-2] *)
  else
    match data !! (n - 1)%nat with
    | None => Err IndexError
    | Some last =>
        let last_i := (n - 1)%nat in
        let prev_i := (n - 2)%nat in
        if cell_le (sma_fast_at s data prev_i) (sma_slow_at s data prev_i)
           && cell_lt (sma_slow_at s data last_i) (sma_fast_at s data last_i)
        then
          match atr data (atr_period s) with
          | None => Err TypeError
          | Some col =>
              let last_atr := col last_i in
              Ok [ {| symbol := sym;
                      side := "buy";
                      entry_price := close last;
                      stop_loss :=
                        (fun a => close last - atr_mult_sl s * a) <$> last_atr;
                      take_profit :=
                        (fun a => close last
                                  + atr_mult_tp s * atr_mult_sl s * a) <$> last_atr;
                      confidence := 1;
                      reason := SMACrossoverBullish (sma_fast s) (sma_slow s) |} ]
          end
        else if cell_le (sma_slow_at s data prev_i) (sma_fast_at s data prev_i)
                && cell_lt (sma_fast_at s data last_i) (sma_slow_at s data last_i)
        then
          match atr data (atr_period s) with
          | None => Err TypeError
          | Some col =>
              let last_atr := col last_i in
              Ok [ {| symbol := sym;
                      side := "sell";
                      entry_price := close last;
                      stop_loss :=
                        (fun a => close last + atr_mult_sl s * a) <$> last_atr;
                      take_profit :=
                        (fun a => close last
                                  - atr_mult_tp s * atr_mult_sl s * a) <$> last_atr;
                      confidence := 1;
                      reason := SMACrossoverBearish (sma_fast s) (sma_slow s) |} ]
          end
        else Ok []
    end.

End Strategy.

End TrendATR.

(** ** portfolio/rebalancer.py *)

Module Rebalance.

Record Rebalancer := {
  rebalance_threshold_pct : Q;
  cost_aware : bool;
  fee_bps : Q;
}.

(** [__init__] defaults: 0.02, True, 10.0. *)
Definition with_defaults : Rebalancer :=
  {| rebalance_threshold_pct := 2 # 100; cost_aware := true; fee_bps := 10 |}.

(** The dict emitted per symbol. *)
Record Trade := {
  current_value : Q;
  target_value : Q;
  delta_value : Q;
  delta_quantity : Q;
  side : string;
  price : Q;
}.

(** The body of the loop of [calculate_rebalance_trades] for one symbol:
    [None] when one of the three [continue]s is taken. *)
Definition trade_for (r : Rebalancer) (total_value : Q)
    (current_allocation target_allocation prices : gmap string Q)
    (sym : string) : option Trade :=
  let cur := default 0 (current_allocation !! sym) in
  let tgt := default 0 (target_allocation !! sym) in
  let delta := tgt - cur in
  let deviation_pct :=
    if Qltb 0 total_value then Qabs delta / total_value else 0 in
  if Qltb deviation_pct (rebalance_threshold_pct r) then None
  else
    let estimated_cost := Qabs delta * (fee_bps r / 10000) in
    if cost_aware r && Qltb (Qabs delta) (estimated_cost * 2) then None
    else
      let p := default 0 (prices !! sym) in
      if Qeq_bool p 0 then None
      else
        let dq := delta / p in
        Some {| current_value := cur;
                target_value := tgt;
                delta_value := delta;
                delta_quantity := Qabs dq;
                side := if Qltb 0 dq then "buy" else "sell";
                price := p |}.

(** One iteration: [trades[symbol] = {...}] unless skipped. *)
Definition visit (r : Rebalancer) (total_value : Q)
    (current_allocation target_allocation prices : gmap string Q)
    (trades : gmap string Trade) (sym : string) : gmap string Trade :=
  match trade_for r total_value current_allocation target_allocation prices sym with
  | Some t => <[sym := t]> trades
  | None => trades
  end.

(** The symbols iterated over,
    [set(list(current.keys()) + list(target.keys()))]. *)
Definition symbols (current_allocation target_allocation : gmap string Q)
  : list string :=
  elements (dom current_allocation ∪ dom target_allocation).

(** [calculate_rebalance_trades(current_allocation, target_allocation,
    prices)]. *)
Definition calculate_rebalance_trades (r : Rebalancer)
    (current_allocation target_allocation prices : gmap string Q)
  : gmap string Trade :=
  let total_value := sum_values current_allocation in
  foldl (visit r total_value current_allocation target_allocation prices)
        ∅ (symbols current_allocation target_allocation).

(** [should_rebalance(current_allocation, target_allocation)]. *)
Definition should_rebalance (r : Rebalancer)
    (current_allocation target_allocation : gmap string Q) : bool :=
  let total_value := sum_values current_allocation in
  if Qeq_bool total_value 0 then false
  else
    existsb
      (fun sym =>
         let cur := default 0 (current_allocation !! sym) in
         let tgt := default 0 (target_allocation !! sym) in
         let delta_value := Qabs (tgt - cur) in
         Qle_bool (rebalance_threshold_pct r) (delta_value / total_value))
      (symbols current_allocation target_allocation).

End Rebalance.

(** ** db/crud.py: positions *)

Module Positions.

Inductive OrderSide := BUY | SELL.

(** The columns of [Position] that [close_position] reads or writes. *)
Record Position := {
  id : Z;
  side : OrderSide;
  quantity : Q;
  entry_price : Q;
  current_price : option Q;
  realized_pnl : option Q;
  is_open : bool;
  closed_at : option datetime;
  updated_at : datetime;
}.

(** The positions table; [id] is the primary key. *)
Abbreviation table := (gmap Z Position).

(** [close_position(db, position_id, close_price)]; [now1] and [now2] are
    the two readings of [datetime.utcnow()]. *)
Definition close_position (now1 now2 : datetime) (db : table)
    (position_id : Z) (close_price : Q) : option Position * table :=
  match db !! position_id with
  | None => (None, db)
  | Some position =>
      let pnl :=
        match side position with
        | BUY => (close_price - entry_price position) * quantity position
        | SELL => (entry_price position - close_price) * quantity position
        end in
      let position' :=
        {| id := id position;
           side := side position;
           quantity := quantity position;
           entry_price := entry_price position;
           current_price := Some close_price;
           realized_pnl := Some pnl;
           is_open := false;
           closed_at := Some now1;
           updated_at := now2 |} in
      (Some position', <[position_id := position']> db)
  end.

(** [get_open_positions(db)] without a symbol filter, as a sub-table. *)
Definition get_open_positions (db : table) : table :=
  filter (fun kv => is_open (snd kv) = true) db.

End Positions.

(** ** risk/position_sizing.py *)

Module Sizing.

Record PositionSizer := {
  risk_per_trade : Q;
  max_position_pct : Q;
}.

(** [__init__] defaults: 0.01 and 0.25. *)
Definition with_defaults : PositionSizer :=
  {| risk_per_trade := 1 # 100; max_position_pct := 25 # 100 |}.



(** [calculate_size_fixed_pct(equity, entry_price, size_pct)]: the division
    raises on a zero entry price. *)
Definition calculate_size_fixed_pct (equity entry_price size_pct : Q) : option Q :=
  pydiv (equity * size_pct) entry_price.

End Sizing.

(** ** Sequences of calls on a circuit breaker *)

Module BreakerTrace.
Import CircuitBreaker.

(** One call of a public method, with the clock readings it makes. *)
Inductive call :=
| CheckDrawdown (now trig_now : datetime) (current_equity starting_equity : Q)
| RecordFailedOrder (now trig_now : datetime)
| ManualKillSwitch (now : datetime) (text : string)
| CanTrade (now : datetime)
| GetStatus (now : datetime)
| Reset (force : bool) (now : datetime).

Definition step (c : call) (m : CircuitBreakerManager)
  : outcome unit CircuitBreakerManager :=
  match c with
  | CheckDrawdown now trig_now cur start =>
      match check_drawdown now trig_now cur start m with
      | Return _ m' => Return tt m'
      | Raise e m' => Raise e m'
      end
  | RecordFailedOrder now trig_now =>
      Return tt (snd (record_failed_order now trig_now m))
  | ManualKillSwitch now text => Return tt (manual_kill_switch now text m)
  | CanTrade now => let _answer := can_trade now m in Return tt m
  | GetStatus now => let _answer := can_trade now m in Return tt m
  | Reset force now => Return tt (reset force now m)
  end.

(** The calls in order; an exception ends the run. *)
Fixpoint run (cs : list call) (m : CircuitBreakerManager)
  : outcome unit CircuitBreakerManager :=
  match cs with
  | [] => Return tt m
  | c :: cs' =>
      match step c m with
      | Return _ m' => run cs' m'
      | Raise e m' => Raise e m'
      end
  end.

(** A call that gets past the guards of [reset] on [m]: forced, or made
    once the cooldown of [m] is over. *)
Definition resets (m : CircuitBreakerManager) (c : call) : bool :=
  match c with
  | Reset force now => force || negb (in_cooldown now m)
  | _ => false
  end.

(** The manager a run ends with, whether it returned or raised. *)
Definition final (o : outcome unit CircuitBreakerManager) : CircuitBreakerManager :=
  match o with
  | Return _ m => m
  | Raise _ m => m
  end.

(** The bookkeeping of [_trigger] and [reset]: the state is either the
    cleared one or a triggered one whose resume time is the trigger time
    plus the cooldown. *)
Definition well_formed (m : CircuitBreakerManager) : Prop :=
  state m = untriggered
  \/ exists t r,
       state m = {| triggered := true;
                    trigger_time := Some t;
                    trigger_reason := r;
                    can_resume_at :=
                      Some (t + cooldown_minutes m * microseconds_per_minute)%Z |}.

(** Same construction parameters. *)
Definition same_config (m m' : CircuitBreakerManager) : Prop :=
  max_daily_drawdown m' = max_daily_drawdown m
  /\ max_failed_orders_per_hour m' = max_failed_orders_per_hour m
  /\ cooldown_minutes m' = cooldown_minutes m.

(** [record_failed_order()] called once per pair of clock readings. *)
Definition failures (ts : list (datetime * datetime)) : list call :=
  (fun p => RecordFailedOrder (fst p) (snd p)) <$> ts.

End BreakerTrace.

(** * Properties *)

(** ** Comparisons and division *)

(** Closes a goal whose hypotheses contain [a < b] and [b <= a], possibly
    under conjunctions and disjunctions. *)
Ltac order_absurd :=
  repeat match goal with
         | H : _ /\ _ |- _ => destruct H
         | H : _ \/ _ |- _ => destruct H
         end;
  try contradiction;
  match goal with
  | H1 : ?a < ?b, H2 : ?b <= ?a |- _ => exact (Qlt_not_le _ _ H1 H2)
  end.

Lemma Qltb_lt (x y : Q) : Qltb x y = true <-> x < y.
Proof.
  unfold Qltb. rewrite negb_true_iff.
  split.
  - intros H. apply Qnot_le_lt. intros Hle.
    apply Qle_bool_iff in Hle. congruence.
  - intros H. destruct (Qle_bool y x) eqn:E; [|reflexivity].
    apply Qle_bool_iff in E. exfalso. exact (Qlt_not_le _ _ H E).
Qed.

Lemma Qltb_ge (x y : Q) : Qltb x y = false <-> y <= x.
Proof.
  unfold Qltb. rewrite negb_false_iff. apply Qle_bool_iff.
Qed.

Lemma Qle_bool_false (x y : Q) : Qle_bool x y = false <-> y < x.
Proof.
  rewrite <- Qltb_lt. unfold Qltb. rewrite negb_true_iff. reflexivity.
Qed.

Lemma pydiv_Some (x y q : Q) : pydiv x y = Some q <-> ~ y == 0 /\ q = x / y.
Proof.
  unfold pydiv. destruct (Qeq_bool y 0) eqn:E.
  - apply Qeq_bool_iff in E. split; [discriminate | tauto].
  - apply Qeq_bool_neq in E. split.
    + intros [= <-]. auto.
    + intros [_ ->]. reflexivity.
Qed.

Lemma pydiv_None (x y : Q) : pydiv x y = None <-> y == 0.
Proof.
  unfold pydiv. destruct (Qeq_bool y 0) eqn:E.
  - apply Qeq_bool_iff in E. tauto.
  - apply Qeq_bool_neq in E. split; [discriminate | tauto].
Qed.

(** ** Comparisons of binary64 numbers *)

Lemma SFcompare_antisym (x y : spec_float) :
  SFcompare y x = option_map CompOpp (SFcompare x y).
Proof.
  destruct x as [s1|s1| |s1 m1 e1], y as [s2|s2| |s2 m2 e2]; cbn;
    try reflexivity;
    try (destruct s1; reflexivity);
    try (destruct s2; reflexivity);
    try (destruct s1, s2; reflexivity).
  destruct s1, s2; cbn; try reflexivity;
    rewrite (Z.compare_antisym e1 e2);
    destruct (e1 ?= e2)%Z; cbn; try reflexivity;
    rewrite (Pos.compare_cont_antisym m1 m2 Eq); cbn;
    destruct (Pos.compare_cont Eq m1 m2); reflexivity.
Qed.

(** [x == y] excludes [x < y]. *)
Lemma eqb_not_ltb (x y : float) :
  (x =? y)%float = true -> (x <? y)%float = false.
Proof.
  rewrite FloatAxioms.eqb_spec, FloatAxioms.ltb_spec. unfold SFeqb, SFltb.
  destruct (SFcompare (Prim2SF x) (Prim2SF y)) as [[]|]; congruence.
Qed.

(** [x < y] excludes [y <= x]. *)
Lemma ltb_not_leb (x y : float) :
  (x <? y)%float = true -> (y <=? x)%float = false.
Proof.
  rewrite FloatAxioms.ltb_spec, FloatAxioms.leb_spec. unfold SFltb, SFleb.
  rewrite (SFcompare_antisym (Prim2SF x) (Prim2SF y)).
  destruct (SFcompare (Prim2SF x) (Prim2SF y)) as [[]|]; cbn; congruence.
Qed.

(** ** Circuit breaker: the drawdown threshold *)

Section CircuitBreaker64Properties.
Import CircuitBreaker64.

Implicit Types (m : CircuitBreakerManager) (now trig_now t : datetime).

Lemma can_trade64_iff_untriggered t m :
  can_trade t m = negb (triggered (state m)).
Proof. unfold can_trade. destruct (triggered (state m)); reflexivity. Qed.

(** The update of lines 71-79 in one step: on a new day (or on the first
    call) the base is the day's starting equity, otherwise the stored high
    (the starting equity if none is stored); the new high is the maximum of
    the base and the current equity, and the reset date moves only on a new
    day. *)
Lemma update_daily_high_running_max now (cur start : float) m :
  let new_day :=
    match last_reset_date m with
    | Some d => (date d <? date now)%Z
    | None => true
    end in
  let base := if new_day then start else default start (daily_high_equity m) in
  update_daily_high now cur start m
  = set_daily (Some (Float64.pymax base cur))
              (if new_day then Some now else last_reset_date m) m.
Proof.
  unfold update_daily_high.
  destruct (last_reset_date m) as [d|] eqn:Ed;
    [destruct (date d <? date now)%Z|]; cbn; try reflexivity.
  rewrite Ed. destruct (daily_high_equity m); reflexivity.
Qed.

(** C1 (amended).  [check_drawdown] first moves the daily high-water mark
    to the running maximum: [high = max(base, current_equity)], where the
    base is the starting equity on the first call and on a new day, and the
    stored high otherwise.  The drawdown is the binary64 number the code
    computes, [(high - current_equity) / high].  If it is [>=]
    [max_daily_drawdown] the breaker is triggered, the call returns [True]
    and [can_trade()] is [False] from then on; if it is strictly below the
    threshold (more generally, whenever the test [>=] fails) and the
    breaker was not already triggered, the call returns [False], the high
    stays stored and [can_trade()] stays [True].  On a breaker already
    triggered the call returns [True] at once; when the updated high is
    zero the division raises [ZeroDivisionError]. *)
Theorem check_drawdown_threshold m now trig_now
    (current_equity starting_equity : float) :
  let new_day :=
    match last_reset_date m with
    | Some d => (date d <? date now)%Z
    | None => true
    end in
  let base :=
    if new_day then starting_equity
    else default starting_equity (daily_high_equity m) in
  let high := Float64.pymax base current_equity in
  let drawdown := ((high - current_equity) / high)%float in
  let m1 :=
    set_daily (Some high) (if new_day then Some now else last_reset_date m) m in
  let result := check_drawdown now trig_now current_equity starting_equity m in
  (triggered (state m) = true ->
   result = Return true m /\ forall t, can_trade t m = false)
  /\ (triggered (state m) = false ->
      ((high =? 0)%float = true -> result = Raise ZeroDivisionError m1)
      /\ ((high =? 0)%float = false ->
          (max_daily_drawdown m <=? drawdown)%float = true ->
          exists m',
            result = Return true m'
            /\ triggered (state m') = true
            /\ daily_high_equity m' = Some high
            /\ forall t, can_trade t m' = false)
      /\ ((high =? 0)%float = false ->
          (drawdown <? max_daily_drawdown m)%float = true ->
          result = Return false m1 /\ forall t, can_trade t m1 = true)
      /\ ((high =? 0)%float = false ->
          (max_daily_drawdown m <=? drawdown)%float = false ->
          result = Return false m1 /\ forall t, can_trade t m1 = true)).
Proof.
  intros new_day base high drawdown m1 result.
  assert (Hupdate : update_daily_high now current_equity starting_equity m = m1)
    by apply update_daily_high_running_max.
  split.
  - intros Htrig. subst result. unfold check_drawdown. rewrite Htrig.
    split; [reflexivity|].
    intros t. rewrite can_trade64_iff_untriggered, Htrig. reflexivity.
  - intros Htrig.
    assert (Hresult :
      result
      = match Float64.pydiv (high - current_equity)%float high with
        | None => Raise ZeroDivisionError m1
        | Some dd =>
            if (max_daily_drawdown m <=? dd)%float
            then Return true
                   (_trigger trig_now
                      (MaxDailyDrawdownExceeded dd (max_daily_drawdown m)) m1)
            else Return false m1
        end).
    { subst result. unfold check_drawdown. rewrite Htrig.
      cbv zeta. rewrite Hupdate. reflexivity. }
    assert (Hopen : forall t, can_trade t m1 = true).
    { intros t. rewrite can_trade64_iff_untriggered.
      change (state m1) with (state m). rewrite Htrig. reflexivity. }
    assert (Hbelow : (high =? 0)%float = false ->
                     (max_daily_drawdown m <=? drawdown)%float = false ->
                     result = Return false m1 /\ forall t, can_trade t m1 = true).
    { intros Hz Hlt. rewrite Hresult. unfold Float64.pydiv. rewrite Hz.
      fold drawdown. rewrite Hlt. split; [reflexivity | exact Hopen]. }
    split; [|split; [|split]].
    + intros Hz. rewrite Hresult. unfold Float64.pydiv. rewrite Hz. reflexivity.
    + intros Hz Hge. rewrite Hresult. unfold Float64.pydiv. rewrite Hz.
      fold drawdown. rewrite Hge.
      eexists. split; [reflexivity|].
      assert (Hfired :
        triggered (state (_trigger trig_now
                            (MaxDailyDrawdownExceeded drawdown
                               (max_daily_drawdown m)) m1)) = true).
      { unfold _trigger. change (state m1) with (state m).
        rewrite Htrig. reflexivity. }
      split; [exact Hfired|]. split.
      * unfold _trigger. change (state m1) with (state m).
        rewrite Htrig. reflexivity.
      * intros t. rewrite can_trade64_iff_untriggered, Hfired. reflexivity.
    + intros Hz Hlt. apply Hbelow; [exact Hz | apply ltb_not_leb; exact Hlt].
    + exact Hbelow.
Qed.

(** The test of the repository (10000 falling to 9500 against 4%), and a
    fall to 9700 that stays below the threshold. *)
Lemma check_drawdown_threshold_witness :
  (exists m',
     check_drawdown 0 1 9500 10000 with_defaults = Return true m'
     /\ triggered (state m') = true
     /\ daily_high_equity m' = Some 10000%float
     /\ forall t, can_trade t m' = false)
  /\ check_drawdown 0 1 9700 10000 with_defaults
     = Return false (set_daily (Some 10000%float) (Some 0%Z) with_defaults).
Proof.
  split.
  - destruct (check_drawdown_threshold with_defaults 0 1 9500 10000)
      as (_ & Hopen).
    destruct (Hopen eq_refl) as (_ & Htrip & _).
    apply Htrip; reflexivity.
  - destruct (check_drawdown_threshold with_defaults 0 1 9700 10000)
      as (_ & Hopen).
    destruct (Hopen eq_refl) as (_ & _ & Hbelow & _).
    apply Hbelow; reflexivity.
Defined.

(** Two falls measured against the default threshold 0.04 on a fresh
    manager.  From 10002 to 9601.92 the fall is exactly 4% in the decimals
    written, the code computes 0.039999999999999994 and returns [False].
    From 10000 to 9600 the fall is the rational 1/25, which is strictly
    below the number the double 0.04 stands for, the code computes that
    double and returns [True]. *)
Lemma check_drawdown_threshold_counterexample :
  triggered (state with_defaults) = false
  /\ ((10002 - (960192 # 100)) / 10002 == 4 # 100)%Q
  /\ (exists m',
        check_drawdown 0 1 9601.92 10002 with_defaults = Return false m')
  /\ (exists h c thr,
        Float64.value 10000 = Some h /\ (h == 10000)%Q
        /\ Float64.value 9600 = Some c /\ (c == 9600)%Q
        /\ Float64.value (max_daily_drawdown with_defaults) = Some thr
        /\ ((h - c) / h == 1 # 25)%Q
        /\ ((h - c) / h < thr)%Q)
  /\ (exists m',
        check_drawdown 0 1 9600 10000 with_defaults = Return true m').
Proof.
  split; [reflexivity|].
  split; [reflexivity|].
  split; [eexists; vm_compute; reflexivity|].
  split.
  - eexists _, _, _.
    split; [vm_compute; reflexivity|].
    split; [vm_compute; reflexivity|].
    split; [vm_compute; reflexivity|].
    split; [vm_compute; reflexivity|].
    split; [vm_compute; reflexivity|].
    split; [vm_compute; reflexivity|].
    vm_compute. reflexivity.
  - eexists. vm_compute. reflexivity.
Qed.

End CircuitBreaker64Properties.

(** ** Circuit breaker *)

Section CircuitBreakerProperties.
Import CircuitBreaker BreakerTrace.

Implicit Types (m : CircuitBreakerManager) (now trig_now t : datetime).

Lemma can_trade_iff_untriggered t m :
  can_trade t m = negb (triggered (state m)).
Proof. unfold can_trade. destruct (triggered (state m)); reflexivity. Qed.

Lemma _trigger_triggered now r m : triggered (state (_trigger now r m)) = true.
Proof.
  unfold _trigger. destruct (triggered (state m)) eqn:E; [exact E | reflexivity].
Qed.

Lemma _trigger_idempotent now r m :
  triggered (state m) = true -> _trigger now r m = m.
Proof. intros H. unfold _trigger. rewrite H. reflexivity. Qed.

Lemma update_daily_high_state now cur start m :
  state (update_daily_high now cur start m) = state m.
Proof.
  unfold update_daily_high.
  destruct (last_reset_date m) as [d|]; [destruct (date d <? date now)%Z|];
    simpl; try reflexivity.
  destruct (daily_high_equity m); reflexivity.
Qed.

Lemma step_triggered m c :
  triggered (state m) = true -> resets m c = false -> step c m = Return tt m.
Proof.
  intros Htrig Hc. destruct c; simpl in *.
  - unfold check_drawdown. rewrite Htrig. reflexivity.
  - unfold record_failed_order. rewrite Htrig. reflexivity.
  - unfold manual_kill_switch. rewrite _trigger_idempotent by exact Htrig.
    reflexivity.
  - reflexivity.
  - reflexivity.
  - unfold reset. rewrite Htrig. simpl.
    apply orb_false_iff in Hc as [-> Hcool].
    apply negb_false_iff in Hcool. rewrite Hcool. reflexivity.
Qed.

(** C2.  On a triggered breaker [can_trade()] is [False] at every time,
    before and after [can_resume_at], and stays so through any sequence of
    calls none of which is a reset that passes its guards: such a sequence
    leaves the whole manager unchanged.  [reset(force=True)] always leaves
    [can_trade()] true, and on a triggered breaker it empties the
    failed-order history whatever the trigger reason;
    [reset(force=False)] before [can_resume_at] leaves the triggered manager
    as it was. *)
Theorem triggered_until_reset m :
  (forall now t, can_trade t (reset true now m) = true)
  /\ (triggered (state m) = true ->
      (forall t, can_trade t m = false)
      /\ (forall cs,
            Forall (fun c => resets m c = false) cs ->
            run cs m = Return tt m)
      /\ (forall now, failed_orders_history (reset true now m) = [])
      /\ (forall now resume,
            can_resume_at (state m) = Some resume ->
            (now < resume)%Z ->
            reset false now m = m)).
Proof.
  split.
  { intros now t. rewrite can_trade_iff_untriggered. unfold reset.
    destruct (triggered (state m)) eqn:Htrig; simpl; [reflexivity|].
    rewrite Htrig. reflexivity. }
  intros Htrig.
  split; [|split; [|split]].
  - intros t. rewrite can_trade_iff_untriggered, Htrig. reflexivity.
  - intros cs Hcs. induction Hcs as [|c cs Hc _ IH]; [reflexivity|].
    simpl. rewrite (step_triggered m c Htrig Hc). exact IH.
  - intros now. unfold reset. rewrite Htrig. reflexivity.
  - intros now resume Hres Hlt. unfold reset, in_cooldown.
    rewrite Htrig, Hres. simpl.
    apply Z.ltb_lt in Hlt. rewrite Hlt. reflexivity.
Qed.

(** A breaker tripped by the kill switch at time 0 (cooldown until
    3600000000): polled long after the cooldown, fed a loss, a failed
    order and an early unforced reset, it is still closed; a forced reset
    reopens it. *)
Lemma triggered_until_reset_witness :
  let m := manual_kill_switch 0 "Test" with_defaults in
  can_trade 9000000000 m = false
  /\ run [CanTrade 9000000000; CheckDrawdown 5 5 1 10000;
          RecordFailedOrder 6 6; Reset false 7] m = Return tt m
  /\ can_trade 8 (reset true 8 m) = true
  /\ failed_orders_history (reset true 8 m) = []
  /\ reset false 7 m = m.
Proof.
  intros m.
  destruct (triggered_until_reset m) as (Hforce & Htriggered).
  destruct (Htriggered eq_refl) as (Hclosed & Hrun & Hclear & Hearly).
  split; [apply Hclosed|].
  split; [apply Hrun; repeat constructor|].
  split; [apply Hforce|].
  split; [apply Hclear|].
  apply (Hearly 7%Z 3600000000%Z); reflexivity.
Defined.




End CircuitBreakerProperties.

(** ** Risk limits *)

Section LimitsProperties.
Import Limits.

Implicit Types (rl : RiskLimits) (now : datetime) (h : list TradeRecord).

(** Pruning the log to the last day does not change which trades fall in
    the last minute. *)
Lemma newer_than_pruned now h :
  newer_than (now - microseconds_per_minute)
             (newer_than (now - microseconds_per_day) h)
  = newer_than (now - microseconds_per_minute) h.
Proof.
  unfold newer_than. induction h as [|t h IH]; [reflexivity|].
  rewrite !filter_cons.
  destruct (decide (now - microseconds_per_day < timestamp t)%Z) as [Hd|Hd];
    destruct (decide (now - microseconds_per_minute < timestamp t)%Z) as [Hm|Hm].
  - rewrite filter_cons, decide_True by exact Hm. rewrite IH. reflexivity.
  - rewrite filter_cons, decide_False by exact Hm. exact IH.
  - exfalso. unfold microseconds_per_day, microseconds_per_minute in *. lia.
  - exact IH.
Qed.

End LimitsProperties.

(** ** Risk limits: the decision of [can_place_order] *)

Section Limits64Properties.
Import Limits64.

Variable pysum : gmap string float -> float.

(** C5 (amended).  With [per_minute] and [per_day] the numbers of recorded
    trades younger than 60 seconds and than one day, and the two ratios the
    binary64 numbers the code computes, [can_place_order] returns
    [(False, reason)] with a non-empty reason exactly when
    [per_minute >= max_trades_per_minute], or
    [per_day >= max_trades_per_day], or
    [(exposure[symbol] + position_value) / equity] exceeds
    [max_position_exposure_pct], or
    [(sum of exposures + position_value) / equity] exceeds
    [max_total_exposure_pct]; the reason is that of the first of these
    checks that fails, in this order.  A proposal neither of whose computed
    ratios exceeds its cap -- in particular one whose computed ratio equals
    the cap -- is accepted with the empty reason when no rate limit binds.
    At equity zero the division raises once the rate limits pass. *)
Theorem can_place_order_rejects_iff rl now (sym sd : string)
    (position_value equity : float) :
  let per_minute :=
    length (Limits.newer_than (now - microseconds_per_minute) (trade_history rl)) in
  let per_day :=
    length (Limits.newer_than (now - microseconds_per_day) (trade_history rl)) in
  let exposure :=
    (default 0 (position_exposures rl !! sym) + position_value)%float in
  let total := (pysum (position_exposures rl) + position_value)%float in
  let minute_hit := (max_trades_per_minute rl <= Z.of_nat per_minute)%Z in
  let day_hit := (max_trades_per_day rl <= Z.of_nat per_day)%Z in
  let position_hit :=
    (equity =? 0)%float = false
    /\ (max_position_exposure_pct rl <? exposure / equity)%float = true in
  let total_hit :=
    (equity =? 0)%float = false
    /\ (max_total_exposure_pct rl <? total / equity)%float = true in
  let rl1 :=
    set_trade_history
      (Limits.newer_than (now - microseconds_per_day) (trade_history rl)) rl in
  let result := can_place_order pysum now sym sd position_value equity rl in
  ((exists why rl', result = Return (false, why) rl' /\ why <> NoReason)
   <-> minute_hit \/ day_hit \/ position_hit \/ total_hit)
  /\ (minute_hit ->
      result = Return (false, TradeRateLimitExceeded per_minute) rl1)
  /\ (~ minute_hit -> day_hit ->
      result = Return (false, DailyTradeLimitExceeded per_day) rl1)
  /\ (~ minute_hit -> ~ day_hit -> position_hit ->
      result = Return (false, PositionExposureLimitExceeded sym
                                (exposure / equity)
                                (max_position_exposure_pct rl)) rl1)
  /\ (~ minute_hit -> ~ day_hit -> ~ position_hit -> total_hit ->
      result = Return (false, TotalExposureLimitExceeded
                                (total / equity)
                                (max_total_exposure_pct rl)) rl1)
  /\ (~ minute_hit -> ~ day_hit -> (equity =? 0)%float = false ->
      (max_position_exposure_pct rl <? exposure / equity)%float = false ->
      (max_total_exposure_pct rl <? total / equity)%float = false ->
      result = Return (true, NoReason) rl1)
  /\ (~ minute_hit -> ~ day_hit -> (equity =? 0)%float = false ->
      (max_position_exposure_pct rl =? exposure / equity)%float = true ->
      (max_total_exposure_pct rl <? total / equity)%float = false ->
      result = Return (true, NoReason) rl1)
  /\ (~ minute_hit -> ~ day_hit -> (equity =? 0)%float = false ->
      (max_position_exposure_pct rl <? exposure / equity)%float = false ->
      (max_total_exposure_pct rl =? total / equity)%float = true ->
      result = Return (true, NoReason) rl1)
  /\ (~ minute_hit -> ~ day_hit -> (equity =? 0)%float = true ->
      result = Raise ZeroDivisionError rl1).
Proof.
  intros per_minute per_day exposure total minute_hit day_hit
         position_hit total_hit rl1 result.
  assert (Hcases :
    (minute_hit /\ result = Return (false, TradeRateLimitExceeded per_minute) rl1)
    \/ (~ minute_hit /\ day_hit
        /\ result = Return (false, DailyTradeLimitExceeded per_day) rl1)
    \/ (~ minute_hit /\ ~ day_hit /\ (equity =? 0)%float = true
        /\ result = Raise ZeroDivisionError rl1)
    \/ (~ minute_hit /\ ~ day_hit /\ (equity =? 0)%float = false
        /\ (max_position_exposure_pct rl <? exposure / equity)%float = true
        /\ result = Return (false, PositionExposureLimitExceeded sym
                                     (exposure / equity)
                                     (max_position_exposure_pct rl)) rl1)
    \/ (~ minute_hit /\ ~ day_hit /\ (equity =? 0)%float = false
        /\ (max_position_exposure_pct rl <? exposure / equity)%float = false
        /\ (max_total_exposure_pct rl <? total / equity)%float = true
        /\ result = Return (false, TotalExposureLimitExceeded
                                     (total / equity)
                                     (max_total_exposure_pct rl)) rl1)
    \/ (~ minute_hit /\ ~ day_hit /\ (equity =? 0)%float = false
        /\ (max_position_exposure_pct rl <? exposure / equity)%float = false
        /\ (max_total_exposure_pct rl <? total / equity)%float = false
        /\ result = Return (true, NoReason) rl1)).
  { subst result. unfold can_place_order, _check_rate_limits.
    cbn [trade_history set_trade_history max_trades_per_minute
         max_trades_per_day max_position_exposure_pct max_total_exposure_pct
         position_exposures].
    rewrite newer_than_pruned.
    fold per_minute per_day.
    destruct (max_trades_per_minute rl <=? Z.of_nat per_minute)%Z eqn:Em.
    { apply Z.leb_le in Em. left. split; [exact Em | reflexivity]. }
    apply Z.leb_gt in Em.
    destruct (max_trades_per_day rl <=? Z.of_nat per_day)%Z eqn:Ed.
    { apply Z.leb_le in Ed. right; left.
      split; [unfold minute_hit; lia|]. split; [exact Ed | reflexivity]. }
    apply Z.leb_gt in Ed.
    assert (Hnm : ~ minute_hit) by (unfold minute_hit; lia).
    assert (Hnd : ~ day_hit) by (unfold day_hit; lia).
    cbn [negb position_exposures set_trade_history
         max_position_exposure_pct max_total_exposure_pct].
    fold exposure. fold total. unfold Float64.pydiv.
    destruct (equity =? 0)%float eqn:Ez.
    { right; right; left. repeat split; first [assumption | reflexivity]. }
    destruct (max_position_exposure_pct rl <? exposure / equity)%float eqn:Ec.
    { right; right; right; left.
      repeat split; first [assumption | reflexivity]. }
    destruct (max_total_exposure_pct rl <? total / equity)%float eqn:Ect.
    { right; right; right; right; left.
      repeat split; first [assumption | reflexivity]. }
    right; right; right; right; right.
    repeat split; first [assumption | reflexivity]. }
  assert (Haccept :
    ~ minute_hit -> ~ day_hit -> (equity =? 0)%float = false ->
    (max_position_exposure_pct rl <? exposure / equity)%float = false ->
    (max_total_exposure_pct rl <? total / equity)%float = false ->
    result = Return (true, NoReason) rl1).
  { intros Hnm Hnd Hz Hc Hct.
    destruct Hcases as
      [ [Hm _]
      | [ (_ & Hd & _)
      | [ (_ & _ & Hz' & _)
      | [ (_ & _ & _ & Hc' & _)
      | [ (_ & _ & _ & _ & Hct' & _)
        | (_ & _ & _ & _ & _ & Hr) ]]]]];
      first [ exact Hr | contradiction | congruence ]. }
  split; [|split; [|split; [|split; [|split; [|split; [|split; [|split]]]]]]].
  - destruct Hcases as
      [ [Hm Hr]
      | [ (Hnm & Hd & Hr)
      | [ (Hnm & Hnd & Hz & Hr)
      | [ (Hnm & Hnd & Hz & Hc & Hr)
      | [ (Hnm & Hnd & Hz & Hc & Hct & Hr)
        | (Hnm & Hnd & Hz & Hc & Hct & Hr) ]]]]];
      rewrite Hr; unfold position_hit, total_hit.
    + split; [auto|]. intros _. eexists _, _. split; [reflexivity | discriminate].
    + split; [auto|]. intros _. eexists _, _. split; [reflexivity | discriminate].
    + split; [intros (why & rl' & Heq & _); discriminate Heq|].
      intros [H | [H | [[H _] | [H _]]]];
        first [contradiction | congruence].
    + split; [auto|]. intros _. eexists _, _. split; [reflexivity | discriminate].
    + split; [auto|]. intros _. eexists _, _. split; [reflexivity | discriminate].
    + split.
      * intros (why & rl' & Heq & Hwhy). injection Heq as <- <-. congruence.
      * intros [H | [H | [[_ H] | [_ H]]]];
          first [contradiction | congruence].
  - intros Hm.
    destruct Hcases as
      [ [_ Hr] | [ (Hnm & _) | [ (Hnm & _) | [ (Hnm & _) | [ (Hnm & _) | (Hnm & _) ]]]]];
      first [exact Hr | contradiction].
  - intros Hnm Hd.
    destruct Hcases as
      [ [Hm _] | [ (_ & _ & Hr) | [ (_ & Hnd & _) | [ (_ & Hnd & _)
      | [ (_ & Hnd & _) | (_ & Hnd & _) ]]]]];
      first [exact Hr | contradiction].
  - intros Hnm Hnd [Hz Hc].
    destruct Hcases as
      [ [Hm _]
      | [ (_ & Hd & _)
      | [ (_ & _ & Hz' & _)
      | [ (_ & _ & _ & _ & Hr)
      | [ (_ & _ & _ & Hc' & _)
        | (_ & _ & _ & Hc' & _) ]]]]];
      first [ exact Hr | contradiction | congruence ].
  - intros Hnm Hnd Hnp [Hz Hct].
    destruct Hcases as
      [ [Hm _]
      | [ (_ & Hd & _)
      | [ (_ & _ & Hz' & _)
      | [ (_ & _ & _ & Hc' & _)
      | [ (_ & _ & _ & _ & _ & Hr)
        | (_ & _ & _ & _ & Hct' & _) ]]]]];
      first [ exact Hr | contradiction | congruence
            | exfalso; apply Hnp; split; assumption ].
  - exact Haccept.
  - intros Hnm Hnd Hz Heq Hct.
    apply Haccept; try assumption. apply eqb_not_ltb. exact Heq.
  - intros Hnm Hnd Hz Hc Heq.
    apply Haccept; try assumption. apply eqb_not_ltb. exact Heq.
  - intros Hnm Hnd Hz.
    destruct Hcases as
      [ [Hm _]
      | [ (_ & Hd & _)
      | [ (_ & _ & _ & Hr)
      | [ (_ & _ & Hz' & _)
      | [ (_ & _ & Hz' & _)
        | (_ & _ & Hz' & _) ]]]]];
      first [ exact Hr | contradiction | congruence ].
Qed.

End Limits64Properties.

(** The tests of the repository.  At equity 10000 and the default 25% cap a
    proposal of 2500 computes exactly the cap and is accepted, one of 3000
    is rejected for the position exposure; with 4000 + 3000 already tracked
    a proposal of 2000 on a third symbol is rejected for the total exposure;
    with two trades just recorded against a limit of two per minute the rate
    limit answers first. *)
Lemma can_place_order_rejects_iff_witness :
  Limits64.can_place_order Limits64.sum_values 0 "BTC/USDT" "buy" 2500 10000
    Limits64.with_defaults
    = Return (true, Limits64.NoReason) Limits64.with_defaults
  /\ Limits64.can_place_order Limits64.sum_values 0 "BTC/USDT" "buy" 3000 10000
       Limits64.with_defaults
     = Return (false, Limits64.PositionExposureLimitExceeded "BTC/USDT"
                        ((0 + 3000) / 10000) 0.25) Limits64.with_defaults
  /\ (let rl := Limits64.update_position_exposure "ETH/USDT" 3000
                  (Limits64.update_position_exposure "BTC/USDT" 4000
                     Limits64.with_defaults) in
      exists pct,
        Limits64.can_place_order Limits64.sum_values 0 "SOL/USDT" "buy"
          2000 10000 rl
        = Return (false, Limits64.TotalExposureLimitExceeded pct 0.8) rl)
  /\ (let rl := Limits64.record_trade 1 "ETH/USDT" "buy"
                  (Limits64.record_trade 0 "BTC/USDT" "buy"
                     (Limits64.init 2 1200 0.25 0.8)) in
      Limits64.can_place_order Limits64.sum_values 2 "SOL/USDT" "buy" 100 10000 rl
        = Return (false, Limits64.TradeRateLimitExceeded 2) rl).
Proof.
  split; [|split; [|split]].
  - pose proof (can_place_order_rejects_iff Limits64.sum_values
                  Limits64.with_defaults 0 "BTC/USDT" "buy" 2500 10000) as H.
    cbv zeta in H. destruct H as (_ & _ & _ & _ & _ & _ & Hcap & _).
    apply Hcap.
    + vm_compute. intros H. apply H. reflexivity.
    + vm_compute. intros H. apply H. reflexivity.
    + reflexivity.
    + reflexivity.
    + reflexivity.
  - pose proof (can_place_order_rejects_iff Limits64.sum_values
                  Limits64.with_defaults 0 "BTC/USDT" "buy" 3000 10000) as H.
    cbv zeta in H. destruct H as (_ & _ & _ & Hposition & _).
    apply Hposition.
    + vm_compute. intros H. apply H. reflexivity.
    + vm_compute. intros H. apply H. reflexivity.
    + split; reflexivity.
  - intros rl.
    pose proof (can_place_order_rejects_iff Limits64.sum_values
                  rl 0 "SOL/USDT" "buy" 2000 10000) as H.
    cbv zeta in H. destruct H as (_ & _ & _ & _ & Htotal & _).
    eexists.
    apply Htotal.
    + vm_compute. intros H. apply H. reflexivity.
    + vm_compute. intros H. apply H. reflexivity.
    + intros [_ Hlt]. vm_compute in Hlt. discriminate Hlt.
    + split; vm_compute; reflexivity.
  - intros rl.
    pose proof (can_place_order_rejects_iff Limits64.sum_values
                  rl 2 "SOL/USDT" "buy" 100 10000) as H.
    cbv zeta in H. destruct H as (_ & Hminute & _).
    apply Hminute. vm_compute. discriminate.
Defined.

(** One exposure of 64.7 is tracked and 16.1 is proposed on another symbol
    at equity 101, with no trade recorded.  In the decimals written the
    total ratio is exactly the cap 0.80, and in the rationals the doubles
    stand for it does not exceed the cap either; the code adds 64.7 and 16.1
    to 80.80000000000001, divides to 0.8000000000000002 and rejects for the
    total exposure. *)
Lemma can_place_order_rejects_iff_counterexample :
  let rl := Limits64.update_position_exposure "ETH/USDT" 64.7
              Limits64.with_defaults in
  Limits64.trade_history rl = []
  /\ (((647 # 10) + (161 # 10)) / 101 == 8 # 10)%Q
  /\ ((161 # 10) / 101 <= 25 # 100)%Q
  /\ (exists x v e cap,
        Float64.value 64.7 = Some x
        /\ Float64.value 16.1 = Some v
        /\ Float64.value 101 = Some e
        /\ Float64.value (Limits64.max_total_exposure_pct rl) = Some cap
        /\ ((x + v) / e <= cap)%Q)
  /\ Limits64.can_place_order Limits64.sum_values 0 "BTC/USDT" "buy" 16.1 101 rl
     = Return (false,
               Limits64.TotalExposureLimitExceeded 0.8000000000000002 0.8) rl.
Proof.
  intros rl.
  split; [reflexivity|].
  split; [reflexivity|].
  split; [apply Qle_bool_iff; reflexivity|].
  split.
  - eexists _, _, _, _.
    split; [vm_compute; reflexivity|].
    split; [vm_compute; reflexivity|].
    split; [vm_compute; reflexivity|].
    split; [vm_compute; reflexivity|].
    apply Qle_bool_iff. vm_compute. reflexivity.
  - vm_compute. reflexivity.
Qed.

(** ** Stop rules *)

Section StopRulesProperties.
Import StopRules.

Lemma truthy_zero (z : Q) : z == 0 -> truthy (Some z) = false.
Proof.
  intros H. simpl. apply Qeq_bool_iff in H. rewrite H. reflexivity.
Qed.

(** C10.  A registered [stop_loss] of 0.0 behaves as an absent one:
    whatever the price and the side, [check_stops] answers as it does with
    the level removed, never reports a stop-loss hit, and returns
    [(False, None)] when no take-profit fires -- in particular for a short
    whose take-profit is absent, although every price [>= 0] satisfies
    [current_price >= stop_loss].  The same holds of a [take_profit] of
    0.0. *)
Theorem check_stops_zero_level (stops : StopLossManager)
    (position_id : string) (current_price : Q) (side : string)
    (s : StopLevels) (z : Q) :
  stops !! position_id = Some s ->
  z == 0 ->
  (stop_loss s = Some z ->
     check_stops position_id current_price side stops
       = check_stops position_id current_price side
           (<[position_id := without_stop_loss s]> stops)
     /\ (forall p c l,
           check_stops position_id current_price side stops
             <> (true, Some (StopLossHit p c l)))
     /\ (truthy (take_profit s) = false ->
         check_stops position_id current_price side stops = (false, None)))
  /\ (take_profit s = Some z ->
      check_stops position_id current_price side stops
        = check_stops position_id current_price side
            (<[position_id := without_take_profit s]> stops)
      /\ (forall p c l,
            check_stops position_id current_price side stops
              <> (true, Some (TakeProfitHit p c l)))).
Proof.
  intros Hs Hz. split.
  - intros Hsl. unfold check_stops.
    rewrite lookup_insert_eq, Hs. cbn [without_stop_loss stop_loss take_profit].
    rewrite Hsl, (truthy_zero z Hz). cbn [truthy andb].
    split; [reflexivity|]. split.
    + intros p c l.
      destruct (String.eqb side "buy");
        repeat match goal with
               | |- context [if ?b then _ else _] => destruct b
               end; congruence.
    + intros Htp. rewrite Htp. cbn [andb].
      destruct (String.eqb side "buy"); reflexivity.
  - intros Htp. unfold check_stops.
    rewrite lookup_insert_eq, Hs. cbn [without_take_profit stop_loss take_profit].
    rewrite Htp, (truthy_zero z Hz). cbn [truthy andb].
    split; [reflexivity|].
    intros p c l.
    destruct (String.eqb side "buy");
      repeat match goal with
             | |- context [if ?b then _ else _] => destruct b
             end; congruence.
Qed.

(** A short opened at 100 with [stop_loss=0.0] and no take-profit: at
    price 50, which is [>= 0.0], nothing is reported. *)
Lemma check_stops_zero_level_witness :
  let stops := set_stops "pos-1" 100 "sell" (Some 0) None None ∅ in
  Qle_bool 0 50 = true
  /\ check_stops "pos-1" 50 "sell" stops = (false, None).
Proof.
  intros stops. split; [reflexivity|].
  refine (proj2 (proj2 (proj1
    (check_stops_zero_level stops "pos-1" 50 "sell" _ 0 _ _) _)) _);
    reflexivity.
Defined.

End StopRulesProperties.

(** ** Paper broker *)

Section PaperProperties.
Import Exchanges Execution Paper.

Implicit Types (b : PaperBroker) (now : datetime).

(** The cash required by a buy, as the code computes it, against the
    closed form [p*q + p*q*fees_bps/10000]. *)
Lemma required_cash_closed_form (p q bps : Q) :
  p * q + p * q * (bps / 10000) == p * q + p * q * bps / 10000.
Proof. unfold Qdiv. ring. Qed.

(** C4.  A buy whose slippage-adjusted notional plus fee exceeds the cash,
    and a sell of more than the quantity held (nothing is held of a symbol
    without a ledger entry), each return an [OrderResult] with status
    "rejected", [filled_quantity] 0 and [reject_reason]
    "insufficient_cash", respectively "insufficient_position", and leave
    the broker (cash, positions, order log) exactly as it was.  The method
    is a total function: no input makes it raise. *)
Theorem create_market_order_rejections b (oid : string) (gauss : Q) now
    (sym : string) (qty current_price : Q) (coid : option string) :
  (cash b < notional_of gauss current_price qty "buy"
            + fee_of b gauss current_price qty "buy" ->
   let r := create_market_order oid gauss now sym "buy" qty current_price coid b in
   status (fst r) = "rejected"
   /\ filled_quantity (fst r) = 0
   /\ metadata (fst r) !! "reject_reason" = Some (MStr "insufficient_cash")
   /\ snd r = b)
  /\ (held_quantity b sym < qty ->
      let r := create_market_order oid gauss now sym "sell" qty current_price coid b in
      status (fst r) = "rejected"
      /\ filled_quantity (fst r) = 0
      /\ metadata (fst r) !! "reject_reason" = Some (MStr "insufficient_position")
      /\ snd r = b).
Proof.
  split.
  - intros Hshort r. subst r. unfold create_market_order.
    cbn [String.eqb Ascii.eqb Bool.eqb].
    unfold notional_of, fee_of, notional_of in Hshort.
    apply Qltb_lt in Hshort. rewrite Hshort.
    repeat split.
  - intros Hshort r. subst r. unfold create_market_order.
    cbn [String.eqb Ascii.eqb Bool.eqb].
    unfold held_quantity in Hshort.
    destruct (positions b !! sym) as [pos|].
    + apply Qltb_lt in Hshort. rewrite Hshort. repeat split.
    + repeat split.
Qed.

(** The test of the repository (cash 1000, one unit at 50000), and a sell
    of a symbol that is not held. *)
Lemma create_market_order_rejections_witness :
  let b := init 1000 2 10 in
  create_market_order "id-1" 2 0 "BTC/USDT" "buy" 1 50000 None b
    = (rejected "id-1" None "BTC/USDT" "buy" 1 0 "insufficient_cash", b)
  /\ snd (create_market_order "id-2" 2 0 "BTC/USDT" "sell" 1 50000 None b) = b.
Proof.
  intros b.
  destruct (create_market_order_rejections
              b "id-1" 2 0 "BTC/USDT" 1 50000 None) as [Hbuy _].
  destruct (create_market_order_rejections
              b "id-2" 2 0 "BTC/USDT" 1 50000 None) as [_ Hsell].
  split.
  - assert (Hshort : cash b < notional_of 2 50000 1 "buy"
                              + fee_of b 2 50000 1 "buy")
      by (apply Qltb_lt; reflexivity).
    destruct (Hbuy Hshort) as (_ & _ & _ & Hsame).
    reflexivity.
  - assert (Hshort : held_quantity b "BTC/USDT" < 1)
      by (apply Qltb_lt; reflexivity).
    exact (proj2 (proj2 (proj2 (Hsell Hshort)))).
Defined.

Lemma _update_position_buy_lookup (sym : string) (qty prc : Q)
    (ledger : gmap string Position) :
  let old_qty := match ledger !! sym with Some p => quantity p | None => 0 end in
  let old_avg := match ledger !! sym with Some p => avg_price p | None => 0 end in
  _update_position sym qty prc "buy" ledger !! sym
  = Some {| quantity := old_qty + qty;
            avg_price := if Qltb 0 (old_qty + qty)
                         then (old_qty * old_avg + qty * prc) / (old_qty + qty)
                         else 0 |}.
Proof.
  unfold _update_position. cbn [String.eqb Ascii.eqb Bool.eqb].
  destruct (ledger !! sym) as [pos|] eqn:E.
  - rewrite E. simpl. rewrite lookup_insert_eq. reflexivity.
  - rewrite lookup_insert_eq. simpl. rewrite lookup_insert_eq. reflexivity.
Qed.

(** C6, as the code has it.  A buy is accepted when the execution price
    [p], the quantity [q] and the fee [f = p*q*fees_bps/10000] satisfy
    [p*q + f <= cash].  Then cash decreases by exactly [p*q + f], the
    position of the symbol holds [old_qty + q], its average price is
    [(old_qty*old_avg + q*p) / (old_qty + q)] when that quantity is
    positive and 0.0 otherwise, and the order is logged under its id with
    status "filled", [filled_quantity = q], [average_fill_price = p] and
    the fee and price in its metadata. *)
Theorem create_market_order_buy_filled b (oid : string) (gauss : Q) now
    (sym : string) (q current_price : Q) (coid : option string) :
  let p := apply_slippage gauss current_price "buy" in
  let f := p * q * taker_fee_bps (fees_calc b) / 10000 in
  let old_qty := held_quantity b sym in
  let old_avg := held_avg_price b sym in
  let r := create_market_order oid gauss now sym "buy" q current_price coid b in
  p * q + f <= cash b ->
  cash (snd r) == cash b - (p * q + f)
  /\ is_Some (positions (snd r) !! sym)
  /\ held_quantity (snd r) sym = old_qty + q
  /\ (0 < old_qty + q ->
      held_avg_price (snd r) sym = (old_qty * old_avg + q * p) / (old_qty + q))
  /\ (old_qty + q <= 0 -> held_avg_price (snd r) sym = 0)
  /\ orders (snd r) !! oid = Some (fst r)
  /\ status (fst r) = "filled"
  /\ filled_quantity (fst r) = q
  /\ average_fill_price (fst r) = Some p
  /\ (exists fee, metadata (fst r) !! "fee" = Some (MNum fee) /\ fee == f)
  /\ metadata (fst r) !! "slippage_price" = Some (MNum p).
Proof.
  intros p f old_qty old_avg r Hcash.
  assert (Hreq : Qltb (cash b) (p * q + calculate_fee (fees_calc b) (p * q) false)
                 = false).
  { apply Qltb_ge. unfold calculate_fee.
    rewrite required_cash_closed_form. exact Hcash. }
  assert (Hr : r = (filled oid coid sym "buy" q p
                      (calculate_fee (fees_calc b) (p * q) false) now,
                    set_orders
                      (<[oid := filled oid coid sym "buy" q p
                                  (calculate_fee (fees_calc b) (p * q) false) now]>
                         (orders b))
                      (set_positions
                         (_update_position sym q p "buy" (positions b))
                         (set_cash
                            (cash b - (p * q + calculate_fee (fees_calc b)
                                                 (p * q) false)) b)))).
  { subst r. unfold create_market_order, exec_price_of.
    cbn [String.eqb Ascii.eqb Bool.eqb]. fold p. rewrite Hreq. reflexivity. }
  rewrite Hr. cbn [fst snd cash set_orders set_positions set_cash positions orders].
  unfold held_quantity, held_avg_price.
  cbn [positions set_orders set_positions].
  rewrite _update_position_buy_lookup. cbn [quantity avg_price].
  fold (held_quantity b sym) (held_avg_price b sym). fold old_qty old_avg.
  split.
  { unfold calculate_fee. rewrite required_cash_closed_form. reflexivity. }
  split; [eexists; reflexivity|].
  split; [reflexivity|].
  split.
  { intros Hpos. apply Qltb_lt in Hpos. rewrite Hpos. reflexivity. }
  split.
  { intros Hneg. apply Qltb_ge in Hneg. rewrite Hneg. reflexivity. }
  split; [apply lookup_insert_eq|].
  split; [reflexivity|]. split; [reflexivity|]. split; [reflexivity|].
  split; [|reflexivity].
  eexists. split; [reflexivity|].
  unfold calculate_fee, f, Qdiv. ring.
Qed.

(** The test of the repository: with cash 10000, buying 0.1 at 50000 with
    a slippage draw of 2 bps fills, debits 5001 + 5.001 and opens a
    position of 0.1 at the execution price 50010. *)
Lemma create_market_order_buy_filled_witness :
  let b := init 10000 2 10 in
  let r := create_market_order "id-1" 2 0 "BTC/USDT" "buy" (1 # 10) 50000 None b in
  status (fst r) = "filled"
  /\ cash (snd r) == 10000 - (5001 + (5001 # 1000))
  /\ held_quantity (snd r) "BTC/USDT" == 1 # 10
  /\ held_avg_price (snd r) "BTC/USDT" == 50010.
Proof.
  intros b r.
  assert (Hcash :
    apply_slippage 2 50000 "buy" * (1 # 10)
    + apply_slippage 2 50000 "buy" * (1 # 10)
      * taker_fee_bps (fees_calc b) / 10000 <= cash b)
    by (apply Qle_bool_iff; reflexivity).
  destruct (create_market_order_buy_filled
              b "id-1" 2 0 "BTC/USDT" (1 # 10) 50000 None Hcash)
    as (Hc & _ & Hq & Havg & _ & _ & Hst & _).
  fold r in Hc, Hq, Havg, Hst.
  split; [exact Hst|].
  split; [rewrite Hc; apply Qeq_bool_iff; reflexivity|].
  split; [rewrite Hq; apply Qeq_bool_iff; reflexivity|].
  rewrite Havg; [apply Qeq_bool_iff; reflexivity | apply Qltb_lt; reflexivity].
Defined.

(** C6 read for every accepted buy fails on a buy of a negative
    quantity, which the broker accepts: the average price is set to 0.0,
    not to [(0*0 + (-1)*100) / (0 + (-1)) = 100]. *)
Lemma create_market_order_buy_filled_counterexample :
  let b := init 10000 2 10 in
  let r := create_market_order "id-1" 0 0 "BTC/USDT" "buy" (-1) 100 None b in
  ~ (status (fst r) = "filled" ->
     held_avg_price (snd r) "BTC/USDT"
     == (held_quantity b "BTC/USDT" * held_avg_price b "BTC/USDT" + (-1) * 100)
        / (held_quantity b "BTC/USDT" + (-1))).
Proof.
  intros b r H. specialize (H eq_refl).
  apply Qeq_bool_iff in H. vm_compute in H. discriminate H.
Qed.

End PaperProperties.

(** ** Order status updates *)

Section CrudProperties.
Import Crud.

(** C3, as the code has it.  [update_order_status] validates nothing: on
    an order that exists, any requested status replaces the stored one,
    whatever it was (terminal or not), and the updated row is returned and
    persisted; [filled_at] is written exactly when the requested status is
    [filled] and is otherwise kept, [cancelled_at] exactly when it is
    [cancelled]. *)
Theorem update_order_status_unchecked (now1 now2 : datetime) (db : session)
    (oid : string) (st : OrderStatus) (fq ap : option Q) (order : Order) :
  db !! oid = Some order ->
  exists order',
    update_order_status now1 now2 db oid st fq ap
      = (Some order', <[oid := order']> db)
    /\ status order' = st
    /\ updated_at order' = now1
    /\ (st = FILLED -> filled_at order' = Some now2)
    /\ (st <> FILLED -> filled_at order' = filled_at order)
    /\ (st = CANCELLED -> cancelled_at order' = Some now2)
    /\ (st <> CANCELLED -> cancelled_at order' = cancelled_at order).
Proof.
  intros Hget. unfold update_order_status, get_order. rewrite Hget.
  eexists. split; [reflexivity|]. cbn.
  destruct st; cbn; repeat split; congruence.
Qed.

(** A filled order is put back to [pending], and a pending one is filled
    directly; only the second stamps [filled_at]. *)
Lemma update_order_status_unchecked_witness :
  let o := {| order_id := "o-1"; status := FILLED;
              filled_quantity := Some 1; average_fill_price := Some 100;
              updated_at := 5; filled_at := Some 5%Z; cancelled_at := None |} in
  exists o' o'',
    update_order_status 10 11 {[ "o-1" := o ]} "o-1" PENDING None None
      = (Some o', {[ "o-1" := o' ]})
    /\ status o' = PENDING /\ filled_at o' = Some 5%Z
    /\ update_order_status 20 21 {[ "o-1" := o' ]} "o-1" FILLED None None
       = (Some o'', {[ "o-1" := o'' ]})
    /\ status o'' = FILLED /\ filled_at o'' = Some 21%Z.
Proof.
  intros o.
  destruct (update_order_status_unchecked
              10 11 {[ "o-1" := o ]} "o-1" PENDING None None o)
    as (o' & Hupd & Hst & _ & _ & Hkeep & _); [apply lookup_singleton_eq|].
  destruct (update_order_status_unchecked
              20 21 {[ "o-1" := o' ]} "o-1" FILLED None None o')
    as (o'' & Hupd' & Hst' & _ & Hstamp & _); [apply lookup_singleton_eq|].
  exists o', o''.
  rewrite insert_singleton_eq in Hupd, Hupd'.
  split; [exact Hupd|]. split; [exact Hst|].
  split; [rewrite Hkeep; [reflexivity | discriminate]|].
  split; [exact Hupd'|]. split; [exact Hst'|].
  apply Hstamp. reflexivity.
Defined.

(** C3 fails: an order in the terminal state [filled] is moved
    to [pending], which is neither its current state nor a transition of
    the state machine. *)
Lemma update_order_status_unchecked_counterexample :
  let o := {| order_id := "o-1"; status := FILLED;
              filled_quantity := Some 1; average_fill_price := Some 100;
              updated_at := 5; filled_at := Some 5%Z; cancelled_at := None |} in
  ~ (forall o',
       fst (update_order_status 10 11 {[ "o-1" := o ]} "o-1" PENDING None None)
         = Some o' ->
       status o' = status o
       \/ (terminal (status o) = false
           /\ spec_transition (status o) (status o') = true)).
Proof.
  intros o H.
  destruct (H _ eq_refl) as [Hsame | [Hterm _]]; discriminate.
Qed.

End CrudProperties.

(** ** Trend strategy *)

Section TrendATRProperties.
Import TrendATR.

Variable rolling : nat -> list Q -> nat -> cell.
Variable atr : list OHLCV -> nat -> option (nat -> cell).

(** C8 (amended).  On a table with at least [max(sma_slow, atr_period)]
    rows whose fast SMA column is [<=] the slow SMA column at the
    second-to-last row and [>] it at the last row -- the columns being
    those pandas returns -- and for which [pandas_ta.atr] returns a series,
    [generate_signals] returns exactly one signal: a buy at the last close,
    with [stop_loss = close - atr_mult_sl * ATR],
    [take_profit = close + atr_mult_tp * atr_mult_sl * ATR] (both
    multipliers), confidence 1.0, ATR being the cell of the last row of
    that series.  On a table with fewer rows it returns the empty list. *)
Theorem generate_signals_bullish_crossover (s : TrendATRStrategy)
    (sym : string) (data : list OHLCV) (col : nat -> cell)
    (fast_prev slow_prev fast_last slow_last : Q) :
  ((length data < Nat.max (sma_slow s) (atr_period s))%nat ->
   generate_signals rolling atr s sym data = Ok [])
  /\ ((Nat.max (sma_slow s) (atr_period s) <= length data)%nat ->
      sma_fast_at rolling s data (length data - 2) = Some fast_prev ->
      sma_slow_at rolling s data (length data - 2) = Some slow_prev ->
      fast_prev <= slow_prev ->
      sma_fast_at rolling s data (length data - 1) = Some fast_last ->
      sma_slow_at rolling s data (length data - 1) = Some slow_last ->
      slow_last < fast_last ->
      atr data (atr_period s) = Some col ->
      exists last,
        data !! (length data - 1)%nat = Some last
        /\ generate_signals rolling atr s sym data
           = Ok [ {| symbol := sym;
                     side := "buy";
                     entry_price := close last;
                     stop_loss :=
                       (fun a => close last - atr_mult_sl s * a)
                         <$> col (length data - 1)%nat;
                     take_profit :=
                       (fun a => close last
                                 + atr_mult_tp s * atr_mult_sl s * a)
                         <$> col (length data - 1)%nat;
                     confidence := 1;
                     reason := SMACrossoverBullish (sma_fast s) (sma_slow s) |} ]).
Proof.
  split.
  - intros Hshort. unfold generate_signals.
    apply Nat.ltb_lt in Hshort. rewrite Hshort. reflexivity.
  - intros Hlong Hfp Hsp Hprev Hfl Hsl Hlast Hatr.
    assert (Hrows : (2 <= length data)%nat).
    { destruct (le_lt_dec 2 (length data)) as [Hok|Hfew]; [exact Hok|].
      exfalso.
      assert (Hidx : (length data - 2 = length data - 1)%nat) by lia.
      rewrite Hidx in Hfp, Hsp.
      rewrite Hfp in Hfl. rewrite Hsp in Hsl.
      injection Hfl as <-. injection Hsl as <-.
      exact (Qlt_not_le _ _ Hlast Hprev). }
    destruct (lookup_lt_is_Some_2 data (length data - 1)) as [last Hrow]; [lia|].
    exists last. split; [exact Hrow|].
    unfold generate_signals.
    apply Nat.ltb_ge in Hlong. rewrite Hlong.
    apply Nat.ltb_ge in Hrows. rewrite Hrows.
    rewrite Hrow, Hfp, Hsp, Hfl, Hsl. cbn [cell_le cell_lt].
    apply Qle_bool_iff in Hprev. rewrite Hprev.
    apply Qltb_lt in Hlast. rewrite Hlast.
    cbn [andb]. rewrite Hatr. reflexivity.
Qed.

End TrendATRProperties.

(** Closes 10, 10, 10, 20 with windows 1 and 2: the fast average goes from
    10 (equal to the slow one) to 20 (above the slow 15).  With an ATR of 1
    and both multipliers 2 the stop is 2 below and the target 4 above the
    close. *)
Lemma generate_signals_bullish_crossover_witness :
  let bar c := {| TrendATR.open := c; TrendATR.high := c; TrendATR.low := c;
                  TrendATR.close := c; TrendATR.volume := 1 |} in
  let s := {| TrendATR.sma_fast := 1; TrendATR.sma_slow := 2;
              TrendATR.atr_period := 1;
              TrendATR.atr_mult_sl := 2; TrendATR.atr_mult_tp := 2 |} in
  let col := fun _ : nat => Some 1 in
  let atr := fun (_ : list TrendATR.OHLCV) (_ : nat) => Some col in
  exists sig,
    TrendATR.generate_signals TrendATR.rolling_mean atr s "BTC/USDT"
      [bar 10; bar 10; bar 10; bar 20]
      = TrendATR.Ok [sig]
    /\ TrendATR.side sig = "buy"
    /\ TrendATR.entry_price sig = 20
    /\ TrendATR.stop_loss sig = Some (20 - 2 * 1)
    /\ TrendATR.take_profit sig = Some (20 + 2 * 2 * 1)
    /\ TrendATR.confidence sig = 1.
Proof.
  intros bar s col atr.
  destruct (generate_signals_bullish_crossover TrendATR.rolling_mean
              atr s "BTC/USDT" [bar 10; bar 10; bar 10; bar 20] col
              (TrendATR.sum_list [10] / 1) (TrendATR.sum_list [10; 10] / 2)
              (TrendATR.sum_list [20] / 1) (TrendATR.sum_list [10; 20] / 2))
    as [_ Hcross].
  destruct Hcross as (last & Hrow & Hsig).
  - simpl. lia.
  - reflexivity.
  - reflexivity.
  - apply Qle_bool_iff. reflexivity.
  - reflexivity.
  - reflexivity.
  - apply Qltb_lt. reflexivity.
  - reflexivity.
  - simpl in Hrow. injection Hrow as <-.
    eexists. split; [exact Hsig|]. repeat split.
Defined.

(** The same table and windows with [atr_period = 0]: the length guard
    passes and both crossover conditions hold, but [pandas_ta.atr] has no
    series to return for so short a table (its window then is its default
    of 14 rows), so the product with [last['atr']] raises [TypeError] and no
    signal is returned. *)
Lemma generate_signals_bullish_crossover_counterexample :
  let bar c := {| TrendATR.open := c; TrendATR.high := c; TrendATR.low := c;
                  TrendATR.close := c; TrendATR.volume := 1 |} in
  let s := {| TrendATR.sma_fast := 1; TrendATR.sma_slow := 2;
              TrendATR.atr_period := 0;
              TrendATR.atr_mult_sl := 2; TrendATR.atr_mult_tp := 2 |} in
  let atr := fun (_ : list TrendATR.OHLCV) (_ : nat) =>
               @None (nat -> TrendATR.cell) in
  let data := [bar 10; bar 10; bar 10; bar 20] in
  (Nat.max (TrendATR.sma_slow s) (TrendATR.atr_period s) <= length data)%nat
  /\ TrendATR.cell_le
       (TrendATR.sma_fast_at TrendATR.rolling_mean s data (length data - 2))
       (TrendATR.sma_slow_at TrendATR.rolling_mean s data (length data - 2))
     = true
  /\ TrendATR.cell_lt
       (TrendATR.sma_slow_at TrendATR.rolling_mean s data (length data - 1))
       (TrendATR.sma_fast_at TrendATR.rolling_mean s data (length data - 1))
     = true
  /\ TrendATR.generate_signals TrendATR.rolling_mean atr s "BTC/USDT" data
     = TrendATR.Err TypeError
  /\ ~ exists sig,
        TrendATR.generate_signals TrendATR.rolling_mean atr s "BTC/USDT" data
        = TrendATR.Ok [sig].
Proof.
  intros bar s atr data.
  assert (Hraise :
    TrendATR.generate_signals TrendATR.rolling_mean atr s "BTC/USDT" data
    = TrendATR.Err TypeError) by (vm_compute; reflexivity).
  split; [cbn; lia|].
  split; [vm_compute; reflexivity|].
  split; [vm_compute; reflexivity|].
  split; [exact Hraise|].
  intros [sig Hsig]. rewrite Hraise in Hsig. discriminate Hsig.
Qed.

(** ** Rebalancer *)

Section RebalanceProperties.
Import Rebalance.

Variable r : Rebalancer.
Variables current_allocation target_allocation prices : gmap string Q.

Local Abbreviation total_value := (sum_values current_allocation).
Local Abbreviation body :=
  (trade_for r total_value current_allocation target_allocation prices).
Local Abbreviation loop :=
  (visit r total_value current_allocation target_allocation prices).

(** The loop writes, for each symbol it visits, the trade computed for
    that symbol and nothing else. *)
Lemma foldl_visit_lookup (l : list string) (acc : gmap string Trade)
    (sym : string) :
  foldl loop acc l !! sym
  = if decide (sym ∈ l)
    then match body sym with Some t => Some t | None => acc !! sym end
    else acc !! sym.
Proof.
  revert acc. induction l as [|x l IH]; intros acc.
  - cbn [foldl]. destruct (decide (sym ∈ [])) as [Hin|_]; [|reflexivity].
    exfalso. exact (not_elem_of_nil _ Hin).
  - cbn [foldl]. rewrite IH. unfold visit.
    destruct (decide (sym ∈ l)) as [Hin|Hnin];
      destruct (decide (sym ∈ x :: l)) as [Hin'|Hnin'].
    + destruct (body sym) as [t|] eqn:Hsym; [reflexivity|].
      destruct (body x) as [tx|] eqn:Hx; [|reflexivity].
      rewrite lookup_insert_ne; [reflexivity|]. congruence.
    + exfalso. apply Hnin', elem_of_cons. auto.
    + apply elem_of_cons in Hin' as [->|Hin']; [|contradiction].
      destruct (body x) as [tx|]; [apply lookup_insert_eq | reflexivity].
    + destruct (body x) as [tx|]; [|reflexivity].
      apply lookup_insert_ne. intros <-. apply Hnin', elem_of_cons. auto.
Qed.

Lemma calculate_rebalance_trades_lookup (sym : string) :
  calculate_rebalance_trades r current_allocation target_allocation prices !! sym
  = if decide (sym ∈ dom current_allocation ∪ dom target_allocation)
    then body sym else None.
Proof.
  unfold calculate_rebalance_trades. cbv zeta.
  rewrite foldl_visit_lookup. unfold symbols.
  destruct (decide (sym ∈ dom current_allocation ∪ dom target_allocation))
    as [Hin|Hnin].
  - rewrite decide_True by (apply elem_of_elements; exact Hin).
    destruct (body sym); [reflexivity | apply lookup_empty].
  - rewrite decide_False by (rewrite elem_of_elements; exact Hnin).
    apply lookup_empty.
Qed.

Lemma trade_for_Some (sym : string) (t : Trade) :
  body sym = Some t ->
  let cur := default 0 (current_allocation !! sym) in
  let tgt := default 0 (target_allocation !! sym) in
  let p := default 0 (prices !! sym) in
  Qltb (if Qltb 0 total_value then Qabs (tgt - cur) / total_value else 0)
       (rebalance_threshold_pct r) = false
  /\ cost_aware r
     && Qltb (Qabs (tgt - cur)) (Qabs (tgt - cur) * (fee_bps r / 10000) * 2)
     = false
  /\ Qeq_bool p 0 = false
  /\ t = {| current_value := cur;
            target_value := tgt;
            delta_value := tgt - cur;
            delta_quantity := Qabs ((tgt - cur) / p);
            side := if Qltb 0 ((tgt - cur) / p) then "buy" else "sell";
            price := p |}.
Proof.
  unfold trade_for. intros H.
  repeat match type of H with
         | (if ?b then _ else _) = _ => destruct b eqn:?; [discriminate H|]
         end.
  injection H as <-. cbv zeta. auto.
Qed.

(** C9, as the code has it.  For every symbol, with
    [delta = target - current] and [total] the sum of the current values:
    the symbol is absent from the trade map when [total > 0] and
    [|delta| / total < rebalance_threshold_pct] (when [total <= 0] the
    deviation is taken to be 0, so the symbol is absent for any positive
    threshold); when cost-aware and [|delta| < 2 * (|delta| * fee_bps /
    10000)]; and when its price is missing or 0.  Every trade emitted is
    for a symbol of one of the two maps, has a non-zero price,
    [delta_quantity = |delta / price|] and side "buy" iff
    [delta / price > 0] -- for a positive price, [|delta| / price] and
    "buy" iff [delta > 0]. *)
Theorem calculate_rebalance_trades_rules (sym : string) :
  let trades :=
    calculate_rebalance_trades r current_allocation target_allocation prices in
  let cur := default 0 (current_allocation !! sym) in
  let tgt := default 0 (target_allocation !! sym) in
  let delta := tgt - cur in
  (0 < total_value ->
   Qabs delta / total_value < rebalance_threshold_pct r ->
   trades !! sym = None)
  /\ (total_value <= 0 -> 0 < rebalance_threshold_pct r -> trades !! sym = None)
  /\ (cost_aware r = true ->
      Qabs delta < 2 * (Qabs delta * fee_bps r / 10000) ->
      trades !! sym = None)
  /\ (prices !! sym = None -> trades !! sym = None)
  /\ (forall p, prices !! sym = Some p -> p == 0 -> trades !! sym = None)
  /\ (forall t, trades !! sym = Some t ->
        sym ∈ dom current_allocation ∪ dom target_allocation
        /\ exists p,
             prices !! sym = Some p /\ ~ p == 0
             /\ price t = p
             /\ current_value t = cur /\ target_value t = tgt
             /\ delta_value t = delta
             /\ delta_quantity t = Qabs (delta / p)
             /\ (side t = "buy" \/ side t = "sell")
             /\ (side t = "buy" <-> 0 < delta / p)
             /\ (0 < p ->
                 delta_quantity t == Qabs delta / p
                 /\ (side t = "buy" <-> 0 < delta))).
Proof.
  intros trades cur tgt delta. subst trades.
  rewrite calculate_rebalance_trades_lookup.
  assert (Hnone : body sym = None ->
                  (if decide (sym ∈ dom current_allocation ∪ dom target_allocation)
                   then body sym else None) = None).
  { intros ->. destruct (decide _); reflexivity. }
  split; [|split; [|split; [|split; [|split]]]].
  - intros Htot Hdev. apply Hnone. unfold trade_for.
    fold cur tgt delta.
    apply Qltb_lt in Htot. rewrite Htot.
    apply Qltb_lt in Hdev. rewrite Hdev. reflexivity.
  - intros Htot Hthr. apply Hnone. unfold trade_for.
    apply Qltb_ge in Htot. rewrite Htot.
    apply Qltb_lt in Hthr. rewrite Hthr. reflexivity.
  - intros Hcost Hsmall. apply Hnone. unfold trade_for.
    fold cur tgt delta.
    destruct (Qltb _ (rebalance_threshold_pct r)); [reflexivity|].
    rewrite Hcost.
    assert (Hlt : Qltb (Qabs delta) (Qabs delta * (fee_bps r / 10000) * 2) = true).
    { apply Qltb_lt.
      assert (Heq : Qabs delta * (fee_bps r / 10000) * 2
                    == 2 * (Qabs delta * fee_bps r / 10000))
        by (unfold Qdiv; ring).
      rewrite Heq. exact Hsmall. }
    rewrite Hlt. reflexivity.
  - intros Hp. apply Hnone. unfold trade_for. rewrite Hp.
    destruct (Qltb _ (rebalance_threshold_pct r)); [reflexivity|].
    destruct (cost_aware r && _); reflexivity.
  - intros p Hp Hz. apply Hnone. unfold trade_for. rewrite Hp.
    change (default 0 (Some p)) with p.
    apply Qeq_bool_iff in Hz.
    destruct (Qltb _ (rebalance_threshold_pct r)); [reflexivity|].
    destruct (cost_aware r && _); [reflexivity|].
    rewrite Hz. reflexivity.
  - intros t Ht.
    destruct (decide (sym ∈ dom current_allocation ∪ dom target_allocation))
      as [Hin|]; [|discriminate Ht].
    split; [exact Hin|].
    apply trade_for_Some in Ht. cbv zeta in Ht.
    fold cur tgt delta in Ht.
    destruct Ht as (_ & _ & Hprice & ->).
    destruct (prices !! sym) as [p|] eqn:Hp.
    2:{ cbn in Hprice. discriminate Hprice. }
    change (default 0 (Some p)) with p in *. apply Qeq_bool_neq in Hprice.
    exists p. cbn [price current_value target_value delta_value delta_quantity side].
    repeat (split; [first [reflexivity | exact Hprice]|]).
    assert (Hside : (if Qltb 0 (delta / p) then "buy" else "sell") = "buy"
                    <-> 0 < delta / p).
    { destruct (Qltb 0 (delta / p)) eqn:E.
      - apply Qltb_lt in E. tauto.
      - apply Qltb_ge in E. split; [discriminate|].
        intros Hlt. exfalso. exact (Qlt_not_le _ _ Hlt E). }
    split; [destruct (Qltb 0 (delta / p)); auto|].
    split; [exact Hside|].
    intros Hpos. split.
    + unfold Qdiv. rewrite Qabs_Qmult.
      rewrite (Qabs_pos (/ p)); [reflexivity|].
      apply Qlt_le_weak, Qinv_lt_0_compat. exact Hpos.
    + rewrite Hside. split.
      * intros Hq.
        assert (H0 : 0 * p < delta / p * p)
          by (apply Qmult_lt_compat_r; assumption).
        rewrite Qmult_0_l in H0.
        rewrite Qmult_comm, Qmult_div_r in H0; [exact H0|].
        intros Hz. rewrite Hz in Hpos. exact (Qlt_irrefl _ Hpos).
      * intros Hd. unfold Qdiv.
        rewrite <- (Qmult_0_l (/ p)).
        apply Qmult_lt_compat_r; [apply Qinv_lt_0_compat; exact Hpos | exact Hd].
Qed.

End RebalanceProperties.

(** A 10000 portfolio, 6000/4000, rebalanced towards 5000/4100 at prices
    50000 and 2000 with the default settings: the 1% move of ETH is below
    the 2% threshold and is skipped, the 10% move of BTC is emitted as a
    sale of 0.02. *)
Lemma calculate_rebalance_trades_rules_witness :
  let current := <["BTC" := 6000]> {["ETH" := 4000]} : gmap string Q in
  let target := <["BTC" := 5000]> {["ETH" := 4100]} : gmap string Q in
  let prices := <["BTC" := 50000]> {["ETH" := 2000]} : gmap string Q in
  let trades :=
    Rebalance.calculate_rebalance_trades Rebalance.with_defaults
      current target prices in
  trades !! "ETH" = None
  /\ exists t, trades !! "BTC" = Some t
               /\ Rebalance.side t = "sell"
               /\ Rebalance.delta_quantity t == 2 # 100.
Proof.
  intros current target prices trades.
  split.
  - refine (proj1 (calculate_rebalance_trades_rules
                     Rebalance.with_defaults current target prices "ETH") _ _);
      apply Qltb_lt; vm_compute; reflexivity.
  - destruct (trades !! "BTC") as [t|] eqn:Ht; [|vm_compute in Ht; discriminate Ht].
    exists t. split; [reflexivity|].
    destruct (proj2 (proj2 (proj2 (proj2 (proj2
                (calculate_rebalance_trades_rules
                   Rebalance.with_defaults current target prices "BTC")))))
                t Ht)
      as (_ & p & Hp & _ & _ & _ & _ & _ & _ & Hside & Hbuy & Hpos).
    vm_compute in Hp. injection Hp as <-.
    split.
    + destruct Hside as [Hb|Hs]; [|exact Hs].
      exfalso. apply Hbuy in Hb.
      apply Qltb_lt in Hb. vm_compute in Hb. discriminate Hb.
    + destruct Hpos as [Hq _]; [apply Qltb_lt; reflexivity|].
      rewrite Hq. apply Qeq_bool_iff. vm_compute. reflexivity.
Defined.

(** C9 read for all inputs fails in two places.  With a negative
    price the emitted quantity is [|delta / price|], not [|delta| / price],
    and the side follows the sign of [delta / price]: a target above the
    current value is emitted as a sale.  With a total current value that is
    not positive the deviation is taken to be 0, so under a threshold of 0 a
    symbol whose [|delta| / total] is negative, hence below the threshold,
    is still emitted. *)
Lemma calculate_rebalance_trades_rules_counterexample :
  (let trades :=
     Rebalance.calculate_rebalance_trades Rebalance.with_defaults
       {["BTC" := 100]} {["BTC" := 200]} {["BTC" := - (2)]} in
   ~ (forall t, trades !! "BTC" = Some t ->
                Rebalance.delta_quantity t == Qabs (200 - 100) / - (2)
                /\ (Rebalance.side t = "buy" <-> 0 < 200 - 100)))
  /\ (let r := {| Rebalance.rebalance_threshold_pct := 0;
                  Rebalance.cost_aware := true;
                  Rebalance.fee_bps := 10 |} in
      let trades :=
        Rebalance.calculate_rebalance_trades r
          {["BTC" := - (100)]} {["BTC" := - (50)]} {["BTC" := 10]} in
      ~ (Qabs (- (50) - - (100)) / sum_values {["BTC" := - (100)]}
           < Rebalance.rebalance_threshold_pct r ->
         trades !! "BTC" = None)).
Proof.
  split.
  - intros trades H.
    destruct (trades !! "BTC") as [t|] eqn:Ht; [|vm_compute in Ht; discriminate Ht].
    destruct (H t eq_refl) as [_ [_ Hbuy]].
    vm_compute in Ht. injection Ht as <-.
    assert (Habs : "sell" = "buy") by (apply Hbuy; reflexivity).
    discriminate Habs.
  - intros r trades H.
    assert (Hnone : trades !! "BTC" = None)
      by (apply H; apply Qltb_lt; vm_compute; reflexivity).
    vm_compute in Hnone. discriminate Hnone.
Qed.

(** * Further properties *)

(** ** Circuit breaker: bookkeeping, bursts of failures, error and reset *)

Section CircuitBreakerTraces.
Import CircuitBreaker BreakerTrace.

Implicit Types (m : CircuitBreakerManager) (now trig_now t : datetime).

Lemma _trigger_well_formed now r m :
  well_formed m -> well_formed (_trigger now r m) /\ same_config m (_trigger now r m).
Proof.
  intros Hwf. unfold _trigger.
  destruct (triggered (state m)) eqn:E.
  - split; [exact Hwf | repeat split].
  - split; [|repeat split]. right. exists now, r. reflexivity.
Qed.

Lemma update_daily_high_frame now cur start m :
  state (update_daily_high now cur start m) = state m
  /\ same_config m (update_daily_high now cur start m)
  /\ failed_orders_history (update_daily_high now cur start m)
     = failed_orders_history m.
Proof.
  unfold update_daily_high, same_config.
  destruct (last_reset_date m) as [d|]; [destruct (date d <? date now)%Z|];
    simpl; try (destruct (daily_high_equity m)); repeat split.
Qed.

Lemma well_formed_ext m m' :
  state m' = state m -> cooldown_minutes m' = cooldown_minutes m ->
  well_formed m -> well_formed m'.
Proof.
  unfold well_formed. intros -> ->. tauto.
Qed.

Lemma same_config_trans m1 m2 m3 :
  same_config m1 m2 -> same_config m2 m3 -> same_config m1 m3.
Proof.
  unfold same_config. intros (-> & -> & ->) (-> & -> & ->). repeat split.
Qed.

Lemma step_well_formed c m :
  well_formed m ->
  well_formed (final (step c m)) /\ same_config m (final (step c m)).
Proof.
  intros Hwf. destruct c as [now tn cur start|now tn|now text|now|now|force now];
    cbn [step].
  - unfold check_drawdown.
    destruct (triggered (state m)); [split; [exact Hwf | repeat split]|].
    destruct (update_daily_high_frame now cur start m) as (Hst & Hcfg & _).
    assert (Hwf1 : well_formed (update_daily_high now cur start m))
      by (apply (well_formed_ext m); [exact Hst | apply Hcfg | exact Hwf]).
    destruct (pydiv _ _) as [dd|]; [|split; [exact Hwf1 | exact Hcfg]].
    destruct (Qle_bool _ dd); cbn [final]; [|split; [exact Hwf1 | exact Hcfg]].
    destruct (_trigger_well_formed tn
                (MaxDailyDrawdownExceeded dd
                   (max_daily_drawdown (update_daily_high now cur start m)))
                _ Hwf1) as [Hw Hc].
    split; [exact Hw | exact (same_config_trans _ _ _ Hcfg Hc)].
  - unfold record_failed_order.
    destruct (triggered (state m)); [split; [exact Hwf | repeat split]|].
    set (h := filter _ _).
    assert (Hwf1 : well_formed (set_history h m))
      by (apply (well_formed_ext m); [reflexivity | reflexivity | exact Hwf]).
    cbn [max_failed_orders_per_hour set_history].
    destruct (_ <=? _)%Z; cbn [snd final]; [|split; [exact Hwf1 | repeat split]].
    destruct (_trigger_well_formed tn (TooManyFailedOrders (length h)) _ Hwf1)
      as [Hw Hc].
    split; [exact Hw | exact Hc].
  - cbn [final]. apply _trigger_well_formed. exact Hwf.
  - split; [exact Hwf | repeat split].
  - split; [exact Hwf | repeat split].
  - cbn [final]. unfold reset.
    destruct (negb (triggered (state m))); [split; [exact Hwf | repeat split]|].
    destruct (negb force && in_cooldown now m); [split; [exact Hwf | repeat split]|].
    split; [left; reflexivity | repeat split].
Qed.

Lemma run_cons c cs m :
  final (run (c :: cs) m)
  = match step c m with
    | Return _ m' => final (run cs m')
    | Raise _ m' => m'
    end.
Proof. cbn [run]. destruct (step c m); reflexivity. Qed.

(** X1.  Whatever sequence of public calls is made on a manager whose state
    is well formed (a fresh one is), and whether or not a call raises, the
    manager that is left has the same construction parameters and a well
    formed state: either cleared, or triggered with
    [can_resume_at = trigger_time + cooldown_minutes]. *)
Theorem run_keeps_bookkeeping (cs : list call) m :
  well_formed m ->
  well_formed (final (run cs m)) /\ same_config m (final (run cs m)).
Proof.
  revert m. induction cs as [|c cs IH]; intros m Hwf.
  - split; [exact Hwf | repeat split].
  - rewrite run_cons.
    destruct (step_well_formed c m Hwf) as [Hw Hc].
    destruct (step c m) as [[] m'|e m']; cbn [final] in Hw, Hc.
    + destruct (IH m' Hw) as [Hw' Hc'].
      split; [exact Hw' | exact (same_config_trans _ _ _ Hc Hc')].
    + split; [exact Hw | exact Hc].
Qed.

(** A fresh manager tripped by a 5% loss at time 7, hit again by the kill
    switch, then reset and tripped by the kill switch at time 50: the resume
    time is that of the last trip plus 60 minutes. *)
Lemma run_keeps_bookkeeping_witness :
  let m := final (run [CheckDrawdown 7 7 9500 10000; ManualKillSwitch 9 "x";
                       Reset true 20; ManualKillSwitch 50 "y"] with_defaults) in
  well_formed m
  /\ can_resume_at (state m) = Some 3600000050%Z
  /\ cooldown_minutes m = 60%Z.
Proof.
  intros m.
  destruct (run_keeps_bookkeeping
              [CheckDrawdown 7 7 9500 10000; ManualKillSwitch 9 "x";
               Reset true 20; ManualKillSwitch 50 "y"] with_defaults)
    as [Hw (_ & _ & Hc)]; [left; reflexivity|].
  split; [exact Hw|]. split; [reflexivity | exact Hc].
Defined.

Lemma step_history_below_threshold c m :
  (0 < max_failed_orders_per_hour m)%Z ->
  (triggered (state m) = false ->
   (Z.of_nat (length (failed_orders_history m)) < max_failed_orders_per_hour m)%Z) ->
  (0 < max_failed_orders_per_hour (final (step c m)))%Z
  /\ (triggered (state (final (step c m))) = false ->
      (Z.of_nat (length (failed_orders_history (final (step c m))))
       < max_failed_orders_per_hour (final (step c m)))%Z).
Proof.
  intros Hpos Hinv.
  assert (Hsame : (0 < max_failed_orders_per_hour m)%Z
                  /\ (triggered (state m) = false ->
                      (Z.of_nat (length (failed_orders_history m))
                       < max_failed_orders_per_hour m)%Z))
    by (split; assumption).
  assert (Htripped : forall tn r m1,
            max_failed_orders_per_hour m1 = max_failed_orders_per_hour m ->
            (0 < max_failed_orders_per_hour (_trigger tn r m1))%Z
            /\ (triggered (state (_trigger tn r m1)) = false ->
                (Z.of_nat (length (failed_orders_history (_trigger tn r m1)))
                 < max_failed_orders_per_hour (_trigger tn r m1))%Z)).
  { intros tn r m1 Hmax. rewrite _trigger_triggered.
    split; [|discriminate].
    unfold _trigger. destruct (triggered (state m1)); cbn; rewrite Hmax; exact Hpos. }
  destruct c as [now tn cur start|now tn|now text|now|now|force now]; cbn [step].
  - unfold check_drawdown.
    case_eq (triggered (state m)); intros Htrig; [exact Hsame|].
    destruct (update_daily_high_frame now cur start m)
      as (Hst & (_ & Hmax & _) & Hhist).
    assert (Hmoved :
      (0 < max_failed_orders_per_hour (update_daily_high now cur start m))%Z
      /\ (triggered (state (update_daily_high now cur start m)) = false ->
          (Z.of_nat (length (failed_orders_history
                               (update_daily_high now cur start m)))
           < max_failed_orders_per_hour (update_daily_high now cur start m))%Z))
      by (rewrite Hst, Hmax, Hhist; exact Hsame).
    destruct (pydiv _ _) as [dd|]; [|exact Hmoved].
    destruct (Qle_bool _ dd); cbn [final]; [|exact Hmoved].
    apply Htripped. exact Hmax.
  - unfold record_failed_order.
    case_eq (triggered (state m)); intros Htrig; [exact Hsame|].
    set (h := filter _ _).
    cbn [max_failed_orders_per_hour set_history].
    destruct (_ <=? _)%Z eqn:E; cbn [snd final].
    + apply Htripped. reflexivity.
    + apply Z.leb_gt in E. cbn. split; [exact Hpos | intros _; exact E].
  - cbn [final]. apply Htripped. reflexivity.
  - exact Hsame.
  - exact Hsame.
  - cbn [final]. unfold reset.
    case_eq (negb (triggered (state m))); intros _; [exact Hsame|].
    case_eq (negb force && in_cooldown now m); intros _; [exact Hsame|].
    cbn. split; [exact Hpos | intros _; exact Hpos].
Qed.

(** X2.  With a positive [max_failed_orders_per_hour], a manager that is
    open (not triggered) always holds fewer recorded failures than the
    threshold: the property holds of a fresh manager and is kept by every
    sequence of public calls. *)
Theorem run_keeps_history_below_threshold (cs : list call) m :
  (0 < max_failed_orders_per_hour m)%Z ->
  (triggered (state m) = false ->
   (Z.of_nat (length (failed_orders_history m)) < max_failed_orders_per_hour m)%Z) ->
  triggered (state (final (run cs m))) = false ->
  (Z.of_nat (length (failed_orders_history (final (run cs m))))
   < max_failed_orders_per_hour (final (run cs m)))%Z.
Proof.
  revert m. induction cs as [|c cs IH]; intros m Hpos Hinv.
  - exact Hinv.
  - rewrite run_cons.
    destruct (step_history_below_threshold c m Hpos Hinv) as [Hpos' Hinv'].
    destruct (step c m) as [[] m'|e m']; cbn [final] in Hpos', Hinv'.
    + exact (IH m' Hpos' Hinv').
    + exact Hinv'.
Qed.

(** Two failures against a threshold of 3, one of them pruned by a later
    call: the manager is open and holds fewer than 3 entries. *)
Lemma run_keeps_history_below_threshold_witness :
  let m := final (run [RecordFailedOrder 10 10; RecordFailedOrder 20 20;
                       RecordFailedOrder 3600000015 3600000015]
                      (init (4 # 100) 3 60)) in
  triggered (state m) = false
  /\ (Z.of_nat (length (failed_orders_history m)) < 3)%Z.
Proof.
  intros m. split; [reflexivity|].
  apply (run_keeps_history_below_threshold
           [RecordFailedOrder 10 10; RecordFailedOrder 20 20;
            RecordFailedOrder 3600000015 3600000015] (init (4 # 100) 3 60)).
  - reflexivity.
  - intros _. reflexivity.
  - reflexivity.
Defined.

Lemma filter_filter_implied {A} (P Q : A -> Prop)
    `{forall x, Decision (P x)} `{forall x, Decision (Q x)} (l : list A) :
  (forall x, P x -> Q x) -> filter P (filter Q l) = filter P l.
Proof.
  intros Himp. induction l as [|x l IH]; [reflexivity|].
  rewrite !filter_cons.
  destruct (decide (Q x)) as [HQ|HQ]; destruct (decide (P x)) as [HP|HP].
  - rewrite filter_cons, decide_True by exact HP. rewrite IH. reflexivity.
  - rewrite filter_cons, decide_False by exact HP. exact IH.
  - exfalso. apply HQ, Himp, HP.
  - exact IH.
Qed.

Lemma run_failures_triggered ts m :
  triggered (state m) = true -> run (failures ts) m = Return tt m.
Proof.
  intros Htrig. induction ts as [|p ts IH]; [reflexivity|].
  cbn [failures fmap list_fmap run].
  rewrite (step_triggered m (RecordFailedOrder (fst p) (snd p)) Htrig eq_refl).
  exact IH.
Qed.

(** The entries of the history that every call made at one of the times
    [times] still keeps. *)
Lemma record_failed_order_in_burst (times : list datetime) now tn m :
  now ∈ times ->
  (forall a b, a ∈ times -> b ∈ times -> (a - b < microseconds_per_hour)%Z) ->
  triggered (state m) = false ->
  let keep := fun t => Forall (fun b => (b - t < microseconds_per_hour)%Z) times in
  let m' := snd (record_failed_order now tn m) in
  triggered (state m') = true
  \/ (triggered (state m') = false
      /\ max_failed_orders_per_hour m' = max_failed_orders_per_hour m
      /\ (Z.of_nat (length (failed_orders_history m'))
          < max_failed_orders_per_hour m')%Z
      /\ length (filter keep (failed_orders_history m'))
         = S (length (filter keep (failed_orders_history m)))).
Proof.
  intros Hin Hwin Htrig keep m'. subst m'.
  unfold record_failed_order. rewrite Htrig.
  set (h := filter _ (failed_orders_history m ++ [now])).
  cbn [max_failed_orders_per_hour set_history].
  destruct (_ <=? _)%Z eqn:E; cbn [snd].
  - left. apply _trigger_triggered.
  - right. apply Z.leb_gt in E. cbn.
    split; [exact Htrig|]. split; [reflexivity|]. split; [exact E|].
    unfold h. rewrite filter_filter_implied.
    + rewrite filter_app, length_app.
      rewrite filter_cons, decide_True.
      * cbn. lia.
      * unfold keep. apply Forall_forall. intros b Hb. apply Hwin; assumption.
    + intros t Hkeep. unfold keep in Hkeep.
      rewrite Forall_forall in Hkeep. specialize (Hkeep now Hin). lia.
Qed.

Lemma burst_counts (times : list datetime) (ts : list (datetime * datetime)) m :
  (forall p, p ∈ ts -> fst p ∈ times) ->
  (forall a b, a ∈ times -> b ∈ times -> (a - b < microseconds_per_hour)%Z) ->
  triggered (state m) = false ->
  (Z.of_nat (length (failed_orders_history m)) < max_failed_orders_per_hour m)%Z ->
  let keep := fun t => Forall (fun b => (b - t < microseconds_per_hour)%Z) times in
  let m' := final (run (failures ts) m) in
  triggered (state m') = true
  \/ (max_failed_orders_per_hour m' = max_failed_orders_per_hour m
      /\ (Z.of_nat (length (failed_orders_history m'))
          < max_failed_orders_per_hour m')%Z
      /\ length (filter keep (failed_orders_history m'))
         = (length (filter keep (failed_orders_history m)) + length ts)%nat).
Proof.
  intros Hts Hwin. revert m.
  induction ts as [|p ts IH]; intros m Htrig Hbelow keep m'.
  - right. subst m'. cbn. split; [reflexivity|]. split; [exact Hbelow | lia].
  - subst m'. cbn [failures fmap list_fmap]. rewrite run_cons. cbn [step].
    destruct (record_failed_order_in_burst times (fst p) (snd p) m)
      as [Htrip | (Hopen & Hmax & Hlt & Hcount)];
      [apply Hts; left | exact Hwin | exact Htrig | |].
    + left. fold (failures ts). rewrite run_failures_triggered by exact Htrip.
      exact Htrip.
    + fold (failures ts).
      destruct (IH (fun q Hq => Hts q (list_elem_of_further _ _ _ Hq))
                   _ Hopen Hlt) as [Htrip | (Hmax' & Hlt' & Hcount')].
      * left. exact Htrip.
      * right. split; [congruence|]. split; [exact Hlt'|].
        subst keep. cbv zeta beta in Hcount, Hcount' |- *.
        rewrite Hcount', Hcount. cbn [length]. lia.
Qed.

(** X3.  A burst of failures trips the breaker: if [record_failed_order] is
    called at times that all lie within less than one hour of each other,
    and at least [max_failed_orders_per_hour] times, the breaker is
    triggered at the end, whatever the manager held before. *)
Theorem burst_of_failures_trips (ts : list (datetime * datetime)) m :
  ts <> [] ->
  (forall a b, a ∈ ts.*1 -> b ∈ ts.*1 -> (a - b < microseconds_per_hour)%Z) ->
  (max_failed_orders_per_hour m <= Z.of_nat (length ts))%Z ->
  triggered (state (final (run (failures ts) m))) = true.
Proof.
  intros Hne Hwin Hmany.
  destruct (triggered (state m)) eqn:Htrig.
  { rewrite run_failures_triggered by exact Htrig. exact Htrig. }
  destruct ts as [|p ts]; [contradiction|].
  cbn [failures fmap list_fmap]. rewrite run_cons. cbn [step]. fold (failures ts).
  assert (Hmem : forall q, q ∈ p :: ts -> fst q ∈ (p :: ts).*1)
    by (intros q Hq; apply list_elem_of_fmap; exists q; auto).
  destruct (record_failed_order_in_burst ((p :: ts).*1) (fst p) (snd p) m)
    as [Htrip | (Hopen & Hmax & Hlt & Hcount)];
    [apply Hmem; left | exact Hwin | exact Htrig | |].
  - rewrite run_failures_triggered by exact Htrip. exact Htrip.
  - destruct (burst_counts ((p :: ts).*1) ts
                (snd (record_failed_order (fst p) (snd p) m)))
      as [Htrip | (Hmax' & Hlt' & Hcount')];
      [intros q Hq; apply Hmem; right; exact Hq | exact Hwin
       | exact Hopen | exact Hlt | exact Htrip |].
    exfalso.
    pose proof (length_filter
                  (fun t => Forall (fun b => (b - t < microseconds_per_hour)%Z)
                                   ((p :: ts).*1))
                  (failed_orders_history
                     (final (run (failures ts)
                               (snd (record_failed_order (fst p) (snd p) m))))))
      as Hle.
    rewrite Hcount', Hcount in Hle. rewrite Hmax', Hmax in Hlt'.
    cbn [length] in Hmany. lia.
Qed.

(** The test of the repository: three failures against a threshold of 3,
    here spread over fifty minutes. *)
Lemma burst_of_failures_trips_witness :
  triggered
    (state (final (run (failures [(0, 0); (1500000000, 1500000000);
                                  (3000000000, 3000000000)]%Z)
                       (init (4 # 100) 3 60)))) = true.
Proof.
  apply burst_of_failures_trips.
  - discriminate.
  - intros a b Ha Hb. cbn in Ha, Hb.
    repeat match goal with
           | H : _ ∈ _ :: _ |- _ => apply elem_of_cons in H as [->|H]
           | H : _ ∈ [] |- _ => apply not_elem_of_nil in H; contradiction
           end; unfold microseconds_per_hour; lia.
  - cbn. lia.
Defined.

(** X4.  [check_drawdown] raises exactly when the breaker is open and the
    updated daily high is zero; the exception is [ZeroDivisionError], the
    high and the reset date stay as updated and the breaker stays open.  In
    particular the first check of a day on an account whose starting equity
    is 0 and whose current equity is not positive raises. *)
Theorem check_drawdown_raises_iff m now trig_now (current_equity starting_equity : Q) :
  let m1 := update_daily_high now current_equity starting_equity m in
  ((exists e m',
      check_drawdown now trig_now current_equity starting_equity m = Raise e m')
   <-> triggered (state m) = false /\ daily_high m1 == 0)
  /\ (triggered (state m) = false -> daily_high m1 == 0 ->
      check_drawdown now trig_now current_equity starting_equity m
        = Raise ZeroDivisionError m1
      /\ triggered (state m1) = false)
  /\ (triggered (state m) = false -> last_reset_date m = None ->
      starting_equity == 0 -> current_equity <= 0 ->
      check_drawdown now trig_now current_equity starting_equity m
        = Raise ZeroDivisionError m1).
Proof.
  intros m1.
  assert (Hraise : triggered (state m) = false -> daily_high m1 == 0 ->
                   check_drawdown now trig_now current_equity starting_equity m
                   = Raise ZeroDivisionError m1).
  { intros Htrig Hzero. unfold check_drawdown. rewrite Htrig.
    change (update_daily_high now current_equity starting_equity m) with m1.
    rewrite (proj2 (pydiv_None (daily_high m1 - current_equity) (daily_high m1))
               Hzero).
    reflexivity. }
  split; [|split].
  - split.
    + intros (e & m' & Hr). unfold check_drawdown in Hr.
      destruct (triggered (state m)); [discriminate Hr|].
      split; [reflexivity|].
      change (update_daily_high now current_equity starting_equity m) with m1 in Hr.
      destruct (pydiv (daily_high m1 - current_equity) (daily_high m1)) eqn:E.
      * destruct (Qle_bool _ q); discriminate Hr.
      * apply pydiv_None in E. exact E.
    + intros [Htrig Hzero]. eexists _, _. apply Hraise; assumption.
  - intros Htrig Hzero. split; [apply Hraise; assumption|].
    unfold m1. rewrite update_daily_high_state. exact Htrig.
  - intros Htrig Hdate Hstart Hcur. apply Hraise; [exact Htrig|].
    unfold m1, update_daily_high, daily_high. rewrite Hdate. cbn.
    unfold pymax.
    destruct (Qltb starting_equity current_equity) eqn:E; [|exact Hstart].
    apply Qltb_lt in E. rewrite Hstart in E.
    exfalso. exact (Qlt_not_le _ _ E Hcur).
Qed.

(** A fresh manager checked on an empty account. *)
Lemma check_drawdown_raises_iff_witness :
  check_drawdown 5 5 0 0 with_defaults
  = Raise ZeroDivisionError (update_daily_high 5 0 0 with_defaults).
Proof.
  refine (proj2 (proj2 (check_drawdown_raises_iff with_defaults 5 5 0 0))
            eq_refl eq_refl _ _).
  - reflexivity.
  - apply Qle_refl.
Defined.

Lemma reset_frame force now m :
  daily_high_equity (reset force now m) = daily_high_equity m
  /\ last_reset_date (reset force now m) = last_reset_date m
  /\ max_daily_drawdown (reset force now m) = max_daily_drawdown m.
Proof.
  unfold reset.
  destruct (negb (triggered (state m))); [repeat split|].
  destruct (negb force && in_cooldown now m); repeat split.
Qed.



(** X6.  An unforced reset is refused only during the cooldown: on a
    triggered breaker whose [can_resume_at] is reached (or absent),
    [reset(force=False)] does what [reset(force=True)] does -- the state is
    cleared, the failed-order history emptied and [can_trade()] true
    again. *)
Theorem reset_after_cooldown m now :
  triggered (state m) = true ->
  (forall resume, can_resume_at (state m) = Some resume -> (resume <= now)%Z) ->
  reset false now m = reset true now m
  /\ state (reset false now m) = untriggered
  /\ failed_orders_history (reset false now m) = []
  /\ forall t, can_trade t (reset false now m) = true.
Proof.
  intros Htrig Hover.
  assert (Hcool : in_cooldown now m = false).
  { unfold in_cooldown. destruct (can_resume_at (state m)) as [resume|];
      [|reflexivity].
    apply Z.ltb_ge. apply Hover. reflexivity. }
  unfold reset. rewrite Htrig, Hcool. cbn. repeat split.
Qed.

(** Tripped at time 0 with the default cooldown of 60 minutes, reset without
    force exactly at the resume time. *)
Lemma reset_after_cooldown_witness :
  let m := manual_kill_switch 0 "halt" with_defaults in
  state (reset false 3600000000 m) = untriggered
  /\ can_trade 3600000000 (reset false 3600000000 m) = true.
Proof.
  intros m.
  destruct (reset_after_cooldown m 3600000000) as (_ & Hst & _ & Hopen).
  - reflexivity.
  - intros resume Hr. vm_compute in Hr. injection Hr as <-. reflexivity.
  - split; [exact Hst | apply Hopen].
Defined.

End CircuitBreakerTraces.

(** ** Risk limits: exposure map, recorded trades, monotonicity *)

Section LimitsTraces.
Import Limits.

Implicit Types (rl : RiskLimits) (now : datetime).

Lemma update_position_exposure_lookup (sym sym' : string) (e : Q) rl :
  position_exposures (update_position_exposure sym e rl) !! sym'
  = if decide (sym = sym')
    then (if Qle_bool e 0 then None else Some e)
    else position_exposures rl !! sym'.
Proof.
  unfold update_position_exposure.
  destruct (Qle_bool e 0); cbn [position_exposures set_position_exposures];
    destruct (decide (sym = sym')) as [->|Hne].
  - apply lookup_delete_eq.
  - apply lookup_delete_ne. exact Hne.
  - apply lookup_insert_eq.
  - apply lookup_insert_ne. exact Hne.
Qed.

Lemma foldl_Qplus_nonneg (l : list Q) (acc : Q) :
  0 <= acc -> Forall (fun x => 0 < x) l -> 0 <= foldl Qplus acc l.
Proof.
  revert acc. induction l as [|x l IH]; intros acc Hacc Hall; [exact Hacc|].
  inversion Hall as [|? ? Hx Hl]; subst. cbn [foldl]. apply IH; [|exact Hl].
  rewrite <- (Qplus_0_l 0). apply Qplus_le_compat; [exact Hacc|].
  apply Qlt_le_weak. exact Hx.
Qed.

(** X7.  [update_position_exposure] stores a positive exposure and clears
    the symbol for an exposure that is zero or negative, leaving the other
    symbols alone.  A map maintained through it therefore only ever holds
    strictly positive exposures, and its total is never negative; the trade
    log and the limits are not touched. *)
Theorem tracked_exposures_positive (us : list (string * Q)) rl :
  (forall s e, position_exposures rl !! s = Some e -> 0 < e) ->
  let rl' := foldl (fun acc u => update_position_exposure (fst u) (snd u) acc) rl us in
  (forall s e, position_exposures rl' !! s = Some e -> 0 < e)
  /\ 0 <= sum_values (position_exposures rl')
  /\ trade_history rl' = trade_history rl
  /\ (forall sym e,
        (0 < e ->
         position_exposures (update_position_exposure sym e rl') !! sym = Some e)
        /\ (e <= 0 ->
            position_exposures (update_position_exposure sym e rl') !! sym = None)
        /\ (forall other, other <> sym ->
              position_exposures (update_position_exposure sym e rl') !! other
              = position_exposures rl' !! other)).
Proof.
  intros Hpos rl'.
  assert (Hinv : (forall s e, position_exposures rl' !! s = Some e -> 0 < e)
                 /\ trade_history rl' = trade_history rl).
  { subst rl'. revert rl Hpos. induction us as [|[sym e] us IH]; intros rl Hpos.
    - split; [exact Hpos | reflexivity].
    - cbn [foldl fst snd].
      destruct (IH (update_position_exposure sym e rl)) as [Hp Hh].
      + intros s x. rewrite update_position_exposure_lookup.
        destruct (decide (sym = s)); [|apply Hpos].
        destruct (Qle_bool e 0) eqn:E; [discriminate|].
        intros [= <-]. apply Qle_bool_false. exact E.
      + split; [exact Hp|]. rewrite Hh.
        unfold update_position_exposure. destruct (Qle_bool e 0); reflexivity. }
  destruct Hinv as [Hp Hh].
  split; [exact Hp|]. split; [|split; [exact Hh|]].
  - unfold sum_values. apply foldl_Qplus_nonneg; [apply Qle_refl|].
    apply Forall_forall. intros x Hx.
    apply list_elem_of_fmap in Hx as ([s e] & -> & Hin).
    apply elem_of_map_to_list in Hin. exact (Hp s e Hin).
  - intros sym e. split; [|split].
    + intros He. rewrite update_position_exposure_lookup.
      rewrite decide_True by reflexivity.
      apply Qle_bool_false in He. rewrite He. reflexivity.
    + intros He. rewrite update_position_exposure_lookup.
      rewrite decide_True by reflexivity.
      apply Qle_bool_iff in He. rewrite He. reflexivity.
    + intros other Hne. rewrite update_position_exposure_lookup.
      rewrite decide_False by congruence. reflexivity.
Qed.

(** The exposures of the repository's test, then BTC closed out. *)
Lemma tracked_exposures_positive_witness :
  let rl := foldl (fun acc u => update_position_exposure (fst u) (snd u) acc)
                  with_defaults
                  [("BTC/USDT", 4000); ("ETH/USDT", 3000); ("BTC/USDT", 0)] in
  position_exposures rl !! "BTC/USDT" = None
  /\ 0 <= sum_values (position_exposures rl)
  /\ position_exposures (update_position_exposure "SOL/USDT" 5 rl) !! "SOL/USDT"
     = Some 5.
Proof.
  intros rl.
  destruct (tracked_exposures_positive
              [("BTC/USDT", 4000); ("ETH/USDT", 3000); ("BTC/USDT", 0)]
              with_defaults) as (_ & Hsum & _ & Hstep).
  - intros s e H.
    change (position_exposures with_defaults) with (∅ : gmap string Q) in H.
    rewrite lookup_empty in H. discriminate H.
  - split; [reflexivity|]. split; [exact Hsum|].
    apply (Hstep "SOL/USDT" 5). reflexivity.
Defined.

Lemma record_trades_history (ts : list (datetime * string * string)) rl :
  let rl' := foldl (fun acc t => record_trade (fst (fst t)) (snd (fst t)) (snd t) acc)
                   rl ts in
  trade_history rl'
  = trade_history rl
    ++ ((fun t => {| timestamp := fst (fst t); symbol := snd (fst t);
                     side := snd t |}) <$> ts)
  /\ max_trades_per_minute rl' = max_trades_per_minute rl.
Proof.
  cbv zeta. revert rl. induction ts as [|t ts IH]; intros rl.
  - cbn. rewrite app_nil_r. split; reflexivity.
  - cbn [foldl]. destruct (IH (record_trade (fst (fst t)) (snd (fst t)) (snd t) rl))
      as [Hh Hm].
    rewrite Hh, Hm. cbn. rewrite <- app_assoc. split; reflexivity.
Qed.

(** X8.  Recorded trades count against the per-minute limit: after
    [record_trade] has been called for trades that are all younger than 60
    seconds at the time of the check, and at least [max_trades_per_minute]
    of them, [can_place_order] refuses with the rate-limit reason, whatever
    the proposal and the equity (the division by [equity] is not reached). *)
Theorem recorded_trades_hit_rate_limit (ts : list (datetime * string * string))
    rl now (sym sd : string) (position_value equity : Q) :
  let rl' := foldl (fun acc t => record_trade (fst (fst t)) (snd (fst t)) (snd t) acc)
                   rl ts in
  (forall t, t ∈ ts -> (now - microseconds_per_minute < fst (fst t))%Z) ->
  (max_trades_per_minute rl <= Z.of_nat (length ts))%Z ->
  exists n s,
    can_place_order now sym sd position_value equity rl'
      = Return (false, TradeRateLimitExceeded n) s
    /\ (length ts <= n)%nat.
Proof.
  intros rl' Hyoung Hmany.
  destruct (record_trades_history ts rl) as [Hh Hm]. fold rl' in Hh, Hm.
  unfold can_place_order, _check_rate_limits.
  cbn [trade_history set_trade_history max_trades_per_minute].
  rewrite newer_than_pruned.
  set (n := length (newer_than (now - microseconds_per_minute) (trade_history rl'))).
  assert (Hn : (length ts <= n)%nat).
  { subst n. rewrite Hh. unfold newer_than. rewrite filter_app, length_app.
    assert (Hall : filter (fun t => (now - microseconds_per_minute < timestamp t)%Z)
                     ((fun t => {| timestamp := fst (fst t); symbol := snd (fst t);
                                   side := snd t |}) <$> ts)
                   = (fun t => {| timestamp := fst (fst t); symbol := snd (fst t);
                                  side := snd t |}) <$> ts).
    { clear -Hyoung. induction ts as [|t ts IH]; [reflexivity|].
      cbn [fmap list_fmap]. rewrite filter_cons, decide_True.
      - f_equal. apply IH. intros u Hu. apply Hyoung. right. exact Hu.
      - cbn. apply Hyoung. left. }
    rewrite Hall, length_fmap. lia. }
  assert (Hhit : (max_trades_per_minute rl' <=? Z.of_nat n)%Z = true)
    by (apply Z.leb_le; rewrite Hm; lia).
  rewrite Hhit. cbn [negb]. eexists _, _. split; [reflexivity | exact Hn].
Qed.

(** The test of the repository: two trades against a limit of two. *)
Lemma recorded_trades_hit_rate_limit_witness :
  let rl := foldl (fun acc t => record_trade (fst (fst t)) (snd (fst t)) (snd t) acc)
                  (init 2 1200 (25 # 100) (80 # 100))
                  [(0%Z, "BTC/USDT", "buy"); (1%Z, "ETH/USDT", "buy")] in
  exists n s,
    can_place_order 2 "SOL/USDT" "buy" 100 10000 rl
      = Return (false, TradeRateLimitExceeded n) s
    /\ (2 <= n)%nat.
Proof.
  intros rl.
  apply (recorded_trades_hit_rate_limit
           [(0%Z, "BTC/USDT", "buy"); (1%Z, "ETH/USDT", "buy")]
           (init 2 1200 (25 # 100) (80 # 100)) 2 "SOL/USDT" "buy" 100 10000).
  - intros t Ht.
    repeat match goal with
           | H : _ ∈ _ :: _ |- _ => apply elem_of_cons in H as [->|H]
           | H : _ ∈ [] |- _ => apply not_elem_of_nil in H; contradiction
           end; unfold microseconds_per_minute; cbn; lia.
  - cbn. lia.
Defined.

Lemma Qdiv_le_compat_r (x y z : Q) : 0 < z -> x <= y -> x / z <= y / z.
Proof.
  intros Hz Hxy. unfold Qdiv. apply Qmult_le_compat_r; [exact Hxy|].
  apply Qlt_le_weak, Qinv_lt_0_compat. exact Hz.
Qed.

(** X9.  Acceptance is monotone in the size of the proposal: at a positive
    equity, if a proposal of value [v] is accepted then, in the same state
    and at the same time, every proposal of smaller value on the same symbol
    is accepted too. *)
Theorem can_place_order_monotone rl now (sym sd : string)
    (v v' equity : Q) (s : RiskLimits) :
  0 < equity ->
  v' <= v ->
  can_place_order now sym sd v equity rl = Return (true, NoReason) s ->
  can_place_order now sym sd v' equity rl = Return (true, NoReason) s.
Proof.
  intros Heq Hle. unfold can_place_order.
  destruct (_check_rate_limits now rl) as [[ok why] rl1].
  destruct (negb ok); [discriminate|].
  assert (Hne : ~ equity == 0)
    by (intros Hz; rewrite Hz in Heq; exact (Qlt_irrefl _ Heq)).
  assert (Hdiv : forall x, pydiv x equity = Some (x / equity))
    by (intros x; apply pydiv_Some; auto).
  rewrite !Hdiv.
  destruct (Qltb (max_position_exposure_pct rl1)
                 ((default 0 (position_exposures rl1 !! sym) + v) / equity)) eqn:E1;
    [discriminate|].
  destruct (Qltb (max_total_exposure_pct rl1)
                 ((sum_values (position_exposures rl1) + v) / equity)) eqn:E2;
    [discriminate|].
  intros Hacc.
  apply Qltb_ge in E1. apply Qltb_ge in E2.
  assert (E1' : Qltb (max_position_exposure_pct rl1)
                     ((default 0 (position_exposures rl1 !! sym) + v') / equity)
                = false).
  { apply Qltb_ge. eapply Qle_trans; [|exact E1].
    apply Qdiv_le_compat_r; [exact Heq|].
    apply Qplus_le_compat; [apply Qle_refl | exact Hle]. }
  assert (E2' : Qltb (max_total_exposure_pct rl1)
                     ((sum_values (position_exposures rl1) + v') / equity)
                = false).
  { apply Qltb_ge. eapply Qle_trans; [|exact E2].
    apply Qdiv_le_compat_r; [exact Heq|].
    apply Qplus_le_compat; [apply Qle_refl | exact Hle]. }
  rewrite E1', E2'. exact Hacc.
Qed.

(** 2500 is accepted at equity 10000, hence so is 1000. *)
Lemma can_place_order_monotone_witness :
  can_place_order 0 "BTC/USDT" "buy" 1000 10000 with_defaults
  = Return (true, NoReason) with_defaults.
Proof.
  apply (can_place_order_monotone with_defaults 0 "BTC/USDT" "buy" 2500 1000 10000).
  - reflexivity.
  - apply Qle_bool_iff. reflexivity.
  - reflexivity.
Defined.

Lemma newer_than_idempotent (cutoff : datetime) (h : list TradeRecord) :
  newer_than cutoff (newer_than cutoff h) = newer_than cutoff h.
Proof.
  unfold newer_than. apply filter_filter_implied. auto.
Qed.

(** X10.  The only thing [can_place_order] changes, whatever it answers and
    even when it raises, is the trade log, which it prunes to the entries
    younger than one day; the exposures and the limits are as before.
    Asking again at the same time gives the same answer and changes nothing
    more. *)
Theorem can_place_order_only_prunes rl now (sym sd : string)
    (position_value equity : Q) :
  let rl1 :=
    set_trade_history
      (newer_than (now - microseconds_per_day) (trade_history rl)) rl in
  ((exists a, can_place_order now sym sd position_value equity rl = Return a rl1)
   \/ (exists e, can_place_order now sym sd position_value equity rl = Raise e rl1))
  /\ can_place_order now sym sd position_value equity rl1
     = can_place_order now sym sd position_value equity rl
  /\ (forall t, t ∈ trade_history rl1 <->
                t ∈ trade_history rl
                /\ (now - microseconds_per_day < timestamp t)%Z).
Proof.
  intros rl1. split; [|split].
  - unfold can_place_order, _check_rate_limits. fold rl1.
    repeat match goal with
           | |- context [if ?b then _ else _] => destruct b
           | |- context [match pydiv ?x ?y with _ => _ end] => destruct (pydiv x y)
           end; cbn [negb]; eauto.
  - unfold can_place_order, _check_rate_limits.
    cbn [trade_history set_trade_history rl1]. unfold rl1.
    cbn [trade_history set_trade_history max_trades_per_minute max_trades_per_day].
    rewrite newer_than_idempotent. reflexivity.
  - intros t. unfold rl1. cbn [trade_history set_trade_history].
    unfold newer_than. rewrite list_elem_of_filter. tauto.
Qed.

End LimitsTraces.

(** ** Stop rules: levels, trailing stops, the registry *)

Section StopRulesMore.
Import StopRules.

Implicit Types (stops : StopLossManager) (s : StopLevels).

Lemma truthy_nonzero (x : Q) : ~ x == 0 -> truthy (Some x) = true.
Proof.
  intros H. cbn. destruct (Qeq_bool x 0) eqn:E; [|reflexivity].
  apply Qeq_bool_iff in E. contradiction.
Qed.

(** X11.  With both levels registered and non-zero, [check_stops] closes a
    long exactly when [price <= stop_loss] or [price >= take_profit], and a
    position of any other side exactly when [price >= stop_loss] or
    [price <= take_profit]; when both conditions hold the stop loss is the
    reason reported. *)
Theorem check_stops_levels stops (position_id : string) (current_price : Q)
    (side : string) s (sl tp : Q) :
  stops !! position_id = Some s ->
  stop_loss s = Some sl -> take_profit s = Some tp ->
  ~ sl == 0 -> ~ tp == 0 ->
  let r := check_stops position_id current_price side stops in
  (side = "buy" ->
   (fst r = true <-> current_price <= sl \/ tp <= current_price)
   /\ (current_price <= sl ->
       r = (true, Some (StopLossHit current_price LE sl)))
   /\ (sl < current_price -> tp <= current_price ->
       r = (true, Some (TakeProfitHit current_price GE tp)))
   /\ (sl < current_price -> current_price < tp -> r = (false, None)))
  /\ (side <> "buy" ->
      (fst r = true <-> sl <= current_price \/ current_price <= tp)
      /\ (sl <= current_price ->
          r = (true, Some (StopLossHit current_price GE sl)))
      /\ (current_price < sl -> current_price <= tp ->
          r = (true, Some (TakeProfitHit current_price LE tp)))
      /\ (current_price < sl -> tp < current_price -> r = (false, None))).
Proof.
  intros Hs Hsl Htp Hnsl Hntp r. subst r. unfold check_stops.
  rewrite Hs, Hsl, Htp, (truthy_nonzero sl Hnsl), (truthy_nonzero tp Hntp).
  unfold level. cbn [andb].
  change (default 0 (Some sl)) with sl. change (default 0 (Some tp)) with tp.
  split.
  - intros ->. cbn [String.eqb Ascii.eqb Bool.eqb].
    destruct (Qle_bool current_price sl) eqn:E1;
      destruct (Qle_bool tp current_price) eqn:E2; cbn [fst];
      repeat match goal with
             | H : Qle_bool _ _ = true |- _ => apply Qle_bool_iff in H
             | H : Qle_bool _ _ = false |- _ => apply Qle_bool_false in H
             end;
      repeat split; intros;
      first [ reflexivity | discriminate | left; assumption | right; assumption
            | exfalso; order_absurd ].
  - intros Hside. apply String.eqb_neq in Hside. rewrite Hside.
    destruct (Qle_bool sl current_price) eqn:E1;
      destruct (Qle_bool current_price tp) eqn:E2; cbn [fst];
      repeat match goal with
             | H : Qle_bool _ _ = true |- _ => apply Qle_bool_iff in H
             | H : Qle_bool _ _ = false |- _ => apply Qle_bool_false in H
             end;
      repeat split; intros;
      first [ reflexivity | discriminate | left; assumption | right; assumption
            | exfalso; order_absurd ].
Qed.

(** A long with stop 95 and target 110: 94 is stopped out, 111 takes
    profit, 100 stays open. *)
Lemma check_stops_levels_witness :
  let stops := set_stops "p" 100 "buy" (Some 95) (Some 110) None ∅ in
  check_stops "p" 94 "buy" stops = (true, Some (StopLossHit 94 LE 95))
  /\ check_stops "p" 111 "buy" stops = (true, Some (TakeProfitHit 111 GE 110))
  /\ check_stops "p" 100 "buy" stops = (false, None).
Proof.
  intros stops.
  assert (H : forall price,
    (price <= 95 -> check_stops "p" price "buy" stops
                    = (true, Some (StopLossHit price LE 95)))
    /\ (95 < price -> 110 <= price ->
        check_stops "p" price "buy" stops
        = (true, Some (TakeProfitHit price GE 110)))
    /\ (95 < price -> price < 110 ->
        check_stops "p" price "buy" stops = (false, None))).
  { intros price.
    refine (proj2 (proj1 (check_stops_levels stops "p" price "buy" _ 95 110
                            eq_refl eq_refl eq_refl _ _) eq_refl));
      intros Hz; discriminate Hz. }
  split; [|split].
  - apply (H 94). apply Qle_bool_iff. reflexivity.
  - apply (H 111); [apply Qltb_lt | apply Qle_bool_iff]; reflexivity.
  - apply (H 100); apply Qltb_lt; reflexivity.
Defined.

Lemma none_or_below_true (o : option Q) (x : Q) :
  none_or_below o x = true <-> o = None \/ exists y, o = Some y /\ y < x.
Proof.
  destruct o as [y|]; cbn.
  - rewrite Qltb_lt. split.
    + intros H. right. exists y. auto.
    + intros [H | (y' & [= <-] & H)]; [discriminate | exact H].
  - split; auto.
Qed.

Lemma none_or_above_true (o : option Q) (x : Q) :
  none_or_above o x = true <-> o = None \/ exists y, o = Some y /\ x < y.
Proof.
  destruct o as [y|]; cbn.
  - rewrite Qltb_lt. split.
    + intros H. right. exists y. auto.
    + intros [H | (y' & [= <-] & H)]; [discriminate | exact H].
  - split; auto.
Qed.

(** X12.  The trailing stop of a long only ratchets upward.  On a position
    with a trailing distance [d], [update_trailing_stop(.., price, "buy")]
    touches no other position and no other field than [highest_price] and
    [stop_loss]; the tracked high never decreases and a stop that is set
    never decreases.  When the price sets a new high the high becomes the
    price and the stop ends at least at [price - d]; the call returns the
    new stop exactly when it moved it, and that stop is [price - d].  When
    the price does not exceed the tracked high nothing changes. *)
Theorem update_trailing_stop_long stops (position_id : string)
    (current_price : Q) s (d : Q) :
  stops !! position_id = Some s ->
  trailing_stop_distance s = Some d ->
  let r := update_trailing_stop position_id current_price "buy" stops in
  exists s',
    snd r !! position_id = Some s'
    /\ (forall other, other <> position_id -> snd r !! other = stops !! other)
    /\ take_profit s' = take_profit s
    /\ trailing_stop_distance s' = Some d
    /\ lowest_price s' = lowest_price s
    /\ (forall h, highest_price s = Some h ->
          exists h', highest_price s' = Some h' /\ h <= h')
    /\ (forall sl, stop_loss s = Some sl ->
          exists sl', stop_loss s' = Some sl' /\ sl <= sl')
    /\ (forall v, fst r = Some v ->
          v = current_price - d /\ stop_loss s' = Some v
          /\ highest_price s' = Some current_price)
    /\ (fst r = None -> stop_loss s' = stop_loss s)
    /\ ((highest_price s = None
         \/ exists h, highest_price s = Some h /\ h < current_price) ->
        highest_price s' = Some current_price
        /\ exists sl', stop_loss s' = Some sl' /\ current_price - d <= sl')
    /\ ((exists h, highest_price s = Some h /\ current_price <= h) ->
        r = (None, stops)).
Proof.
  intros Hs Hd r. subst r. unfold update_trailing_stop.
  rewrite Hs, Hd. cbn [String.eqb Ascii.eqb Bool.eqb].
  destruct (none_or_below (highest_price s) current_price) eqn:Ehigh.
  - assert (Hh : forall h, highest_price s = Some h -> h <= current_price).
    { intros h Hh. rewrite Hh in Ehigh. cbn in Ehigh. apply Qltb_lt in Ehigh.
      apply Qlt_le_weak. exact Ehigh. }
    assert (Hnot : (exists h, highest_price s = Some h /\ current_price <= h)
                   -> False).
    { intros (h & Hh' & Hle). rewrite Hh' in Ehigh. cbn in Ehigh.
      apply Qltb_lt in Ehigh. exact (Qlt_not_le _ _ Ehigh Hle). }
    cbn [stop_loss set_highest_price].
    destruct (none_or_below (stop_loss s) (current_price - d)) eqn:Estop.
    + eexists. cbn [fst snd]. split; [apply lookup_insert_eq|].
      split; [intros other Hne; apply lookup_insert_ne; congruence|].
      cbn [stop_loss take_profit trailing_stop_distance highest_price
           lowest_price set_stop_loss set_highest_price].
      split; [reflexivity|]. split; [exact Hd|]. split; [reflexivity|].
      split; [intros h Hh'; eexists; split; [reflexivity | exact (Hh h Hh')]|].
      split.
      { intros sl Hsl. eexists. split; [reflexivity|].
        rewrite Hsl in Estop. cbn in Estop. apply Qltb_lt in Estop.
        apply Qlt_le_weak. exact Estop. }
      split; [intros v [= <-]; repeat split|].
      split; [discriminate|].
      split; [|intros H; destruct (Hnot H)].
      intros _. split; [reflexivity|].
      eexists. split; [reflexivity | apply Qle_refl].
    + destruct (stop_loss s) as [sl|] eqn:Hsl; [|discriminate Estop].
      cbn in Estop. apply Qltb_ge in Estop.
      eexists. cbn [fst snd]. split; [apply lookup_insert_eq|].
      split; [intros other Hne; apply lookup_insert_ne; congruence|].
      cbn [stop_loss take_profit trailing_stop_distance highest_price
           lowest_price set_stop_loss set_highest_price].
      split; [reflexivity|]. split; [exact Hd|]. split; [reflexivity|].
      split; [intros h Hh'; eexists; split; [reflexivity | exact (Hh h Hh')]|].
      split.
      { intros sl0 [= <-]. exists sl. split; [exact Hsl | apply Qle_refl]. }
      split; [discriminate|].
      split; [intros _; first [reflexivity | exact Hsl]|].
      split; [|intros H; destruct (Hnot H)].
      intros _. split; [reflexivity|].
      exists sl. split; [exact Hsl | exact Estop].
  - assert (Hnew : highest_price s = None
                   \/ (exists h, highest_price s = Some h /\ h < current_price)
                   -> False).
    { intros H. apply none_or_below_true in H. congruence. }
    exists s. cbn [fst snd]. split; [exact Hs|].
    split; [reflexivity|].
    split; [reflexivity|]. split; [exact Hd|]. split; [reflexivity|].
    split; [intros h Hh; exists h; split; [exact Hh | apply Qle_refl]|].
    split; [intros sl Hsl; exists sl; split; [exact Hsl | apply Qle_refl]|].
    split; [discriminate|].
    split; [reflexivity|].
    split; [intros H; destruct (Hnew H) | reflexivity].
Qed.

(** A long opened at 100 with a trailing distance of 5 and no stop: 110
    sets the stop to 105, 107 changes nothing, 120 raises it to 115. *)
Lemma update_trailing_stop_long_witness :
  let s0 := set_stops "p" 100 "buy" None None (Some 5) ∅ in
  let r1 := update_trailing_stop "p" 110 "buy" s0 in
  let r2 := update_trailing_stop "p" 107 "buy" (snd r1) in
  let r3 := update_trailing_stop "p" 120 "buy" (snd r2) in
  fst r1 = Some (110 - 5) /\ r2 = (None, snd r1) /\ fst r3 = Some (120 - 5).
Proof.
  intros s0 r1 r2 r3. split; [reflexivity|]. split; [|reflexivity].
  destruct (update_trailing_stop_long (snd r1) "p" 107
              {| stop_loss := Some (110 - 5); take_profit := None;
                 trailing_stop_distance := Some 5;
                 highest_price := Some 110; lowest_price := None |} 5
              eq_refl eq_refl) as (s' & Hrest).
  apply Hrest. exists 110. split; [reflexivity|].
  apply Qle_bool_iff. reflexivity.
Defined.

(** X13.  The trailing stop of a short (any side other than "buy") only
    ratchets downward: the tracked low never increases and a stop that is
    set never increases.  When the price sets a new low the low becomes the
    price and the stop ends at most at [price + d]; the call returns the new
    stop exactly when it moved it, and that stop is [price + d].  When the
    price is not below the tracked low nothing changes. *)
Theorem update_trailing_stop_short stops (position_id : string)
    (current_price : Q) (side : string) s (d : Q) :
  side <> "buy" ->
  stops !! position_id = Some s ->
  trailing_stop_distance s = Some d ->
  let r := update_trailing_stop position_id current_price side stops in
  exists s',
    snd r !! position_id = Some s'
    /\ (forall other, other <> position_id -> snd r !! other = stops !! other)
    /\ take_profit s' = take_profit s
    /\ trailing_stop_distance s' = Some d
    /\ highest_price s' = highest_price s
    /\ (forall l, lowest_price s = Some l ->
          exists l', lowest_price s' = Some l' /\ l' <= l)
    /\ (forall sl, stop_loss s = Some sl ->
          exists sl', stop_loss s' = Some sl' /\ sl' <= sl)
    /\ (forall v, fst r = Some v ->
          v = current_price + d /\ stop_loss s' = Some v
          /\ lowest_price s' = Some current_price)
    /\ (fst r = None -> stop_loss s' = stop_loss s)
    /\ ((lowest_price s = None
         \/ exists l, lowest_price s = Some l /\ current_price < l) ->
        lowest_price s' = Some current_price
        /\ exists sl', stop_loss s' = Some sl' /\ sl' <= current_price + d)
    /\ ((exists l, lowest_price s = Some l /\ l <= current_price) ->
        r = (None, stops)).
Proof.
  intros Hside Hs Hd r. subst r. unfold update_trailing_stop.
  apply String.eqb_neq in Hside. rewrite Hs, Hd, Hside.
  destruct (none_or_above (lowest_price s) current_price) eqn:Elow.
  - assert (Hl : forall l, lowest_price s = Some l -> current_price <= l).
    { intros l Hl. rewrite Hl in Elow. cbn in Elow. apply Qltb_lt in Elow.
      apply Qlt_le_weak. exact Elow. }
    assert (Hnot : (exists l, lowest_price s = Some l /\ l <= current_price)
                   -> False).
    { intros (l & Hl' & Hle). rewrite Hl' in Elow. cbn in Elow.
      apply Qltb_lt in Elow. exact (Qlt_not_le _ _ Elow Hle). }
    cbn [stop_loss set_lowest_price].
    destruct (none_or_above (stop_loss s) (current_price + d)) eqn:Estop.
    + eexists. cbn [fst snd]. split; [apply lookup_insert_eq|].
      split; [intros other Hne; apply lookup_insert_ne; congruence|].
      cbn [stop_loss take_profit trailing_stop_distance highest_price
           lowest_price set_stop_loss set_lowest_price].
      split; [reflexivity|]. split; [exact Hd|]. split; [reflexivity|].
      split; [intros l Hl'; eexists; split; [reflexivity | exact (Hl l Hl')]|].
      split.
      { intros sl Hsl. eexists. split; [reflexivity|].
        rewrite Hsl in Estop. cbn in Estop. apply Qltb_lt in Estop.
        apply Qlt_le_weak. exact Estop. }
      split; [intros v [= <-]; repeat split|].
      split; [discriminate|].
      split; [|intros H; destruct (Hnot H)].
      intros _. split; [reflexivity|].
      eexists. split; [reflexivity | apply Qle_refl].
    + destruct (stop_loss s) as [sl|] eqn:Hsl; [|discriminate Estop].
      cbn in Estop. apply Qltb_ge in Estop.
      eexists. cbn [fst snd]. split; [apply lookup_insert_eq|].
      split; [intros other Hne; apply lookup_insert_ne; congruence|].
      cbn [stop_loss take_profit trailing_stop_distance highest_price
           lowest_price set_stop_loss set_lowest_price].
      split; [reflexivity|]. split; [exact Hd|]. split; [reflexivity|].
      split; [intros l Hl'; eexists; split; [reflexivity | exact (Hl l Hl')]|].
      split.
      { intros sl0 [= <-]. exists sl. split; [exact Hsl | apply Qle_refl]. }
      split; [discriminate|].
      split; [intros _; first [reflexivity | exact Hsl]|].
      split; [|intros H; destruct (Hnot H)].
      intros _. split; [reflexivity|].
      exists sl. split; [exact Hsl | exact Estop].
  - assert (Hnew : lowest_price s = None
                   \/ (exists l, lowest_price s = Some l /\ current_price < l)
                   -> False).
    { intros H. apply none_or_above_true in H. congruence. }
    exists s. cbn [fst snd]. split; [exact Hs|].
    split; [reflexivity|].
    split; [reflexivity|]. split; [exact Hd|]. split; [reflexivity|].
    split; [intros l Hl; exists l; split; [exact Hl | apply Qle_refl]|].
    split; [intros sl Hsl; exists sl; split; [exact Hsl | apply Qle_refl]|].
    split; [discriminate|].
    split; [reflexivity|].
    split; [intros H; destruct (Hnew H) | reflexivity].
Qed.

(** A short opened at 100 with a trailing distance of 5 and a stop at 108:
    at 95 the stop comes down to 100; at 97 nothing changes. *)
Lemma update_trailing_stop_short_witness :
  let s0 := set_stops "p" 100 "sell" (Some 108) None (Some 5) ∅ in
  let r1 := update_trailing_stop "p" 95 "sell" s0 in
  let r2 := update_trailing_stop "p" 97 "sell" (snd r1) in
  fst r1 = Some (95 + 5) /\ r2 = (None, snd r1).
Proof.
  intros s0 r1 r2. split; [reflexivity|].
  destruct (update_trailing_stop_short (snd r1) "p" 97 "sell"
              {| stop_loss := Some (95 + 5); take_profit := None;
                 trailing_stop_distance := Some 5;
                 highest_price := None; lowest_price := Some 95 |} 5)
    as (s' & Hrest); [discriminate | reflexivity | reflexivity |].
  apply Hrest. exists 95. split; [reflexivity|].
  apply Qle_bool_iff. reflexivity.
Defined.

(** X14.  The registry of stops behaves as a map keyed by position id.
    [set_stops] replaces the whole record of its position -- seeding
    [highest_price] only for side "buy" and [lowest_price] only for side
    "sell" -- and leaves the others alone; [remove_stops] deletes the record
    if there is one and is idempotent.  On a position without a record
    [get_stops] returns [None], [check_stops] returns [(False, None)] and
    [update_trailing_stop] returns [None], neither changing anything; a
    record without trailing distance is never changed by
    [update_trailing_stop]. *)
Theorem stops_registry stops (position_id other : string) (entry_price : Q)
    (side side' : string) (sl tp tr : option Q) (price : Q) :
  get_stops position_id (set_stops position_id entry_price side sl tp tr stops)
  = Some {| stop_loss := sl; take_profit := tp; trailing_stop_distance := tr;
            highest_price := if String.eqb side "buy" then Some entry_price else None;
            lowest_price := if String.eqb side "sell" then Some entry_price else None |}
  /\ (other <> position_id ->
      get_stops other (set_stops position_id entry_price side sl tp tr stops)
      = get_stops other stops
      /\ get_stops other (remove_stops position_id stops) = get_stops other stops)
  /\ get_stops position_id (remove_stops position_id stops) = None
  /\ remove_stops position_id (remove_stops position_id stops)
     = remove_stops position_id stops
  /\ remove_stops position_id
       (set_stops position_id entry_price side sl tp tr stops)
     = remove_stops position_id stops
  /\ check_stops position_id price side' (remove_stops position_id stops)
     = (false, None)
  /\ update_trailing_stop position_id price side' (remove_stops position_id stops)
     = (None, remove_stops position_id stops)
  /\ update_trailing_stop position_id price side'
       (set_stops position_id entry_price side sl tp None stops)
     = (None, set_stops position_id entry_price side sl tp None stops).
Proof.
  assert (Hgone : remove_stops position_id stops !! position_id = None).
  { unfold remove_stops. destruct (stops !! position_id) eqn:E;
      [apply lookup_delete_eq | exact E]. }
  assert (Hdel : remove_stops position_id stops = delete position_id stops).
  { unfold remove_stops. destruct (stops !! position_id) eqn:E; [reflexivity|].
    symmetry. apply delete_id. exact E. }
  unfold get_stops.
  split; [apply lookup_insert_eq|].
  split.
  { intros Hne. split.
    - unfold set_stops. apply lookup_insert_ne. congruence.
    - rewrite Hdel. apply lookup_delete_ne. congruence. }
  split; [exact Hgone|].
  split.
  { unfold remove_stops at 1. rewrite Hgone. reflexivity. }
  split.
  { unfold remove_stops at 1. unfold set_stops.
    rewrite lookup_insert_eq, delete_insert_eq, Hdel. reflexivity. }
  split; [unfold check_stops; rewrite Hgone; reflexivity|].
  split; [unfold update_trailing_stop; rewrite Hgone; reflexivity|].
  unfold update_trailing_stop, set_stops. rewrite lookup_insert_eq. reflexivity.
Qed.

End StopRulesMore.

(** ** Paper broker: sells, round trips, equity, invariants *)

Section PaperMore.
Import Exchanges Execution Paper.

Implicit Types (b : PaperBroker) (now : datetime).

Lemma fee_closed_form (fc : FeesCalculator) (p q : Q) :
  calculate_fee fc (p * q) false == p * q * taker_fee_bps fc / 10000.
Proof. unfold calculate_fee, Qdiv. ring. Qed.

(** X15.  What an accepted sell does, as the code is written.  A sell of
    [q] of a held symbol with [q <= quantity held] is filled at the
    slippage-adjusted price [p]: cash grows by [p*q - fee], the order is
    logged as "filled" under its id, the other ledger entries are untouched
    -- and the entry of the symbol keeps its average price while its
    quantity becomes [held + q]: [create_market_order] hands [-q] to
    [_update_position], whose sell branch subtracts its argument.  The entry
    is deleted only when [held + q <= 0]. *)
Theorem create_market_order_sell_filled b (oid : string) (gauss : Q) now
    (sym side : string) (q current_price : Q) (coid : option string)
    (pos : Position) :
  side <> "buy" ->
  positions b !! sym = Some pos ->
  q <= quantity pos ->
  let p := apply_slippage gauss current_price side in
  let f := p * q * taker_fee_bps (fees_calc b) / 10000 in
  let r := create_market_order oid gauss now sym side q current_price coid b in
  cash (snd r) == cash b + (p * q - f)
  /\ status (fst r) = "filled"
  /\ filled_quantity (fst r) = q
  /\ average_fill_price (fst r) = Some p
  /\ orders (snd r) !! oid = Some (fst r)
  /\ (forall other, other <> sym ->
        positions (snd r) !! other = positions b !! other)
  /\ (0 < quantity pos + q ->
      exists pos', positions (snd r) !! sym = Some pos'
                   /\ quantity pos' == quantity pos + q
                   /\ avg_price pos' = avg_price pos)
  /\ (quantity pos + q <= 0 -> positions (snd r) !! sym = None).
Proof.
  intros Hside Hpos Hheld p f r.
  apply String.eqb_neq in Hside.
  assert (Hok : Qltb (quantity pos) q = false) by (apply Qltb_ge; exact Hheld).
  assert (Hnew : quantity pos - - q == quantity pos + q) by ring.
  subst r. unfold create_market_order, exec_price_of.
  rewrite Hside, Hpos, Hok. fold p.
  cbn [fst snd cash orders positions set_orders set_positions set_cash].
  split.
  { rewrite (fee_closed_form (fees_calc b) p q). reflexivity. }
  split; [reflexivity|]. split; [reflexivity|]. split; [reflexivity|].
  split; [apply lookup_insert_eq|].
  unfold _update_position. rewrite Hside, Hpos. cbv zeta. rewrite Hpos.
  change (default {| quantity := 0; avg_price := 0 |} (Some pos)) with pos.
  split; [|split].
  - intros other Hne.
    destruct (Qle_bool (quantity pos - - q) 0);
      [apply lookup_delete_ne | apply lookup_insert_ne]; congruence.
  - intros Hgt.
    assert (Hkeep : Qle_bool (quantity pos - - q) 0 = false)
      by (apply Qle_bool_false; rewrite Hnew; exact Hgt).
    rewrite Hkeep. eexists. split; [apply lookup_insert_eq|].
    split; [exact Hnew | reflexivity].
  - intros Hle.
    assert (Hdrop : Qle_bool (quantity pos - - q) 0 = true)
      by (apply Qle_bool_iff; rewrite Hnew; exact Hle).
    rewrite Hdrop. apply lookup_delete_eq.
Qed.

(** The test of the repository: 0.1 bought at 50000, then 0.1 sold at 51000
    without slippage.  The sale is filled and credited, and the ledger then
    shows 0.2. *)
Lemma create_market_order_sell_filled_witness :
  let b := snd (create_market_order "o1" 0 0 "BTC/USDT" "buy" (1 # 10) 50000
                  None (init 10000 2 10)) in
  let r := create_market_order "o2" 0 1 "BTC/USDT" "sell" (1 # 10) 51000 None b in
  status (fst r) = "filled"
  /\ exists pos', positions (snd r) !! "BTC/USDT" = Some pos'
                  /\ quantity pos' == 2 # 10.
Proof.
  intros b r.
  destruct (create_market_order_sell_filled b "o2" 0 1 "BTC/USDT" "sell"
              (1 # 10) 51000 None
              {| quantity := 0 + (1 # 10);
                 avg_price := (0 * 0 + (1 # 10) * (50000 * (1 + Qabs (0 / 10000))))
                              / (0 + (1 # 10)) |})
    as (_ & Hst & _ & _ & _ & _ & Hgrow & _).
  - discriminate.
  - reflexivity.
  - apply Qle_bool_iff. reflexivity.
  - split; [exact Hst|].
    destruct Hgrow as (pos' & Hl & Hq & _); [apply Qltb_lt; reflexivity|].
    exists pos'. split; [exact Hl|]. rewrite Hq. apply Qeq_bool_iff. reflexivity.
Defined.

(** X16.  A round trip.  On a broker that does not hold the symbol, a buy of
    [q] that the cash covers followed by a sell of the same [q] are both
    filled, and the cash ends at
    [cash - (p1*q + f1) + (p2*q - f2)], with [p1], [p2] the two execution
    prices and [f1], [f2] the two fees; in particular it ends above the
    starting cash exactly when [p2*q - f2 > p1*q + f1]. *)
Theorem buy_then_sell_cash b (oid1 oid2 : string) (g1 g2 : Q) (t1 t2 : datetime)
    (sym : string) (q price1 price2 : Q) :
  positions b !! sym = None ->
  let p1 := apply_slippage g1 price1 "buy" in
  let p2 := apply_slippage g2 price2 "sell" in
  let f1 := p1 * q * taker_fee_bps (fees_calc b) / 10000 in
  let f2 := p2 * q * taker_fee_bps (fees_calc b) / 10000 in
  p1 * q + f1 <= cash b ->
  let r1 := create_market_order oid1 g1 t1 sym "buy" q price1 None b in
  let r2 := create_market_order oid2 g2 t2 sym "sell" q price2 None (snd r1) in
  status (fst r1) = "filled"
  /\ status (fst r2) = "filled"
  /\ cash (snd r2) == cash b - (p1 * q + f1) + (p2 * q - f2)
  /\ (cash b < cash (snd r2) <-> p1 * q + f1 < p2 * q - f2).
Proof.
  intros Hfresh p1 p2 f1 f2 Hcash r1 r2.
  assert (Hreq : Qltb (cash b) (p1 * q + calculate_fee (fees_calc b) (p1 * q) false)
                 = false).
  { apply Qltb_ge. rewrite (fee_closed_form (fees_calc b) p1 q). exact Hcash. }
  assert (Hr1 : r1 = (filled oid1 None sym "buy" q p1
                        (calculate_fee (fees_calc b) (p1 * q) false) t1,
                      set_orders
                        (<[oid1 := filled oid1 None sym "buy" q p1
                                     (calculate_fee (fees_calc b) (p1 * q) false) t1]>
                           (orders b))
                        (set_positions
                           (_update_position sym q p1 "buy" (positions b))
                           (set_cash
                              (cash b - (p1 * q + calculate_fee (fees_calc b)
                                                    (p1 * q) false)) b)))).
  { subst r1. unfold create_market_order, exec_price_of.
    cbn [String.eqb Ascii.eqb Bool.eqb]. fold p1. rewrite Hreq. reflexivity. }
  assert (Hheld : positions (snd r1) !! sym
                  = Some {| quantity := 0 + q;
                            avg_price := if Qltb 0 (0 + q)
                                         then (0 * 0 + q * p1) / (0 + q) else 0 |}).
  { rewrite Hr1. cbn [snd positions set_orders set_positions].
    rewrite _update_position_buy_lookup, Hfresh. reflexivity. }
  assert (Hcash1 : cash (snd r1) == cash b - (p1 * q + f1)).
  { rewrite Hr1. cbn [snd cash set_orders set_positions set_cash].
    rewrite (fee_closed_form (fees_calc b) p1 q). reflexivity. }
  assert (Hfees : fees_calc (snd r1) = fees_calc b) by (rewrite Hr1; reflexivity).
  assert (Hok : Qltb (0 + q) q = false)
    by (apply Qltb_ge; rewrite Qplus_0_l; apply Qle_refl).
  assert (Hcash2 : cash (snd r2) == cash b - (p1 * q + f1) + (p2 * q - f2)
                   /\ status (fst r2) = "filled").
  { subst r2. unfold create_market_order, exec_price_of.
    cbn [String.eqb Ascii.eqb Bool.eqb]. fold p2.
    rewrite Hheld. cbn [quantity]. rewrite Hok.
    cbn [fst snd cash set_orders set_positions set_cash status filled].
    rewrite Hfees, Hcash1, (fee_closed_form (fees_calc b) p2 q).
    split; reflexivity. }
  destruct Hcash2 as [Hcash2 Hst2].
  split; [rewrite Hr1; reflexivity|]. split; [exact Hst2|].
  split; [exact Hcash2|].
  rewrite Hcash2. split.
  - intros H.
    apply (Qplus_lt_l _ _ (cash b - (p1 * q + f1))).
    assert (E1 : p1 * q + f1 + (cash b - (p1 * q + f1)) == cash b) by ring.
    assert (E2 : p2 * q - f2 + (cash b - (p1 * q + f1))
                 == cash b - (p1 * q + f1) + (p2 * q - f2)) by ring.
    rewrite E1, E2. exact H.
  - intros H.
    apply (Qplus_lt_l _ _ (cash b - (p1 * q + f1))) in H.
    assert (E1 : p1 * q + f1 + (cash b - (p1 * q + f1)) == cash b) by ring.
    assert (E2 : p2 * q - f2 + (cash b - (p1 * q + f1))
                 == cash b - (p1 * q + f1) + (p2 * q - f2)) by ring.
    rewrite E1, E2 in H. exact H.
Qed.

(** The test of the repository, with slippage draws of 2 bps: buying 0.1 at
    50000 and selling it at 51000 leaves more than the starting 10000. *)
Lemma buy_then_sell_cash_witness :
  let b := init 10000 2 10 in
  let r1 := create_market_order "o1" 2 0 "BTC/USDT" "buy" (1 # 10) 50000 None b in
  let r2 := create_market_order "o2" 2 1 "BTC/USDT" "sell" (1 # 10) 51000 None
              (snd r1) in
  status (fst r2) = "filled" /\ 10000 < cash (snd r2).
Proof.
  intros b r1 r2.
  destruct (buy_then_sell_cash b "o1" "o2" 2 2 0 1 "BTC/USDT" (1 # 10) 50000 51000)
    as (_ & Hst & _ & Hgain).
  - reflexivity.
  - apply Qle_bool_iff. reflexivity.
  - split; [exact Hst|]. apply Hgain. apply Qltb_lt. reflexivity.
Defined.

(** The value of a list of ledger entries at the marks of [get_equity]. *)
Local Abbreviation value prices l :=
  (foldr (fun (sp : string * Position) acc =>
            quantity (snd sp) * mark prices sp + acc) 0 l).

Lemma get_equity_sum (prices : gmap string Q) b :
  get_equity prices b == cash b + value prices (map_to_list (positions b)).
Proof.
  unfold get_equity. generalize (cash b). generalize (map_to_list (positions b)).
  induction l as [|x l IH]; intros c.
  - cbn. ring.
  - cbn [foldl foldr]. rewrite IH. ring.
Qed.

Lemma value_perm (prices : gmap string Q) (l l' : list (string * Position)) :
  l ≡ₚ l' -> value prices l == value prices l'.
Proof.
  induction 1 as [|x l l' _ IH|x y l|l1 l2 l3 _ IH1 _ IH2].
  - reflexivity.
  - cbn [foldr]. rewrite IH. reflexivity.
  - cbn [foldr]. ring.
  - rewrite IH1. exact IH2.
Qed.

Lemma value_insert (prices : gmap string Q) (sym : string) (pos : Position)
    (ledger : gmap string Position) :
  value prices (map_to_list (<[sym := pos]> ledger))
  == quantity pos * mark prices (sym, pos)
     + value prices (map_to_list (delete sym ledger)).
Proof.
  rewrite <- (insert_delete_eq ledger).
  rewrite (value_perm prices _ _
             (map_to_list_insert (delete sym ledger) sym pos
                (lookup_delete_eq ledger sym))).
  reflexivity.
Qed.

Lemma value_lookup (prices : gmap string Q) (sym : string)
    (ledger : gmap string Position) :
  value prices (map_to_list ledger)
  == match ledger !! sym with
     | Some pos => quantity pos * mark prices (sym, pos)
     | None => 0
     end
     + value prices (map_to_list (delete sym ledger)).
Proof.
  destruct (ledger !! sym) as [pos|] eqn:E.
  - rewrite <- (value_perm prices _ _ (map_to_list_delete ledger sym pos E)).
    reflexivity.
  - rewrite (delete_id ledger sym E). ring.
Qed.

Lemma _update_position_buy_insert (sym : string) (qty prc : Q)
    (ledger : gmap string Position) :
  _update_position sym qty prc "buy" ledger
  = <[sym := default {| quantity := 0; avg_price := 0 |}
               (_update_position sym qty prc "buy" ledger !! sym)]> ledger.
Proof.
  rewrite _update_position_buy_lookup. cbv zeta.
  unfold _update_position. cbn [String.eqb Ascii.eqb Bool.eqb].
  destruct (ledger !! sym) as [pos|] eqn:E.
  - rewrite E. reflexivity.
  - rewrite lookup_insert_eq. cbn. rewrite insert_insert_eq. reflexivity.
Qed.

(** X17.  What a buy does to the equity reported by [get_equity].  For an
    accepted buy of [q] at execution price [p] with fee [f]: if the caller
    supplies a current price [P] for the symbol, the equity changes by
    [- f - q*(p - P)] (the fee and the slippage against the mark).  If it
    supplies none, the position is valued at its average cost: when the
    resulting quantity [held + q] is positive the equity falls by exactly
    the fee; when it is not (a buy of a negative quantity is accepted) the
    average cost is reset to 0 and the equity changes by
    [- (p*q + f) - held * held_avg]. *)
Theorem buy_changes_equity_by_fee b (oid : string) (gauss : Q) now
    (sym : string) (q current_price : Q) (coid : option string)
    (prices : gmap string Q) :
  let p := apply_slippage gauss current_price "buy" in
  let f := p * q * taker_fee_bps (fees_calc b) / 10000 in
  let b' := snd (create_market_order oid gauss now sym "buy" q current_price coid b) in
  p * q + f <= cash b ->
  (forall P, prices !! sym = Some P ->
     get_equity prices b' == get_equity prices b - f - q * (p - P))
  /\ (prices !! sym = None -> 0 < held_quantity b sym + q ->
      get_equity prices b' == get_equity prices b - f)
  /\ (prices !! sym = None -> held_quantity b sym + q <= 0 ->
      get_equity prices b'
      == get_equity prices b - (p * q + f)
         - held_quantity b sym * held_avg_price b sym).
Proof.
  intros p f b' Hcash.
  assert (Hreq : Qltb (cash b) (p * q + calculate_fee (fees_calc b) (p * q) false)
                 = false).
  { apply Qltb_ge. rewrite (fee_closed_form (fees_calc b) p q). exact Hcash. }
  assert (Hb' : b' = set_orders
                       (<[oid := filled oid coid sym "buy" q p
                                   (calculate_fee (fees_calc b) (p * q) false) now]>
                          (orders b))
                       (set_positions
                          (_update_position sym q p "buy" (positions b))
                          (set_cash
                             (cash b - (p * q + calculate_fee (fees_calc b)
                                                  (p * q) false)) b))).
  { subst b'. unfold create_market_order, exec_price_of.
    cbn [String.eqb Ascii.eqb Bool.eqb]. fold p. rewrite Hreq. reflexivity. }
  assert (Heq : forall new_avg : Q,
            (if Qltb 0 (held_quantity b sym + q)
             then (held_quantity b sym * held_avg_price b sym + q * p)
                  / (held_quantity b sym + q)
             else 0) = new_avg ->
            get_equity prices b'
            == get_equity prices b - (p * q + f)
               - held_quantity b sym
                 * default (held_avg_price b sym) (prices !! sym)
               + (held_quantity b sym + q) * default new_avg (prices !! sym)).
  { intros new_avg Havg.
    rewrite !get_equity_sum, Hb'.
    cbn [cash positions set_orders set_positions set_cash].
    rewrite _update_position_buy_insert, _update_position_buy_lookup.
    cbv zeta. change (default ?d (Some ?x)) with x.
    rewrite value_insert, (value_lookup prices sym (positions b)).
    unfold mark, held_quantity, held_avg_price in *. cbn [fst snd quantity avg_price].
    rewrite (fee_closed_form (fees_calc b) p q). fold f.
    rewrite Havg.
    destruct (positions b !! sym) as [pos|]; cbn [fst snd]; ring. }
  split; [|split].
  - intros P HP. rewrite (Heq _ eq_refl), HP.
    change (default ?d (Some P)) with P. ring.
  - intros HP Hpos.
    rewrite (Heq ((held_quantity b sym * held_avg_price b sym + q * p)
                  / (held_quantity b sym + q))).
    + rewrite HP. change (default ?d None) with d.
      assert (Hne : ~ held_quantity b sym + q == 0)
        by (intros Hz; rewrite Hz in Hpos; exact (Qlt_irrefl _ Hpos)).
      field. exact Hne.
    + apply Qltb_lt in Hpos. rewrite Hpos. reflexivity.
  - intros HP Hneg.
    rewrite (Heq 0).
    + rewrite HP. change (default ?d None) with d. ring.
    + apply Qltb_ge in Hneg. rewrite Hneg. reflexivity.
Qed.

(** Buying 0.1 at 50000 with a 2 bps draw costs a fee of 5.001: valued at
    cost the equity is 10000 - 5.001; marked at 50000 it is lower by the
    slippage of 1 as well.  A buy of -1 at 100 with a draw of 0 is accepted
    with a fee of -0.1 and raises the equity valued at cost to 10100.1. *)
Lemma buy_changes_equity_by_fee_witness :
  let b := init 10000 2 10 in
  let b' := snd (create_market_order "o1" 2 0 "BTC/USDT" "buy" (1 # 10) 50000
                   None b) in
  let b'' := snd (create_market_order "o2" 0 0 "BTC/USDT" "buy" (-1) 100
                    None b) in
  get_equity ∅ b' == 10000 - (5001 # 1000)
  /\ get_equity {[ "BTC/USDT" := 50000 ]} b' == 10000 - (5001 # 1000) - 1
  /\ get_equity ∅ b'' == 10000 + (1001 # 10).
Proof.
  intros b b' b''.
  assert (Hcash :
    apply_slippage 2 50000 "buy" * (1 # 10)
    + apply_slippage 2 50000 "buy" * (1 # 10)
      * taker_fee_bps (fees_calc b) / 10000 <= cash b)
    by (apply Qle_bool_iff; reflexivity).
  assert (Hcash' :
    apply_slippage 0 100 "buy" * (-1)
    + apply_slippage 0 100 "buy" * (-1)
      * taker_fee_bps (fees_calc b) / 10000 <= cash b)
    by (apply Qle_bool_iff; reflexivity).
  split; [|split].
  - destruct (buy_changes_equity_by_fee b "o1" 2 0 "BTC/USDT" (1 # 10) 50000
                None ∅ Hcash) as (_ & Hcost & _).
    fold b' in Hcost. rewrite Hcost.
    + apply Qeq_bool_iff. reflexivity.
    + apply lookup_empty.
    + apply Qltb_lt. reflexivity.
  - destruct (buy_changes_equity_by_fee b "o1" 2 0 "BTC/USDT" (1 # 10) 50000
                None {[ "BTC/USDT" := 50000 ]} Hcash) as (Hmark & _).
    fold b' in Hmark. rewrite (Hmark 50000).
    + apply Qeq_bool_iff. reflexivity.
    + apply lookup_singleton_eq.
  - destruct (buy_changes_equity_by_fee b "o2" 0 0 "BTC/USDT" (-1) 100
                None ∅ Hcash') as (_ & _ & Hreset).
    fold b'' in Hreset. rewrite Hreset.
    + apply Qeq_bool_iff. reflexivity.
    + apply lookup_empty.
    + apply Qle_bool_iff. reflexivity.
Defined.

Lemma Qabs_scaled (g : Q) : Qabs (g / 10000) == Qabs g / 10000.
Proof.
  unfold Qdiv. rewrite Qabs_Qmult.
  rewrite (Qabs_pos (/ 10000)); [reflexivity | discriminate].
Qed.

(** X18.  Slippage always works against the order.  For a non-negative
    price a buy executes at or above the quoted price and any other side at
    or below it; the sign of the random draw is irrelevant (its absolute
    value is applied), a draw of 0 leaves the price unchanged, and the
    spread between the buy and the sell execution price for the same draw is
    [2 * price * |draw| / 10000]. *)
Theorem slippage_against_the_order (gauss price : Q) (side : string) :
  0 <= price ->
  price <= apply_slippage gauss price "buy"
  /\ (side <> "buy" -> apply_slippage gauss price side <= price)
  /\ apply_slippage (- gauss) price side == apply_slippage gauss price side
  /\ (gauss == 0 -> apply_slippage gauss price side == price)
  /\ apply_slippage gauss price "buy" - apply_slippage gauss price "sell"
     == 2 * price * Qabs gauss / 10000.
Proof.
  intros Hprice.
  assert (Hs : 0 <= Qabs (gauss / 10000)) by apply Qabs_nonneg.
  assert (Hmul : 0 <= price * Qabs (gauss / 10000))
    by (apply Qmult_le_0_compat; assumption).
  split; [|split; [|split; [|split]]].
  - unfold apply_slippage. cbn [String.eqb Ascii.eqb Bool.eqb].
    set (s := Qabs (gauss / 10000)) in *. nra.
  - intros Hside. apply String.eqb_neq in Hside.
    unfold apply_slippage. rewrite Hside.
    set (s := Qabs (gauss / 10000)) in *. nra.
  - assert (E : Qabs (- gauss / 10000) == Qabs (gauss / 10000)).
    { rewrite !Qabs_scaled, Qabs_opp. reflexivity. }
    unfold apply_slippage. destruct (String.eqb side "buy"); rewrite E; reflexivity.
  - intros Hz.
    assert (E : Qabs (gauss / 10000) == 0).
    { rewrite Qabs_scaled, Hz. reflexivity. }
    unfold apply_slippage. destruct (String.eqb side "buy"); rewrite E; ring.
  - unfold apply_slippage. cbn [String.eqb Ascii.eqb Bool.eqb].
    rewrite Qabs_scaled. unfold Qdiv. ring.
Qed.

(** A quote of 50000 and a draw of -2 bps: bought at 50010, sold at 49990. *)
Lemma slippage_against_the_order_witness :
  50000 <= apply_slippage (- (2)) 50000 "buy"
  /\ apply_slippage (- (2)) 50000 "sell" <= 50000
  /\ apply_slippage (- (2)) 50000 "buy" == 50010.
Proof.
  assert (Hprice : 0 <= 50000) by (apply Qle_bool_iff; reflexivity).
  destruct (slippage_against_the_order (- (2)) 50000 "sell" Hprice)
    as (Hbuy & Hsell & _).
  split; [exact Hbuy|]. split; [apply Hsell; discriminate|].
  apply Qeq_bool_iff. reflexivity.
Defined.

Lemma create_market_order_fees_calc b (oid : string) (gauss : Q) now
    (sym side : string) (q price : Q) (coid : option string) :
  fees_calc (snd (create_market_order oid gauss now sym side q price coid b))
  = fees_calc b.
Proof.
  unfold create_market_order.
  destruct (String.eqb side "buy").
  - destruct (Qltb _ _); reflexivity.
  - destruct (positions b !! sym) as [pos|]; [|reflexivity].
    destruct (Qltb _ _); reflexivity.
Qed.

Lemma create_market_order_cash_nonneg b (oid : string) (gauss : Q) now
    (sym side : string) (q price : Q) (coid : option string) :
  0 <= cash b ->
  0 <= taker_fee_bps (fees_calc b) -> taker_fee_bps (fees_calc b) <= 10000 ->
  0 <= price -> 0 <= q -> Qabs gauss <= 10000 ->
  0 <= cash (snd (create_market_order oid gauss now sym side q price coid b)).
Proof.
  intros Hcash Hfee0 Hfee1 Hprice Hq Hgauss.
  unfold create_market_order, exec_price_of.
  destruct (String.eqb side "buy") eqn:Eside.
  - destruct (Qltb (cash b) _) eqn:E; [exact Hcash|].
    apply Qltb_ge in E. cbn [snd cash set_orders set_positions set_cash]. lra.
  - destruct (positions b !! sym) as [pos|]; [|exact Hcash].
    destruct (Qltb (quantity pos) q); [exact Hcash|].
    cbn [snd cash set_orders set_positions set_cash].
    unfold apply_slippage, calculate_fee. rewrite Eside.
    assert (Hs0 : 0 <= Qabs (gauss / 10000)) by apply Qabs_nonneg.
    assert (Hs1 : Qabs (gauss / 10000) <= 1).
    { rewrite Qabs_scaled.
      apply Qle_shift_div_r; [reflexivity|]. rewrite Qmult_1_l. exact Hgauss. }
    assert (Hr0 : 0 <= taker_fee_bps (fees_calc b) / 10000)
      by (apply Qle_shift_div_l; [reflexivity|]; rewrite Qmult_0_l; exact Hfee0).
    assert (Hr1 : taker_fee_bps (fees_calc b) / 10000 <= 1)
      by (apply Qle_shift_div_r; [reflexivity|]; rewrite Qmult_1_l; exact Hfee1).
    set (s := Qabs (gauss / 10000)) in *.
    set (rate := taker_fee_bps (fees_calc b) / 10000) in *.
    assert (He : 0 <= price * (1 - s)) by nra.
    assert (Hn : 0 <= price * (1 - s) * q) by nra.
    assert (Hnet : 0 <= price * (1 - s) * q * (1 - rate)) by nra.
    nra.
Qed.

(** X19.  The broker never overdraws.  Starting from non-negative cash, with
    a taker fee between 0 and 10000 bps, any sequence of market orders
    (buys and sells, filled or rejected) whose prices and quantities are
    non-negative and whose slippage draws do not exceed 10000 bps in
    absolute value leaves the cash non-negative. *)
Theorem cash_never_negative (os : list order_request) b :
  0 <= cash b ->
  0 <= taker_fee_bps (fees_calc b) -> taker_fee_bps (fees_calc b) <= 10000 ->
  Forall (fun o => 0 <= req_price o /\ 0 <= req_quantity o
                   /\ Qabs (req_gauss o) <= 10000) os ->
  0 <= cash (submit_all os b).
Proof.
  intros Hcash Hf0 Hf1 Hall. revert b Hcash Hf0 Hf1.
  induction Hall as [|o os (Hp & Hq & Hg) _ IH]; intros b Hcash Hf0 Hf1.
  - exact Hcash.
  - unfold submit_all. cbn [foldl]. apply IH; unfold submit.
    + apply create_market_order_cash_nonneg; assumption.
    + rewrite create_market_order_fees_calc. exact Hf0.
    + rewrite create_market_order_fees_calc. exact Hf1.
Qed.

(** A buy that takes nearly all the cash, a buy that is refused, a sale. *)
Lemma cash_never_negative_witness :
  let mk i sd q p := {| req_id := i; req_gauss := 2; req_now := 0;
                        req_symbol := "BTC/USDT"; req_side := sd;
                        req_quantity := q; req_price := p |} in
  0 <= cash (submit_all [mk "a" "buy" (19 # 100) 50000;
                         mk "b" "buy" 1 50000;
                         mk "c" "sell" (1 # 10) 40000] (init 10000 2 10)).
Proof.
  intros mk. apply cash_never_negative.
  - apply Qle_bool_iff. reflexivity.
  - apply Qle_bool_iff. reflexivity.
  - apply Qle_bool_iff. reflexivity.
  - repeat constructor; apply Qle_bool_iff; reflexivity.
Defined.

Lemma create_market_order_ledger_positive b (oid : string) (gauss : Q) now
    (sym side : string) (q price : Q) (coid : option string) :
  (forall s pos, positions b !! s = Some pos -> 0 < quantity pos) ->
  0 < q ->
  forall s pos,
    positions (snd (create_market_order oid gauss now sym side q price coid b)) !! s
      = Some pos ->
    0 < quantity pos.
Proof.
  intros Hinv Hq s pos.
  unfold create_market_order.
  destruct (String.eqb side "buy") eqn:Eside.
  - apply String.eqb_eq in Eside. subst side.
    destruct (Qltb (cash b) _); [apply Hinv|].
    cbn [snd positions set_orders set_positions set_cash].
    rewrite _update_position_buy_insert, _update_position_buy_lookup. cbv zeta.
    change (default ?d (Some ?x)) with x.
    destruct (decide (s = sym)) as [->|Hne].
    + rewrite lookup_insert_eq. intros [= <-]. cbn [quantity].
      destruct (positions b !! sym) as [old|] eqn:E.
      * pose proof (Hinv _ _ E). lra.
      * lra.
    + rewrite lookup_insert_ne by congruence. apply Hinv.
  - destruct (positions b !! sym) as [held|] eqn:E; [|apply Hinv].
    destruct (Qltb (quantity held) q); [apply Hinv|].
    cbn [snd positions set_orders set_positions set_cash].
    unfold _update_position. rewrite Eside, E. cbv zeta. rewrite E.
    change (default ?d (Some held)) with held.
    destruct (Qle_bool (quantity held - - q) 0) eqn:Enew.
    + destruct (decide (s = sym)) as [->|Hne].
      * rewrite lookup_delete_eq. discriminate.
      * rewrite lookup_delete_ne by congruence. apply Hinv.
    + destruct (decide (s = sym)) as [->|Hne].
      * rewrite lookup_insert_eq. intros [= <-]. cbn [quantity].
        apply Qle_bool_false. exact Enew.
      * rewrite lookup_insert_ne by congruence. apply Hinv.
Qed.

(** X20.  The ledger only holds positive quantities.  If every entry of the
    ledger has a positive quantity (an empty ledger does), it is still so
    after any sequence of market orders with positive quantities, whatever
    their sides, prices and outcomes. *)
Theorem ledger_quantities_positive (os : list order_request) b :
  (forall s pos, positions b !! s = Some pos -> 0 < quantity pos) ->
  Forall (fun o => 0 < req_quantity o) os ->
  forall s pos, positions (submit_all os b) !! s = Some pos -> 0 < quantity pos.
Proof.
  intros Hinv Hall. revert b Hinv.
  induction Hall as [|o os Hq _ IH]; intros b Hinv.
  - exact Hinv.
  - unfold submit_all. cbn [foldl]. apply IH. unfold submit.
    apply create_market_order_ledger_positive; assumption.
Qed.

(** Two buys and a sale on a fresh broker: the symbol is held, with a
    positive quantity. *)
Lemma ledger_quantities_positive_witness :
  let mk i sd q p := {| req_id := i; req_gauss := 2; req_now := 0;
                        req_symbol := "BTC/USDT"; req_side := sd;
                        req_quantity := q; req_price := p |} in
  let os := [mk "a" "buy" (1 # 10) 50000;
             mk "b" "buy" (5 # 100) 40000;
             mk "c" "sell" (1 # 10) 45000] in
  exists pos,
    positions (submit_all os (init 10000 2 10)) !! "BTC/USDT" = Some pos
    /\ 0 < quantity pos.
Proof.
  intros mk os.
  assert (Hinit : forall s pos,
             positions (init 10000 2 10) !! s = Some pos -> 0 < quantity pos).
  { intros s pos H.
    change (positions (init 10000 2 10)) with (∅ : gmap string Position) in H.
    rewrite lookup_empty in H. discriminate H. }
  assert (Hos : Forall (fun o => 0 < req_quantity o) os) by (repeat constructor).
  destruct (positions (submit_all os (init 10000 2 10)) !! "BTC/USDT")
    as [pos|] eqn:Hheld; [|vm_compute in Hheld; discriminate Hheld].
  exists pos. split; [reflexivity|].
  exact (ledger_quantities_positive os (init 10000 2 10) Hinit Hos
           "BTC/USDT" pos Hheld).
Defined.

Lemma base_currency_no_slash (a : string) :
  (forall i, String.get i a <> Some "/"%char) -> base_currency a = a.
Proof.
  induction a as [|c a IH]; intros Hno; [reflexivity|].
  cbn [base_currency].
  destruct (Ascii.eqb c "/") eqn:E.
  - apply Ascii.eqb_eq in E. subst c. exfalso. exact (Hno 0%nat eq_refl).
  - f_equal. apply IH. intros i. exact (Hno (S i)).
Qed.

(** The balance [get_balance] builds for a ledger entry. *)
Local Abbreviation balance_of sym pos :=
  {| currency := base_currency sym; free := quantity pos;
     used := 0; total := quantity pos |}.

Lemma get_balance_entries b (keys : list string) :
  (forall sym, sym ∈ keys -> is_Some (positions b !! sym)) ->
  length (get_balance keys b) = S (length keys)
  /\ forall i sym, keys !! i = Some sym ->
       exists pos, positions b !! sym = Some pos
                   /\ get_balance keys b !! S i = Some (balance_of sym pos).
Proof.
  unfold get_balance. cbn [length lookup list_lookup].
  induction keys as [|k keys IH]; intros Hin.
  - split; [reflexivity|]. intros i sym Hi. discriminate Hi.
  - destruct (Hin k) as [pos Hk]; [apply list_elem_of_here|].
    destruct IH as [Hlen Hnth].
    { intros sym Hsym. apply Hin. apply list_elem_of_further. exact Hsym. }
    cbn [omap list_omap]. rewrite Hk. cbn [fmap option_fmap option_map length].
    split; [f_equal; exact Hlen|].
    intros [|i] sym Hi.
    + injection Hi as <-. exists pos. split; [exact Hk | reflexivity].
    + cbn in Hi. destruct (Hnth i sym Hi) as (pos' & Hpos' & Hbal).
      exists pos'. split; [exact Hpos' | exact Hbal].
Qed.

(** X21.  [get_balance] lists the cash first, as a "USD" balance, followed
    by exactly one balance per ledger entry, in the order in which the
    ledger is iterated: the balance at place [i + 1] is that of the [i]-th
    symbol, with the base currency of the symbol as currency and the
    quantity held as both [free] and [total]; every balance has nothing in
    use ([used = 0]).  The currency of an entry is the part of its symbol
    before the first slash: [base ++ "/" ++ quote] gives [base] when [base]
    contains no slash, and a symbol without slash is used whole. *)
Theorem get_balance_shape b (keys : list string) (base quote : string) :
  NoDup keys ->
  (forall sym, sym ∈ keys <-> is_Some (positions b !! sym)) ->
  get_balance keys b !! 0%nat
  = Some {| currency := "USD"; free := cash b; used := 0; total := cash b |}
  /\ length (get_balance keys b) = S (size (positions b))
  /\ (forall i sym, keys !! i = Some sym ->
        exists pos,
          positions b !! sym = Some pos
          /\ get_balance keys b !! S i
             = Some {| currency := base_currency sym; free := quantity pos;
                       used := 0; total := quantity pos |})
  /\ (forall bal, bal ∈ get_balance keys b -> used bal = 0 /\ free bal = total bal)
  /\ ((forall i, String.get i base <> Some "/"%char) ->
      base_currency (base +:+ "/" +:+ quote) = base
      /\ base_currency base = base).
Proof.
  intros Hnodup Hkeys.
  destruct (get_balance_entries b keys) as [Hlen Hnth].
  { intros sym Hsym. apply Hkeys. exact Hsym. }
  split; [reflexivity|].
  split; [|split; [exact Hnth|split]].
  - rewrite Hlen. f_equal.
    rewrite <- (size_dom (D := gset string)).
    change (length keys = length (elements (dom (positions b) : gset string))).
    apply Permutation_length, NoDup_Permutation;
      [exact Hnodup | apply NoDup_elements|].
    intros sym. rewrite elem_of_elements, elem_of_dom. apply Hkeys.
  - intros bal Hin. apply list_elem_of_lookup in Hin as [[|i] Hi].
    + injection Hi as <-. split; reflexivity.
    + assert (Hi' : is_Some (keys !! i)).
      { apply lookup_lt_is_Some. apply lookup_lt_Some in Hi.
        rewrite Hlen in Hi. lia. }
      destruct Hi' as [sym Hsym].
      destruct (Hnth i sym Hsym) as (pos & _ & Hbal).
      rewrite Hbal in Hi. injection Hi as <-. split; reflexivity.
  - intros Hno. split; [revert Hno | exact (base_currency_no_slash base Hno)].
    induction base as [|c base IH]; intros Hno; [reflexivity|].
    change (String c base +:+ "/" +:+ quote)
      with (String c (base +:+ "/" +:+ quote)).
    cbn [base_currency].
    destruct (Ascii.eqb c "/") eqn:E.
    + apply Ascii.eqb_eq in E. subst c. exfalso. exact (Hno 0%nat eq_refl).
    + f_equal. apply IH. intros i. exact (Hno (S i)).
Qed.

(** After one buy of 0.1 BTC/USDT on a fresh broker: a USD balance, then a
    BTC balance of 0.1. *)
Lemma get_balance_shape_witness :
  let b := snd (create_market_order "o1" 2 0 "BTC/USDT" "buy" (1 # 10) 50000
                  None (init 10000 2 10)) in
  length (get_balance ["BTC/USDT"] b) = 2%nat
  /\ exists pos,
       get_balance ["BTC/USDT"] b !! 1%nat
       = Some {| currency := "BTC"; free := quantity pos;
                 used := 0; total := quantity pos |}
       /\ quantity pos == 1 # 10.
Proof.
  intros b.
  assert (Hledger : exists pos, positions b = {[ "BTC/USDT" := pos ]}
                                /\ quantity pos == 1 # 10).
  { eexists. split; [vm_compute; reflexivity | vm_compute; reflexivity]. }
  destruct Hledger as (pos0 & Hledger & Hq).
  assert (Hnodup : NoDup ["BTC/USDT"]) by apply NoDup_singleton.
  assert (Hkeys : forall sym,
             sym ∈ ["BTC/USDT"] <-> is_Some (positions b !! sym)).
  { intros sym. rewrite Hledger, list_elem_of_singleton.
    rewrite lookup_singleton_is_Some. split; intros ->; reflexivity. }
  destruct (get_balance_shape b ["BTC/USDT"] "BTC" "USDT" Hnodup Hkeys)
    as (_ & Hlen & Hnth & _).
  split.
  - rewrite Hlen, Hledger. rewrite map_size_singleton. reflexivity.
  - destruct (Hnth 0%nat "BTC/USDT" eq_refl) as (pos & Hpos & Hbal).
    exists pos. split; [exact Hbal|].
    rewrite Hledger, lookup_singleton_eq in Hpos. injection Hpos as <-.
    exact Hq.
Defined.

End PaperMore.

(** ** Persistence: order updates and position closing *)

Section CrudMore.
Import Crud.

(** X22.  [update_order_status] on an unknown order id returns [None] and
    leaves the table as it is.  On a known id the row it returns is the row
    then stored under that id, every other row is untouched, the key is
    kept, [updated_at] is stamped, and [filled_quantity] and
    [average_fill_price] are overwritten only by arguments that are given:
    [None] keeps the stored value. *)
Theorem update_order_status_round_trip (now1 now2 : datetime) (db : session)
    (oid : string) (st : OrderStatus) (fq ap : option Q) :
  let r := update_order_status now1 now2 db oid st fq ap in
  (db !! oid = None -> r = (None, db))
  /\ (forall order, db !! oid = Some order ->
        get_order (snd r) oid = fst r
        /\ (forall other, other <> oid -> get_order (snd r) other = get_order db other)
        /\ exists order',
             fst r = Some order'
             /\ order_id order' = order_id order
             /\ updated_at order' = now1
             /\ (fq = None -> filled_quantity order' = filled_quantity order)
             /\ (forall q, fq = Some q -> filled_quantity order' = Some q)
             /\ (ap = None -> average_fill_price order' = average_fill_price order)
             /\ (forall p, ap = Some p -> average_fill_price order' = Some p)).
Proof.
  intros r. subst r. unfold update_order_status, get_order. split.
  - intros ->. reflexivity.
  - intros order ->. cbn [fst snd].
    split; [apply lookup_insert_eq|].
    split; [intros other Hne; apply lookup_insert_ne; congruence|].
    eexists. split; [reflexivity|]. cbn.
    repeat split; intros; subst; reflexivity.
Qed.

(** A partial fill recorded with its quantity, then a cancellation without
    quantities: the quantity of the fill is still there. *)
Lemma update_order_status_round_trip_witness :
  let o := {| order_id := "o-1"; status := OPEN;
              filled_quantity := None; average_fill_price := None;
              updated_at := 1; filled_at := None; cancelled_at := None |} in
  let db1 := snd (update_order_status 10 11 {[ "o-1" := o ]} "o-1"
                    PARTIALLY_FILLED (Some (1 # 2)) (Some 100)) in
  let r := update_order_status 20 21 db1 "o-1" CANCELLED None None in
  update_order_status 30 31 db1 "o-2" FILLED None None = (None, db1)
  /\ exists o', get_order (snd r) "o-1" = Some o'
                /\ filled_quantity o' = Some (1 # 2).
Proof.
  intros o db1 r.
  destruct (update_order_status_round_trip 30 31 db1 "o-2" FILLED None None)
    as [Hmiss _].
  destruct (update_order_status_round_trip 20 21 db1 "o-1" CANCELLED None None)
    as [_ Hhit].
  split; [apply Hmiss; reflexivity|].
  destruct (Hhit {| order_id := "o-1"; status := PARTIALLY_FILLED;
                    filled_quantity := Some (1 # 2);
                    average_fill_price := Some 100;
                    updated_at := 10; filled_at := None; cancelled_at := None |}
                 eq_refl) as (Hget & _ & o' & Hfst & _ & _ & Hkeep & _).
  exists o'. fold r in Hget, Hfst. split; [rewrite Hget; exact Hfst|].
  rewrite Hkeep; reflexivity.
Defined.

End CrudMore.

Section PositionsMore.
Import Positions.

(** X23.  [close_position] on an unknown id returns [None] and changes
    nothing.  On a known id -- whether the position is still open or not --
    it stores and returns the row with [is_open = false], the closing price
    as current price, both timestamps, and the realized PnL
    [(close - entry) * quantity] for a buy and [(entry - close) * quantity]
    for a sell; for a positive quantity a long gains exactly when it closes
    above its entry and a short exactly when it closes below.  The position
    is no longer among the open ones and the other rows are untouched. *)
Theorem close_position_pnl (now1 now2 : datetime) (db : table)
    (position_id : Z) (close_price : Q) :
  let r := close_position now1 now2 db position_id close_price in
  (db !! position_id = None -> r = (None, db))
  /\ (forall position, db !! position_id = Some position ->
        exists position' pnl,
          r = (Some position', <[position_id := position']> db)
          /\ is_open position' = false
          /\ current_price position' = Some close_price
          /\ closed_at position' = Some now1
          /\ updated_at position' = now2
          /\ realized_pnl position' = Some pnl
          /\ (side position = BUY ->
              pnl = (close_price - entry_price position) * quantity position)
          /\ (side position = SELL ->
              pnl = (entry_price position - close_price) * quantity position)
          /\ (0 < quantity position ->
              (side position = BUY ->
               (0 < pnl <-> entry_price position < close_price))
              /\ (side position = SELL ->
                  (0 < pnl <-> close_price < entry_price position)))
          /\ get_open_positions (snd r) !! position_id = None
          /\ (forall other, other <> position_id ->
                snd r !! other = db !! other)).
Proof.
  intros r. subst r. unfold close_position. split.
  - intros ->. reflexivity.
  - intros position ->. eexists _, _. split; [reflexivity|].
    cbn [is_open current_price closed_at updated_at realized_pnl snd].
    split; [reflexivity|]. split; [reflexivity|]. split; [reflexivity|].
    split; [reflexivity|]. split; [reflexivity|].
    split; [intros ->; reflexivity|].
    split; [intros ->; reflexivity|].
    split.
    { intros Hq. split; intros ->; split; intros H; nra. }
    split.
    { unfold get_open_positions. apply map_lookup_filter_None. right.
      intros x. rewrite lookup_insert_eq. intros [= <-]. cbn. discriminate. }
    intros other Hne. apply lookup_insert_ne. congruence.
Qed.

(** A long of 2 units entered at 100 and closed at 110 realizes 20; closed
    again at 90 the stored PnL becomes -20. *)
Lemma close_position_pnl_witness :
  let pos := {| id := 1; side := BUY; quantity := 2; entry_price := 100;
                current_price := None; realized_pnl := None; is_open := true;
                closed_at := None; updated_at := 0 |} in
  let r1 := close_position 5 6 {[ 1%Z := pos ]} 1 110 in
  let r2 := close_position 7 8 (snd r1) 1 90 in
  (exists p1, fst r1 = Some p1 /\ realized_pnl p1 = Some ((110 - 100) * 2))
  /\ (exists p2, fst r2 = Some p2 /\ realized_pnl p2 = Some ((90 - 100) * 2)).
Proof.
  intros pos r1 r2. split.
  - destruct (proj2 (close_position_pnl 5 6 {[ 1%Z := pos ]} 1 110) pos)
      as (p1 & pnl & Hr & _ & _ & _ & _ & Hpnl & Hbuy & _);
      [apply lookup_singleton_eq|].
    exists p1. fold r1 in Hr. rewrite Hr. split; [reflexivity|].
    rewrite Hpnl, (Hbuy eq_refl). reflexivity.
  - assert (Hget : exists p1, snd r1 !! 1%Z = Some p1 /\ side p1 = BUY
                              /\ entry_price p1 = 100 /\ quantity p1 = 2)
      by (eexists; split; [apply lookup_insert_eq | repeat split]).
    destruct Hget as (p1 & Hget & Hs & He & Hq).
    destruct (proj2 (close_position_pnl 7 8 (snd r1) 1 90) p1 Hget)
      as (p2 & pnl & Hr & _ & _ & _ & _ & Hpnl & Hbuy & _).
    exists p2. fold r2 in Hr. rewrite Hr. split; [reflexivity|].
    rewrite Hpnl, (Hbuy Hs), He, Hq. reflexivity.
Defined.

End PositionsMore.

(** ** Trend strategy: bearish side, shape of the result, history needed *)

Section TrendATRMore.
Import TrendATR.

Variable rolling : nat -> list Q -> nat -> cell.
Variable atr : list OHLCV -> nat -> option (nat -> cell).

Implicit Types (s : TrendATRStrategy) (data : list OHLCV).

(** X24.  The bearish crossover mirrors the bullish one.  On a table with
    at least [max(sma_slow, atr_period)] rows whose fast SMA column is [>=]
    the slow SMA column at the second-to-last row and [<] it at the last
    row, and for which [pandas_ta.atr] returns a series, [generate_signals]
    returns exactly one signal: a sell at the last close with
    [stop_loss = close + atr_mult_sl * ATR],
    [take_profit = close - atr_mult_tp * atr_mult_sl * ATR] and confidence
    1.0, ATR being the cell of the last row of that series. *)
Theorem generate_signals_bearish_crossover s (sym : string) data
    (col : nat -> cell) (fast_prev slow_prev fast_last slow_last : Q) :
  (Nat.max (sma_slow s) (atr_period s) <= length data)%nat ->
  sma_fast_at rolling s data (length data - 2) = Some fast_prev ->
  sma_slow_at rolling s data (length data - 2) = Some slow_prev ->
  slow_prev <= fast_prev ->
  sma_fast_at rolling s data (length data - 1) = Some fast_last ->
  sma_slow_at rolling s data (length data - 1) = Some slow_last ->
  fast_last < slow_last ->
  atr data (atr_period s) = Some col ->
  exists last,
    data !! (length data - 1)%nat = Some last
    /\ generate_signals rolling atr s sym data
       = Ok [ {| symbol := sym;
                 side := "sell";
                 entry_price := close last;
                 stop_loss :=
                   (fun a => close last + atr_mult_sl s * a)
                     <$> col (length data - 1)%nat;
                 take_profit :=
                   (fun a => close last - atr_mult_tp s * atr_mult_sl s * a)
                     <$> col (length data - 1)%nat;
                 confidence := 1;
                 reason := SMACrossoverBearish (sma_fast s) (sma_slow s) |} ].
Proof.
  intros Hlong Hfp Hsp Hprev Hfl Hsl Hlast Hatr.
  assert (Hrows : (2 <= length data)%nat).
  { destruct (le_lt_dec 2 (length data)) as [Hok|Hfew]; [exact Hok|].
    exfalso.
    assert (Hidx : (length data - 2 = length data - 1)%nat) by lia.
    rewrite Hidx in Hfp, Hsp.
    rewrite Hfp in Hfl. rewrite Hsp in Hsl.
    injection Hfl as <-. injection Hsl as <-.
    exact (Qlt_not_le _ _ Hlast Hprev). }
  destruct (lookup_lt_is_Some_2 data (length data - 1)) as [last Hrow]; [lia|].
  exists last. split; [exact Hrow|].
  unfold generate_signals.
  apply Nat.ltb_ge in Hlong. rewrite Hlong.
  apply Nat.ltb_ge in Hrows. rewrite Hrows.
  rewrite Hrow, Hfp, Hsp, Hfl, Hsl. cbn [cell_le cell_lt].
  assert (Hnot : Qltb slow_last fast_last = false)
    by (apply Qltb_ge, Qlt_le_weak; exact Hlast).
  rewrite Hnot, andb_false_r.
  apply Qle_bool_iff in Hprev. rewrite Hprev.
  apply Qltb_lt in Hlast. rewrite Hlast.
  cbn [andb]. rewrite Hatr. reflexivity.
Qed.

End TrendATRMore.

(** Closes 20, 20, 20, 10 with windows 1 and 2: the fast average falls from
    20 (equal to the slow one) to 10 (below the slow 15). *)
Lemma generate_signals_bearish_crossover_witness :
  let bar c := {| TrendATR.open := c; TrendATR.high := c; TrendATR.low := c;
                  TrendATR.close := c; TrendATR.volume := 1 |} in
  let s := {| TrendATR.sma_fast := 1; TrendATR.sma_slow := 2;
              TrendATR.atr_period := 1;
              TrendATR.atr_mult_sl := 2; TrendATR.atr_mult_tp := 2 |} in
  let col := fun _ : nat => Some 1 in
  let atr := fun (_ : list TrendATR.OHLCV) (_ : nat) => Some col in
  exists sig,
    TrendATR.generate_signals TrendATR.rolling_mean atr s "BTC/USDT"
      [bar 20; bar 20; bar 20; bar 10]
      = TrendATR.Ok [sig]
    /\ TrendATR.side sig = "sell"
    /\ TrendATR.stop_loss sig = Some (10 + 2 * 1)
    /\ TrendATR.take_profit sig = Some (10 - 2 * 2 * 1).
Proof.
  intros bar s col atr.
  destruct (generate_signals_bearish_crossover TrendATR.rolling_mean
              atr s "BTC/USDT" [bar 20; bar 20; bar 20; bar 10] col
              (TrendATR.sum_list [20] / 1) (TrendATR.sum_list [20; 20] / 2)
              (TrendATR.sum_list [10] / 1) (TrendATR.sum_list [20; 10] / 2))
    as (last & Hrow & Hsig).
  - simpl. lia.
  - reflexivity.
  - reflexivity.
  - apply Qle_bool_iff. reflexivity.
  - reflexivity.
  - reflexivity.
  - apply Qltb_lt. reflexivity.
  - reflexivity.
  - simpl in Hrow. injection Hrow as <-.
    eexists. split; [exact Hsig|]. repeat split.
Defined.

Section TrendATRShape.
Import TrendATR.

Variable rolling : nat -> list Q -> nat -> cell.
Variable atr : list OHLCV -> nat -> option (nat -> cell).

Implicit Types (s : TrendATRStrategy) (data : list OHLCV).

(** The signal of each branch, as the code builds it. *)
Local Abbreviation buy_signal s sym last col n :=
  {| symbol := sym; side := "buy"; entry_price := close last;
     stop_loss := (fun a => close last - atr_mult_sl s * a) <$> col n;
     take_profit :=
       (fun a => close last + atr_mult_tp s * atr_mult_sl s * a) <$> col n;
     confidence := 1;
     reason := SMACrossoverBullish (sma_fast s) (sma_slow s) |}.

Local Abbreviation sell_signal s sym last col n :=
  {| symbol := sym; side := "sell"; entry_price := close last;
     stop_loss := (fun a => close last + atr_mult_sl s * a) <$> col n;
     take_profit :=
       (fun a => close last - atr_mult_tp s * atr_mult_sl s * a) <$> col n;
     confidence := 1;
     reason := SMACrossoverBearish (sma_fast s) (sma_slow s) |}.

(** Every path through [generate_signals]. *)
Lemma generate_signals_cases s (sym : string) data :
  ((length data < Nat.max (sma_slow s) (atr_period s))%nat
   /\ generate_signals rolling atr s sym data = Ok [])
  \/ ((Nat.max (sma_slow s) (atr_period s) <= length data)%nat
      /\ (length data < 2)%nat
      /\ generate_signals rolling atr s sym data = Err IndexError)
  \/ ((Nat.max (sma_slow s) (atr_period s) <= length data)%nat
      /\ (2 <= length data)%nat
      /\ exists last,
           data !! (length data - 1)%nat = Some last
           /\ ((bullish rolling s data = true
                /\ atr data (atr_period s) = None
                /\ generate_signals rolling atr s sym data = Err TypeError)
               \/ (bullish rolling s data = true
                   /\ exists col,
                        atr data (atr_period s) = Some col
                        /\ generate_signals rolling atr s sym data
                           = Ok [buy_signal s sym last col (length data - 1)%nat])
               \/ (bullish rolling s data = false
                   /\ bearish rolling s data = true
                   /\ atr data (atr_period s) = None
                   /\ generate_signals rolling atr s sym data = Err TypeError)
               \/ (bullish rolling s data = false
                   /\ bearish rolling s data = true
                   /\ exists col,
                        atr data (atr_period s) = Some col
                        /\ generate_signals rolling atr s sym data
                           = Ok [sell_signal s sym last col (length data - 1)%nat])
               \/ (bullish rolling s data = false
                   /\ bearish rolling s data = false
                   /\ generate_signals rolling atr s sym data = Ok []))).
Proof.
  unfold generate_signals.
  destruct (length data <? Nat.max (sma_slow s) (atr_period s))%nat eqn:Eg.
  { apply Nat.ltb_lt in Eg. left. split; [exact Eg | reflexivity]. }
  apply Nat.ltb_ge in Eg. right.
  destruct (length data <? 2)%nat eqn:Erows.
  { apply Nat.ltb_lt in Erows. left. repeat split; assumption. }
  apply Nat.ltb_ge in Erows. right.
  split; [exact Eg|]. split; [exact Erows|].
  destruct (lookup_lt_is_Some_2 data (length data - 1)) as [last Hrow]; [lia|].
  exists last. split; [exact Hrow|]. rewrite Hrow.
  fold (bullish rolling s data). fold (bearish rolling s data).
  destruct (bullish rolling s data).
  - destruct (atr data (atr_period s)) as [col|].
    + right; left. split; [reflexivity|]. exists col. split; reflexivity.
    + left. repeat split.
  - destruct (bearish rolling s data).
    + destruct (atr data (atr_period s)) as [col|].
      * right; right; right; left.
        split; [reflexivity|]. split; [reflexivity|].
        exists col. split; reflexivity.
      * right; right; left. repeat split.
    + right; right; right; right. repeat split.
Qed.

(** The three possible results of a call that returns. *)
Lemma generate_signals_Ok s (sym : string) data (l : list Signal) :
  generate_signals rolling atr s sym data = Ok l ->
  l = []
  \/ exists last col,
       data !! (length data - 1)%nat = Some last
       /\ (2 <= length data)%nat
       /\ atr data (atr_period s) = Some col
       /\ (l = [buy_signal s sym last col (length data - 1)%nat]
           /\ cell_le (sma_fast_at rolling s data (length data - 2))
                      (sma_slow_at rolling s data (length data - 2)) = true
           /\ cell_lt (sma_slow_at rolling s data (length data - 1))
                      (sma_fast_at rolling s data (length data - 1)) = true
           \/ l = [sell_signal s sym last col (length data - 1)%nat]
              /\ cell_le (sma_slow_at rolling s data (length data - 2))
                         (sma_fast_at rolling s data (length data - 2)) = true
              /\ cell_lt (sma_fast_at rolling s data (length data - 1))
                         (sma_slow_at rolling s data (length data - 1)) = true).
Proof.
  intros Hl.
  destruct (generate_signals_cases s sym data)
    as [(_ & H) | [(_ & _ & H) | (_ & Hrows & last & Hrow & H)]].
  - rewrite H in Hl. injection Hl as <-. left. reflexivity.
  - rewrite H in Hl. discriminate Hl.
  - destruct H as [(_ & _ & H) | [(Hb & col & Hcol & H)
                   | [(_ & _ & _ & H) | [(_ & Hb & col & Hcol & H) | (_ & _ & H)]]]];
      rewrite H in Hl; try discriminate Hl; injection Hl as <-.
    + right. exists last, col.
      apply andb_true_iff in Hb as [H1 H2]. repeat split; auto.
    + right. exists last, col.
      apply andb_true_iff in Hb as [H1 H2]. repeat split; auto.
    + left. reflexivity.
Qed.

(** X25.  The shape of every result of [generate_signals].  The call raises
    [IndexError] exactly when the table passes the length guard with fewer
    than two rows (possible only when both [sma_slow] and [atr_period] are
    at most 1), raises [TypeError] exactly when a table of two rows or more
    passes the guard, one of the two crossover tests holds and
    [pandas_ta.atr] returned [None], and raises nothing else.  When it
    returns, it returns at most one signal, for the symbol asked, entered
    at the last close, with confidence 1.0 and side "buy" or "sell". *)
Theorem generate_signals_shape s (sym : string) data :
  (generate_signals rolling atr s sym data = Err IndexError
   <-> (Nat.max (sma_slow s) (atr_period s) <= length data)%nat
       /\ (length data < 2)%nat)
  /\ (generate_signals rolling atr s sym data = Err TypeError
      <-> (Nat.max (sma_slow s) (atr_period s) <= length data)%nat
          /\ (2 <= length data)%nat
          /\ (bullish rolling s data = true \/ bearish rolling s data = true)
          /\ atr data (atr_period s) = None)
  /\ (forall e, generate_signals rolling atr s sym data = Err e ->
        e = IndexError \/ e = TypeError)
  /\ (forall l, generate_signals rolling atr s sym data = Ok l ->
        (length l <= 1)%nat
        /\ forall sig, sig ∈ l ->
             symbol sig = sym
             /\ confidence sig = 1
             /\ (side sig = "buy" \/ side sig = "sell")
             /\ exists last, data !! (length data - 1)%nat = Some last
                             /\ entry_price sig = close last).
Proof.
  pose proof (generate_signals_cases s sym data) as Hcases.
  split; [|split; [|split]].
  - destruct Hcases
      as [(Hg & H) | [(Hg & Hrows & H) | (Hg & Hrows & last & _ & H)]].
    + rewrite H. split; [discriminate | lia].
    + rewrite H. split; [auto | reflexivity].
    + split; [|lia].
      destruct H as [(_ & _ & H) | [(_ & col & _ & H)
                     | [(_ & _ & _ & H) | [(_ & _ & col & _ & H) | (_ & _ & H)]]]];
        rewrite H; discriminate.
  - destruct Hcases
      as [(Hg & H) | [(Hg & Hrows & H) | (Hg & Hrows & last & _ & H)]].
    + rewrite H. split; [discriminate | lia].
    + rewrite H. split; [discriminate | lia].
    + destruct H as [(Hb & Hnone & H) | [(Hb & col & Hcol & H)
                     | [(Hb & Hs & Hnone & H)
                        | [(Hb & Hs & col & Hcol & H) | (Hb & Hs & H)]]]];
        rewrite H.
      * split; [auto | reflexivity].
      * split; [discriminate|]. intros (_ & _ & _ & Hnone).
        rewrite Hnone in Hcol. discriminate Hcol.
      * split; [auto | reflexivity].
      * split; [discriminate|]. intros (_ & _ & _ & Hnone).
        rewrite Hnone in Hcol. discriminate Hcol.
      * split; [discriminate|]. intros (_ & _ & [Hx | Hx] & _).
        -- rewrite Hx in Hb. discriminate Hb.
        -- rewrite Hx in Hs. discriminate Hs.
  - intros e He.
    destruct Hcases
      as [(_ & H) | [(_ & _ & H) | (_ & _ & last & _ & H)]].
    + rewrite H in He. discriminate He.
    + rewrite H in He. injection He as <-. left. reflexivity.
    + destruct H as [(_ & _ & H) | [(_ & col & _ & H)
                     | [(_ & _ & _ & H) | [(_ & _ & col & _ & H) | (_ & _ & H)]]]];
        rewrite H in He; try discriminate He;
        injection He as <-; right; reflexivity.
  - intros l Hl.
    destruct (generate_signals_Ok s sym data l Hl)
      as [-> | (last & col & Hrow & _ & _ & [(-> & _) | (-> & _)])].
    + split; [cbn; lia|]. intros sig Hin. apply not_elem_of_nil in Hin. contradiction.
    + split; [cbn; lia|]. intros sig Hin.
      apply list_elem_of_singleton in Hin. subst sig. cbn.
      repeat split; auto. exists last. auto.
    + split; [cbn; lia|]. intros sig Hin.
      apply list_elem_of_singleton in Hin. subst sig. cbn.
      repeat split; auto. exists last. auto.
Qed.

(** X28.  The levels of a signal never cross its entry.  When the ATR of
    the last row is a non-negative number and both multipliers are
    non-negative, a buy signal has [stop_loss <= entry_price <= take_profit]
    and a sell signal [take_profit <= entry_price <= stop_loss]. *)
Theorem signal_levels_bracket_entry s (sym : string) data (sig : Signal)
    (col : nat -> cell) (a : Q) :
  generate_signals rolling atr s sym data = Ok [sig] ->
  atr data (atr_period s) = Some col ->
  col (length data - 1)%nat = Some a ->
  0 <= a -> 0 <= atr_mult_sl s -> 0 <= atr_mult_tp s ->
  exists sl tp,
    stop_loss sig = Some sl /\ take_profit sig = Some tp
    /\ (side sig = "buy" -> sl <= entry_price sig /\ entry_price sig <= tp)
    /\ (side sig = "sell" -> tp <= entry_price sig /\ entry_price sig <= sl).
Proof.
  intros Hsig Hatr Hcell Ha Hsl Htp.
  assert (Hrisk : 0 <= atr_mult_sl s * a)
    by (apply Qmult_le_0_compat; assumption).
  assert (Hreward : 0 <= atr_mult_tp s * atr_mult_sl s * a)
    by (repeat apply Qmult_le_0_compat; assumption).
  destruct (generate_signals_Ok s sym data [sig] Hsig)
    as [Hnil | (last & col' & _ & _ & Hatr' & [(Heq & _) | (Heq & _)])];
    [discriminate Hnil | |];
    rewrite Hatr in Hatr'; injection Hatr' as <-;
    injection Heq as ->; rewrite Hcell; cbn;
    eexists _, _; (split; [reflexivity|]); (split; [reflexivity|]);
    split; intros Hside; try discriminate Hside; split; lra.
Qed.

End TrendATRShape.

(** Windows of one row on a table of one row: the length guard passes and
    reading the second-to-last row raises [IndexError].  With two rows 1, 9,
    windows of one row and no ATR series the crossover raises
    [TypeError]. *)
Lemma generate_signals_shape_witness :
  let bar c := {| TrendATR.open := c; TrendATR.high := c; TrendATR.low := c;
                  TrendATR.close := c; TrendATR.volume := 1 |} in
  let s := {| TrendATR.sma_fast := 1; TrendATR.sma_slow := 1;
              TrendATR.atr_period := 1;
              TrendATR.atr_mult_sl := 2; TrendATR.atr_mult_tp := 2 |} in
  let s2 := {| TrendATR.sma_fast := 1; TrendATR.sma_slow := 2;
               TrendATR.atr_period := 0;
               TrendATR.atr_mult_sl := 2; TrendATR.atr_mult_tp := 2 |} in
  let atr := fun (_ : list TrendATR.OHLCV) (_ : nat) =>
               @None (nat -> TrendATR.cell) in
  TrendATR.generate_signals TrendATR.rolling_mean atr s "BTC/USDT" [bar 1]
  = TrendATR.Err IndexError
  /\ TrendATR.generate_signals TrendATR.rolling_mean atr s2 "BTC/USDT"
       [bar 1; bar 1; bar 9]
     = TrendATR.Err TypeError.
Proof.
  intros bar s s2 atr.
  destruct (generate_signals_shape TrendATR.rolling_mean atr s "BTC/USDT" [bar 1])
    as (Hindex & _).
  destruct (generate_signals_shape TrendATR.rolling_mean atr s2 "BTC/USDT"
              [bar 1; bar 1; bar 9]) as (_ & Htype & _).
  split.
  - apply Hindex. cbn. lia.
  - apply Htype. split; [cbn; lia|]. split; [cbn; lia|].
    split; [left; vm_compute; reflexivity | reflexivity].
Defined.

(** Closes 10, 10, 10, 20 with an ATR of 1 and multipliers 2: the stop is
    not above and the target not below the entry. *)
Lemma signal_levels_bracket_entry_witness :
  let bar c := {| TrendATR.open := c; TrendATR.high := c; TrendATR.low := c;
                  TrendATR.close := c; TrendATR.volume := 1 |} in
  let s := {| TrendATR.sma_fast := 1; TrendATR.sma_slow := 2;
              TrendATR.atr_period := 1;
              TrendATR.atr_mult_sl := 2; TrendATR.atr_mult_tp := 2 |} in
  let col := fun _ : nat => Some 1 in
  let atr := fun (_ : list TrendATR.OHLCV) (_ : nat) => Some col in
  exists sig sl tp,
    TrendATR.generate_signals TrendATR.rolling_mean atr s "BTC/USDT"
      [bar 10; bar 10; bar 10; bar 20]
      = TrendATR.Ok [sig]
    /\ TrendATR.stop_loss sig = Some sl /\ TrendATR.take_profit sig = Some tp
    /\ sl <= 20 /\ 20 <= tp.
Proof.
  intros bar s col atr.
  destruct (TrendATR.generate_signals TrendATR.rolling_mean atr s "BTC/USDT"
              [bar 10; bar 10; bar 10; bar 20]) as [[|sig [|]]|] eqn:E;
    try (vm_compute in E; discriminate E).
  destruct (signal_levels_bracket_entry TrendATR.rolling_mean atr s "BTC/USDT"
              [bar 10; bar 10; bar 10; bar 20] sig col 1 E)
    as (sl & tp & Hsl & Htp & Hbuy & _).
  - reflexivity.
  - reflexivity.
  - apply Qle_bool_iff. reflexivity.
  - apply Qle_bool_iff. reflexivity.
  - apply Qle_bool_iff. reflexivity.
  - assert (Hentry : TrendATR.entry_price sig = 20
                     /\ TrendATR.side sig = "buy").
    { vm_compute in E. injection E as <-. split; reflexivity. }
    destruct Hentry as [Hentry Hside].
    destruct (Hbuy Hside) as (Hlow & Hhigh).
    rewrite Hentry in Hlow, Hhigh.
    exists sig, sl, tp. repeat split; assumption.
Defined.

Section TrendATRExact.
Import TrendATR.

Variable atr : list OHLCV -> nat -> option (nat -> cell).

Implicit Types (s : TrendATRStrategy) (data : list OHLCV).

(** X26.  The length guard is one row short of what a signal needs.  A
    table with at most [sma_slow] rows never yields a signal: with two rows
    or more the call returns the empty list, because the slow average of the
    second-to-last row is not yet defined.  A crossover can only be reported
    from [sma_slow + 1] rows on. *)
Theorem generate_signals_needs_one_more_row s (sym : string) data :
  (length data <= sma_slow s)%nat ->
  ((2 <= length data)%nat ->
   generate_signals rolling_mean atr s sym data = Ok [])
  /\ forall l, generate_signals rolling_mean atr s sym data = Ok l -> l = [].
Proof.
  intros Hshort.
  assert (Hnan : (2 <= length data)%nat ->
                 sma_slow_at rolling_mean s data (length data - 2) = None).
  { intros Hrows. unfold sma_slow_at, rolling_mean.
    assert (E : (length data - 2 + 1 <? sma_slow s)%nat = true)
      by (apply Nat.ltb_lt; lia).
    rewrite E, orb_true_r. reflexivity. }
  assert (Hempty : forall l,
             generate_signals rolling_mean atr s sym data = Ok l -> l = []).
  { intros l Hl.
    destruct (generate_signals_Ok rolling_mean atr s sym data l Hl)
      as [-> | (last & col & _ & Hrows & _ & [(_ & Hle & _) | (_ & Hle & _)])];
      [reflexivity | |];
      rewrite (Hnan Hrows) in Hle.
    - destruct (sma_fast_at rolling_mean s data (length data - 2));
        discriminate Hle.
    - discriminate Hle. }
  split; [|exact Hempty].
  intros Hrows. unfold generate_signals.
  destruct (length data <? Nat.max (sma_slow s) (atr_period s))%nat;
    [reflexivity|].
  assert (E : (length data <? 2)%nat = false) by (apply Nat.ltb_ge; exact Hrows).
  rewrite E.
  destruct (lookup_lt_is_Some_2 data (length data - 1)) as [last ->]; [lia|].
  rewrite (Hnan Hrows).
  destruct (sma_fast_at rolling_mean s data (length data - 2)); reflexivity.
Qed.

Lemma sum_list_flat (c : Q) (l : list Q) :
  Forall (fun x => x == c) l ->
  sum_list l == inject_Z (Z.of_nat (length l)) * c.
Proof.
  induction 1 as [|x l Hx _ IH].
  - cbn. ring.
  - cbn [sum_list foldr length]. fold (sum_list l). rewrite IH, Hx.
    rewrite Nat2Z.inj_succ. unfold Z.succ. rewrite inject_Z_plus. ring.
Qed.

(** The rolling mean of a flat series is the level of the series. *)
Lemma rolling_mean_flat (c : Q) (w : nat) (xs : list Q) (i : nat) (v : Q) :
  Forall (fun x => x == c) xs -> rolling_mean w xs i = Some v -> v == c.
Proof.
  intros Hflat. unfold rolling_mean.
  destruct (w =? 0)%nat eqn:Ew; [discriminate|].
  destruct (i + 1 <? w)%nat eqn:Ei; [discriminate|].
  destruct (length xs <=? i)%nat eqn:El; [discriminate|].
  apply Nat.eqb_neq in Ew. apply Nat.ltb_ge in Ei. apply Nat.leb_gt in El.
  intros [= <-].
  rewrite (sum_list_flat c).
  - rewrite length_take, length_drop.
    replace (w `min` (length xs - (i + 1 - w)))%nat with w by lia.
    field. intros Hz. unfold Qeq in Hz. cbn in Hz. lia.
  - apply Forall_take, Forall_drop. exact Hflat.
Qed.

(** X27.  A flat series emits no signal: when every close of the table
    equals the same value, [generate_signals] never returns a signal,
    whatever the windows and the ATR. *)
Theorem generate_signals_flat s (sym : string) data (c : Q) :
  Forall (fun row => close row == c) data ->
  forall l, generate_signals rolling_mean atr s sym data = Ok l -> l = [].
Proof.
  intros Hflat l Hl.
  assert (Hcloses : Forall (fun x => x == c) (close <$> data))
    by (apply Forall_fmap; exact Hflat).
  assert (Hno : forall w w' i, cell_lt (rolling_mean w (close <$> data) i)
                                       (rolling_mean w' (close <$> data) i)
                               = false).
  { intros w w' i.
    destruct (rolling_mean w (close <$> data) i) as [a|] eqn:Ea; [|reflexivity].
    destruct (rolling_mean w' (close <$> data) i) as [b|] eqn:Eb; [|reflexivity].
    cbn. apply Qltb_ge.
    rewrite (rolling_mean_flat c _ _ _ _ Hcloses Ea).
    rewrite (rolling_mean_flat c _ _ _ _ Hcloses Eb). apply Qle_refl. }
  destruct (generate_signals_Ok rolling_mean atr s sym data l Hl)
    as [-> | (last & col & _ & _ & _ & [(_ & _ & Hlt) | (_ & _ & Hlt)])];
    [reflexivity | |];
    unfold sma_fast_at, sma_slow_at in Hlt; rewrite Hno in Hlt; discriminate Hlt.
Qed.

End TrendATRExact.

(** Windows 1 and 3 on exactly three rows 1, 1, 9: the guard passes, the
    fast average jumps above the slow one at the last row, and nothing is
    reported. *)
Lemma generate_signals_needs_one_more_row_witness :
  let bar c := {| TrendATR.open := c; TrendATR.high := c; TrendATR.low := c;
                  TrendATR.close := c; TrendATR.volume := 1 |} in
  let s := {| TrendATR.sma_fast := 1; TrendATR.sma_slow := 3;
              TrendATR.atr_period := 1;
              TrendATR.atr_mult_sl := 2; TrendATR.atr_mult_tp := 2 |} in
  let atr := fun (_ : list TrendATR.OHLCV) (_ : nat) =>
               Some (fun _ : nat => Some 1) in
  TrendATR.generate_signals TrendATR.rolling_mean atr s "BTC/USDT"
    [bar 1; bar 1; bar 9] = TrendATR.Ok [].
Proof.
  intros bar s atr.
  apply (generate_signals_needs_one_more_row atr s "BTC/USDT" [bar 1; bar 1; bar 9]);
    cbn; lia.
Defined.

(** Five rows all closing at 7. *)
Lemma generate_signals_flat_witness :
  let bar c := {| TrendATR.open := c; TrendATR.high := c; TrendATR.low := c;
                  TrendATR.close := c; TrendATR.volume := 1 |} in
  let s := {| TrendATR.sma_fast := 2; TrendATR.sma_slow := 3;
              TrendATR.atr_period := 2;
              TrendATR.atr_mult_sl := 2; TrendATR.atr_mult_tp := 2 |} in
  let atr := fun (_ : list TrendATR.OHLCV) (_ : nat) =>
               Some (fun _ : nat => Some 1) in
  TrendATR.generate_signals TrendATR.rolling_mean atr s "BTC/USDT"
    [bar 7; bar 7; bar 7; bar 7; bar 7]
  = TrendATR.Ok [].
Proof.
  intros bar s atr.
  destruct (TrendATR.generate_signals TrendATR.rolling_mean atr s "BTC/USDT"
              [bar 7; bar 7; bar 7; bar 7; bar 7]) as [l|e] eqn:E;
    [|vm_compute in E; discriminate E].
  f_equal.
  apply (generate_signals_flat atr s "BTC/USDT"
           [bar 7; bar 7; bar 7; bar 7; bar 7] 7); [|exact E].
  repeat constructor.
Defined.

(** ** Rebalancer: the pre-check *)

Section RebalanceMore.
Import Rebalance.

Lemma existsb_false_elem {A} (f : A -> bool) (l : list A) :
  existsb f l = false -> forall x, x ∈ l -> f x = false.
Proof.
  induction l as [|y l IH]; intros H x Hin.
  - apply not_elem_of_nil in Hin. contradiction.
  - cbn in H. apply orb_false_iff in H as [Hy Hl].
    apply elem_of_cons in Hin as [->|Hin]; [exact Hy | exact (IH Hl x Hin)].
Qed.

(** X29.  [should_rebalance] is a sound pre-check for a portfolio of
    positive total value: when it answers [False],
    [calculate_rebalance_trades] emits no trade at all, whatever the prices;
    equivalently a symbol can only be traded if the pre-check answers
    [True].  For a total value of zero the pre-check always answers
    [False]. *)
Theorem should_rebalance_sound (r : Rebalancer)
    (current_allocation target_allocation prices : gmap string Q) :
  (sum_values current_allocation == 0 ->
   should_rebalance r current_allocation target_allocation = false)
  /\ (0 < sum_values current_allocation ->
      (should_rebalance r current_allocation target_allocation = false ->
       calculate_rebalance_trades r current_allocation target_allocation prices = ∅)
      /\ (forall sym t,
            calculate_rebalance_trades r current_allocation target_allocation
              prices !! sym = Some t ->
            should_rebalance r current_allocation target_allocation = true)).
Proof.
  split.
  - intros Hz. unfold should_rebalance.
    apply Qeq_bool_iff in Hz. rewrite Hz. reflexivity.
  - intros Hpos.
    assert (Hquiet :
      should_rebalance r current_allocation target_allocation = false ->
      calculate_rebalance_trades r current_allocation target_allocation prices = ∅).
    { unfold should_rebalance.
      destruct (Qeq_bool (sum_values current_allocation) 0) eqn:Ez.
      { apply Qeq_bool_iff in Ez. rewrite Ez in Hpos.
        exfalso. exact (Qlt_irrefl _ Hpos). }
      intros Hnone. apply map_eq. intros sym.
      rewrite calculate_rebalance_trades_lookup, lookup_empty.
      destruct (decide (sym ∈ dom current_allocation ∪ dom target_allocation))
        as [Hin|]; [|reflexivity].
      assert (Hsym : sym ∈ symbols current_allocation target_allocation)
        by (unfold symbols; apply elem_of_elements; exact Hin).
      pose proof (existsb_false_elem _ _ Hnone sym Hsym) as Hdev.
      cbv zeta in Hdev. apply Qle_bool_false in Hdev.
      unfold trade_for.
      apply Qltb_lt in Hpos. rewrite Hpos.
      apply Qltb_lt in Hdev. rewrite Hdev. reflexivity. }
    split; [exact Hquiet|].
    intros sym t Ht.
    destruct (should_rebalance r current_allocation target_allocation) eqn:E;
      [reflexivity|].
    rewrite (Hquiet eq_refl), lookup_empty in Ht. discriminate Ht.
Qed.

End RebalanceMore.

(** A 10000 portfolio whose two targets are within 1% of the current
    values: the pre-check says no and no trade is computed. *)
Lemma should_rebalance_sound_witness :
  let current := <["BTC" := 6000]> {["ETH" := 4000]} : gmap string Q in
  let target := <["BTC" := 5900]> {["ETH" := 4100]} : gmap string Q in
  let prices := <["BTC" := 50000]> {["ETH" := 2000]} : gmap string Q in
  Rebalance.should_rebalance Rebalance.with_defaults current target = false
  /\ Rebalance.calculate_rebalance_trades Rebalance.with_defaults
       current target prices = ∅.
Proof.
  intros current target prices.
  assert (Hno : Rebalance.should_rebalance Rebalance.with_defaults current target
                = false) by (vm_compute; reflexivity).
  split; [exact Hno|].
  apply (should_rebalance_sound Rebalance.with_defaults current target prices).
  - apply Qltb_lt. vm_compute. reflexivity.
  - exact Hno.
Defined.

(** ** Position sizing *)

Section SizingProperties.
Import Sizing.






End SizingProperties.

(** ** Concrete instances *)

(** A log with one entry two days old and one entry a microsecond old: the
    call keeps the recent entry and drops the old one. *)
Lemma can_place_order_only_prunes_witness :
  let old := {| Limits.timestamp := 0; Limits.symbol := "BTC/USDT";
                Limits.side := "buy" |} in
  let recent := {| Limits.timestamp := 2 * microseconds_per_day;
                   Limits.symbol := "BTC/USDT"; Limits.side := "sell" |} in
  let rl := Limits.set_trade_history [old; recent] Limits.with_defaults in
  let now := (2 * microseconds_per_day + 1)%Z in
  let rl1 :=
    Limits.set_trade_history
      (Limits.newer_than (now - microseconds_per_day) (Limits.trade_history rl))
      rl in
  recent ∈ Limits.trade_history rl1 /\ ~ old ∈ Limits.trade_history rl1.
Proof.
  intros old recent rl now rl1.
  pose proof (can_place_order_only_prunes rl now "BTC/USDT" "buy" 1000 10000)
    as H.
  cbv zeta in H. destruct H as (_ & _ & Hlog).
  split.
  - apply Hlog. split.
    + apply elem_of_cons. right. apply elem_of_cons. left. reflexivity.
    + reflexivity.
  - intros Hin. apply Hlog in Hin as [_ Hlt]. discriminate Hlt.
Defined.

(** One long position "p" with stop 95 and target 110 in an otherwise empty
    registry. *)
Lemma stops_registry_witness :
  let stops := StopRules.set_stops "p" 100 "buy" (Some 95) (Some 110) None ∅ in
  StopRules.get_stops "p" stops
  = Some {| StopRules.stop_loss := Some 95; StopRules.take_profit := Some 110;
            StopRules.trailing_stop_distance := None;
            StopRules.highest_price := Some 100;
            StopRules.lowest_price := None |}
  /\ StopRules.get_stops "q" stops = None
  /\ StopRules.check_stops "p" 90 "buy" (StopRules.remove_stops "p" stops)
     = (false, None)
  /\ StopRules.update_trailing_stop "p" 120 "buy" stops = (None, stops).
Proof.
  intros stops.
  destruct (stops_registry ∅ "p" "q" 100 "buy" "buy" (Some 95) (Some 110) None 120)
    as (Hget & Hother & _ & _ & _ & _ & _ & Htrail).
  destruct (stops_registry stops "p" "q" 100 "buy" "buy" (Some 95) (Some 110)
              None 90) as (_ & _ & _ & _ & _ & Hcheck & _).
  assert (Hne : "q" <> "p") by discriminate.
  split; [exact Hget|]. split; [|split].
  - etransitivity; [exact (proj1 (Hother Hne)) | reflexivity].
  - exact Hcheck.
  - exact Htrail.
Defined.
